(** * FLASH: stage-aware verdict engine of [api_server.py] and
      [api_integration_advanced.py]

    A shallow embedding of the deterministic aggregation pipeline of the
    prediction server: the stage profile lookups, the critical failure
    detector, the pillar risk adjuster, the verdict classifier with its
    probability reconciliation, the model-family fusion of
    [predict_advanced], and the insight generator.  Around the pipeline:
    the derived fields of the request schema, the risk label, the
    recommendation text, the response of [predict], the rate limiting
    decorator with the endpoints it wraps, and the temporal insights of
    [temporal_models.py].

    Modelling conventions.
    - A Python [float] is an exact rational ([Q]).  The comparisons of the
      embedded code are between numbers, decimal literals and arrival
      times, and the properties proved below depend on the order and field
      structure only.
    - The request payload [data : Dict[str, Any]] is a finite map from
      strings to dynamically typed values ([pyval]).
    - A [Dict[str, float]] that the code iterates over (the pillar scores)
      is the list of its items in iteration order; its keys are distinct.
    - Exceptions are explicit: a computation is a [result], either [Ok v]
      or [Raise e]; where the code meets an exception beyond the three
      builtins of [pyerr], an [outcome], either [Done v] or [Throw e].
    - The module-level [rate_limit_storage] is passed in and out of every
      endpoint. *)

From Stdlib Require Import QArith Lqa ZArith Sorted.
From stdpp Require Import gmap strings list.

Open Scope Q_scope.

(** ** Python values and exceptions *)

Module Py.

Inductive pyval : Type :=
| PyNone
| PyBool (b : bool)
| PyInt (n : Z)
| PyFloat (x : Q)
| PyStr (s : string).

Inductive pyerr : Type :=
| KeyError (key : string)
| TypeError
| ZeroDivisionError.

Inductive result (A : Type) : Type :=
| Ok (a : A)
| Raise (e : pyerr).
Arguments Ok {A} a.
Arguments Raise {A} e.

Definition bind {A B} (m : result A) (k : A -> result B) : result B :=
  match m with
  | Ok a => k a
  | Raise e => Raise e
  end.

(** [x < y] and friends on floats, as booleans. *)
Definition Qltb (x y : Q) : bool := negb (Qle_bool y x).
Definition Qgeb (x y : Q) : bool := Qle_bool y x.

(** The numeric reading of a value: [bool] is a subtype of [int]. *)
Definition as_number (v : pyval) : option Q :=
  match v with
  | PyBool b => Some (if b then 1 else 0)
  | PyInt n => Some (inject_Z n)
  | PyFloat x => Some x
  | PyNone | PyStr _ => None
  end.

Definition is_number (v : pyval) : bool :=
  match as_number v with Some _ => true | None => false end.

(** [v < c], [v > c], [v >= c] for a numeric literal [c]: ordering a
    string or [None] against a number raises [TypeError]. *)
Definition num_lt (v : pyval) (c : Q) : result bool :=
  match as_number v with
  | Some x => Ok (Qltb x c)
  | None => Raise TypeError
  end.

Definition num_gt (v : pyval) (c : Q) : result bool :=
  match as_number v with
  | Some x => Ok (Qltb c x)
  | None => Raise TypeError
  end.

Definition num_ge (v : pyval) (c : Q) : result bool :=
  match as_number v with
  | Some x => Ok (Qgeb x c)
  | None => Raise TypeError
  end.

(** [v == c] for a numeric literal [c]: never raises. *)
Definition num_eq (v : pyval) (c : Q) : bool :=
  match as_number v with
  | Some x => Qeq_bool x c
  | None => false
  end.

(** Truth value of an object in a boolean context. *)
Definition truthy (v : pyval) : bool :=
  match v with
  | PyNone => false
  | PyBool b => b
  | PyInt n => negb (Z.eqb n 0)
  | PyFloat x => negb (Qeq_bool x 0)
  | PyStr s => negb (String.eqb s "")
  end.

(** [v in [s1, s2, ...]] for a list of string literals. *)
Definition in_strs (v : pyval) (l : list string) : bool :=
  match v with
  | PyStr s => existsb (String.eqb s) l
  | _ => false
  end.

(** [d.get(k, dflt)] and [d[k]]. *)
Definition dict_get {V} (d : gmap string V) (k : string) (dflt : V) : V :=
  match d !! k with
  | Some v => v
  | None => dflt
  end.

Definition dict_index {V} (d : gmap string V) (k : string) : result V :=
  match d !! k with
  | Some v => Ok v
  | None => Raise (KeyError k)
  end.

(** The same two operations on a dict kept as its item list. *)
Fixpoint items_lookup {V} (d : list (string * V)) (k : string) : option V :=
  match d with
  | [] => None
  | (k', v) :: d' => if String.eqb k' k then Some v else items_lookup d' k
  end.

Definition items_get {V} (d : list (string * V)) (k : string) (dflt : V) : V :=
  match items_lookup d k with
  | Some v => v
  | None => dflt
  end.

Definition items_index {V} (d : list (string * V)) (k : string) : result V :=
  match items_lookup d k with
  | Some v => Ok v
  | None => Raise (KeyError k)
  end.

(** Builtins [min(a, b)] and [max(a, b)]: the first argument is kept
    unless the second is strictly smaller (resp. larger). *)
Definition py_min (a b : Q) : Q := if Qltb b a then b else a.
Definition py_max (a b : Q) : Q := if Qltb a b then b else a.

(** True division of floats. *)
Definition py_div (a b : Q) : result Q :=
  if Qeq_bool b 0 then Raise ZeroDivisionError else Ok (a / b).

(** [int(x)]: truncation towards zero. *)
Definition py_int (x : Q) : Z := Z.quot (Qnum x) (Zpos (Qden x)).

(** [if c: l.append(x)]. *)
Definition append_if {A} (c : bool) (x : A) (l : list A) : list A :=
  if c then l ++ [x] else l.

(** A comprehension whose body may raise. *)
Fixpoint mapM {A B} (f : A -> result B) (l : list A) : result (list B) :=
  match l with
  | [] => Ok []
  | x :: l' =>
      bind (f x) (fun y => bind (mapM f l') (fun ys => Ok (y :: ys)))
  end.

Fixpoint filterM {A} (f : A -> result bool) (l : list A) : result (list A) :=
  match l with
  | [] => Ok []
  | x :: l' =>
      bind (f x) (fun c =>
      bind (filterM f l') (fun ys => Ok (if c then x :: ys else ys)))
  end.

(** [sum(xs)]: left to right, from [0]. *)
Definition py_sum (xs : list Q) : Q := fold_left Qplus xs 0.

End Py.
Import Py.

Notation "'let*' x ':=' m 'in' k" := (bind m (fun x => k))
  (at level 10, x name, m at level 100, k at level 200).

(** ** StageProfile registry *)

(** [StartupMetrics.funding_stage]: the alternatives of the schema pattern
    [^(pre_seed|seed|series_a|series_b|series_c|growth)$]. *)
Definition funding_stage_pattern : list string :=
  ["pre_seed"; "seed"; "series_a"; "series_b"; "series_c"; "growth"].

Definition funding_stage_valid (s : string) : bool :=
  existsb (String.eqb s) funding_stage_pattern.

(** [StartupMetrics.investor_tier_primary]: [^(tier_1|tier_2|tier_3|none)$]. *)
Definition investor_tier_pattern : list string :=
  ["tier_1"; "tier_2"; "tier_3"; "none"].

Definition investor_tier_valid (s : string) : bool :=
  existsb (String.eqb s) investor_tier_pattern.

Definition mk_profile (capital advantage market people : Q) : gmap string Q :=
  list_to_map
    [("capital", capital); ("advantage", advantage);
     ("market", market); ("people", people)].

(** The dict literal [weights] of [get_stage_weights]. *)
Definition stage_weights_table : gmap string (gmap string Q) :=
  list_to_map
    [("Pre-seed", mk_profile 0.15 0.30 0.20 0.35);
     ("Seed",     mk_profile 0.20 0.30 0.25 0.25);
     ("Series A", mk_profile 0.25 0.25 0.30 0.20);
     ("Series B", mk_profile 0.25 0.25 0.30 0.20);
     ("Series C", mk_profile 0.30 0.20 0.30 0.20)].

(** The dict literal [thresholds] of [get_stage_thresholds]. *)
Definition stage_thresholds_table : gmap string (gmap string Q) :=
  list_to_map
    [("Pre-seed", mk_profile 0.30 0.40 0.30 0.50);
     ("Seed",     mk_profile 0.35 0.45 0.40 0.50);
     ("Series A", mk_profile 0.45 0.50 0.50 0.45);
     ("Series B", mk_profile 0.50 0.55 0.55 0.50);
     ("Series C", mk_profile 0.55 0.60 0.60 0.55)].

(** [table.get(funding_stage, table["Seed"])]: the default is evaluated
    first; a key that is not a string never hits a string-keyed table. *)
Definition stage_lookup (table : gmap string (gmap string Q))
    (funding_stage : pyval) : result (gmap string Q) :=
  let* seed := dict_index table "Seed" in
  Ok (match funding_stage with
      | PyStr s => dict_get table s seed
      | _ => seed
      end).

Definition get_stage_weights (funding_stage : pyval) : result (gmap string Q) :=
  let weights := stage_weights_table in
  stage_lookup weights funding_stage.

Definition get_stage_thresholds (funding_stage : pyval) : result (gmap string Q) :=
  let thresholds := stage_thresholds_table in
  stage_lookup thresholds funding_stage.

(** The "Seed" rows, the fallback of the two lookups. *)
Definition seed_weights : gmap string Q := mk_profile 0.20 0.30 0.25 0.25.
Definition seed_thresholds : gmap string Q := mk_profile 0.35 0.45 0.40 0.50.

(** The threshold of one pillar at one stage. *)
Definition threshold_of (stage pillar : string) : result Q :=
  let* thresholds := get_stage_thresholds (PyStr stage) in
  dict_index thresholds pillar.

(** Keys of the tables in the order of the funding rounds. *)
Definition stage_order : list string :=
  ["Pre-seed"; "Seed"; "Series A"; "Series B"; "Series C"].

Definition pillars : list string := ["capital"; "advantage"; "market"; "people"].

(** Thresholds of [pillar] do not decrease along [stages]. *)
Definition non_decreasing_along (pillar : string) (stages : list string) : Prop :=
  forall (i j : nat) (s1 s2 : string),
    stages !! i = Some s1 -> stages !! j = Some s2 -> (i <= j)%nat ->
    exists a b : Q,
      threshold_of s1 pillar = Ok a /\ threshold_of s2 pillar = Ok b /\ a <= b.

(** ** Critical failure detector *)

Definition runway_failure : string :=
  "Less than 3 months runway - immediate funding required".
Definition burn_failure : string :=
  "Burning >5x revenue - unsustainable burn rate".
Definition concentration_failure : string :=
  "Over 80% customer concentration - extreme dependency risk".
Definition churn_failure : string :=
  "Monthly churn >20% - severe retention crisis".
Definition founder_failure : string :=
  "Single founder with high key person risk".

Definition check_critical_failures (data : gmap string pyval)
    : result (list string) :=
  let failures := [] in
  (* Critical financial failures *)
  let* c := num_lt (dict_get data "runway_months" (PyInt 0)) 3 in
  let failures := append_if c runway_failure failures in
  let* c := num_gt (dict_get data "burn_multiple" (PyInt 0)) 5 in
  let failures := append_if c burn_failure failures in
  (* Critical market failures *)
  let* c := num_gt (dict_get data "customer_concentration_percent" (PyInt 0)) 80 in
  let failures := append_if c concentration_failure failures in
  let* c := num_gt (dict_get data "churn_rate" (PyInt 0)) 20 in
  let failures := append_if c churn_failure failures in
  (* Critical team failures *)
  let c := num_eq (dict_get data "founders_count" (PyInt 1)) 1
           && truthy (dict_get data "key_person_dependency" (PyBool true)) in
  let failures := append_if c founder_failure failures in
  Ok failures.

(** The list the detector builds from the four readings. *)
Definition failures_of (data : gmap string pyval)
    (runway burn concentration churn : Q) : list string :=
  append_if
    (num_eq (dict_get data "founders_count" (PyInt 1)) 1
     && truthy (dict_get data "key_person_dependency" (PyBool true)))
    founder_failure
    (append_if (Qltb 20 churn) churn_failure
    (append_if (Qltb 80 concentration) concentration_failure
    (append_if (Qltb 5 burn) burn_failure
    (append_if (Qltb runway 3) runway_failure [])))).

(** ** Pillar risk adjuster *)

Definition calculate_risk_adjusted_score (base_score : Q) (pillar_name : string)
    (data : gmap string pyval) : result Q :=
  let adjusted := base_score in
  (* Risk factors (negative adjustments) *)
  let* adjusted :=
    if String.eqb pillar_name "market" then
      let* c := num_gt (dict_get data "customer_concentration_percent" (PyInt 0)) 50 in
      let adjusted := if c then adjusted - 0.1 else adjusted in
      let* c := num_gt (dict_get data "regulatory_risk_score" (PyInt 0)) 4 in
      let adjusted := if c then adjusted - 0.15 else adjusted in
      let* c := num_ge (dict_get data "competition_intensity" (PyInt 0)) 4 in
      Ok (if c then adjusted - 0.05 else adjusted)
    else if String.eqb pillar_name "capital" then
      let* c :=
        if truthy (dict_get data "has_debt" (PyBool false))
        then num_gt (dict_get data "debt_to_equity_ratio" (PyInt 0)) 2
        else Ok false in
      let adjusted := if c then adjusted - 0.1 else adjusted in
      let c := negb (in_strs (dict_get data "investor_tier_primary" PyNone)
                             ["Tier 1"; "Tier 2"]) in
      Ok (if c then adjusted - 0.05 else adjusted)
    else if String.eqb pillar_name "advantage" then
      let c := negb (truthy (dict_get data "network_effects_present" (PyBool false))) in
      let adjusted := if c then adjusted - 0.05 else adjusted in
      let* c := num_lt (dict_get data "switching_cost_score" (PyInt 0)) 3 in
      Ok (if c then adjusted - 0.05 else adjusted)
    else if String.eqb pillar_name "people" then
      let c := num_eq (dict_get data "prior_successful_exits_count" (PyInt 0)) 0 in
      let adjusted := if c then adjusted - 0.05 else adjusted in
      let* c := num_lt (dict_get data "team_diversity_percent" (PyInt 0)) 20 in
      Ok (if c then adjusted - 0.05 else adjusted)
    else Ok adjusted in
  (* Positive factors (positive adjustments) *)
  let* c :=
    if String.eqb pillar_name "advantage"
    then num_gt (dict_get data "patent_count" (PyInt 0)) 5 else Ok false in
  let adjusted := if c then adjusted + 0.05 else adjusted in
  let* c :=
    if String.eqb pillar_name "market"
    then num_gt (dict_get data "net_dollar_retention_percent" (PyInt 0)) 130
    else Ok false in
  let adjusted := if c then adjusted + 0.1 else adjusted in
  let* c :=
    if String.eqb pillar_name "people"
    then num_gt (dict_get data "prior_successful_exits_count" (PyInt 0)) 1
    else Ok false in
  let adjusted := if c then adjusted + 0.1 else adjusted in
  Ok (py_max 0 (py_min 1 adjusted)).

(** ** Verdict classifier and probability reconciliation *)

(** The dict returned by [evaluate_startup_comprehensive]. *)
Record evaluation : Type := {
  verdict : string;
  strength : string;
  risk_level : string;
  adjusted_probability : Q;
  weighted_score : Q;
  adjusted_pillar_scores : list (string * Q);
  below_threshold : list string;
  critical_failures : list string;
  stage_weights : gmap string Q;
  stage_thresholds : gmap string Q
}.

Definition evaluate_startup_comprehensive (pillar_scores : list (string * Q))
    (data : gmap string pyval) (base_probability : Q) : result evaluation :=
  let funding_stage := dict_get data "funding_stage" (PyStr "Seed") in
  (* 1. Check critical failures *)
  let* critical_failures := check_critical_failures data in
  (* 2. Apply risk adjustments to pillar scores *)
  let* adjusted_scores :=
    mapM (fun '(pillar, score) =>
            let* adjusted := calculate_risk_adjusted_score score pillar data in
            Ok (pillar, adjusted))
         pillar_scores in
  (* 3. Get stage-specific weights and thresholds *)
  let* weights := get_stage_weights funding_stage in
  let* thresholds := get_stage_thresholds funding_stage in
  (* 4. Check which pillars are below threshold *)
  let* below :=
    filterM (fun '(pillar, score) =>
               let* t := dict_index thresholds pillar in
               Ok (Qltb score t))
            adjusted_scores in
  let below_threshold := map fst below in
  (* 5. Calculate weighted score *)
  let* terms :=
    mapM (fun pillar =>
            let* score := items_index adjusted_scores pillar in
            let* w := dict_index weights pillar in
            Ok (score * w))
         (map fst adjusted_scores) in
  let weighted_score := py_sum terms in
  (* 6. Determine verdict and risk level *)
  let '(verdict, risk_level, strength) :=
    if negb (Nat.eqb (length critical_failures) 0) then
      ("FAIL", "Critical Risk", "CRITICAL")
    else if Nat.eqb (length below_threshold) 0 && Qgeb weighted_score 0.6 then
      ("PASS", "Low Risk", "STRONG")
    else if Nat.leb (length below_threshold) 1 && Qgeb weighted_score 0.55 then
      ("CONDITIONAL PASS", "Medium Risk", "MODERATE")
    else if Qgeb weighted_score 0.5 && Nat.leb (length below_threshold) 2 then
      ("CONDITIONAL PASS", "Medium-High Risk", "WEAK")
    else
      ("FAIL", "High Risk", "WEAK") in
  (* 7. Adjust final probability based on comprehensive evaluation *)
  let adjusted_probability :=
    if String.eqb verdict "FAIL" then
      py_min base_probability 0.45
    else if String.eqb verdict "CONDITIONAL PASS" then
      py_max 0.45 (py_min base_probability 0.65)
    else
      py_max 0.55 base_probability in
  Ok {| verdict := verdict;
        strength := strength;
        risk_level := risk_level;
        adjusted_probability := adjusted_probability;
        weighted_score := weighted_score;
        adjusted_pillar_scores := adjusted_scores;
        below_threshold := below_threshold;
        critical_failures := critical_failures;
        stage_weights := weights;
        stage_thresholds := thresholds |}.

(** Steps 6 and 7 of [evaluate_startup_comprehensive] on their own: the
    verdict rows and the reconciliation, as the code evaluates them. *)
Definition verdict_of (critical_failures below_threshold : list string)
    (weighted_score : Q) : string * string * string :=
  if negb (Nat.eqb (length critical_failures) 0) then
    ("FAIL", "Critical Risk", "CRITICAL")
  else if Nat.eqb (length below_threshold) 0 && Qgeb weighted_score 0.6 then
    ("PASS", "Low Risk", "STRONG")
  else if Nat.leb (length below_threshold) 1 && Qgeb weighted_score 0.55 then
    ("CONDITIONAL PASS", "Medium Risk", "MODERATE")
  else if Qgeb weighted_score 0.5 && Nat.leb (length below_threshold) 2 then
    ("CONDITIONAL PASS", "Medium-High Risk", "WEAK")
  else
    ("FAIL", "High Risk", "WEAK").

Definition reconcile (verdict : string) (base_probability : Q) : Q :=
  if String.eqb verdict "FAIL" then
    py_min base_probability 0.45
  else if String.eqb verdict "CONDITIONAL PASS" then
    py_max 0.45 (py_min base_probability 0.65)
  else
    py_max 0.55 base_probability.

(** The decision table of the verdict classifier as the specification
    words it: rows of (guard, outcome), read top to bottom, the first row
    whose guard holds gives the (verdict, strength, risk) triple. *)
Definition decision_rows (critical_failures : list string)
    (below_threshold : list string) (weighted_score : Q)
    : list (bool * (string * string * string)) :=
  let n := length below_threshold in
  [ (bool_decide (critical_failures <> []),
       ("FAIL", "CRITICAL", "Critical Risk"));
    (bool_decide (below_threshold = []) && Qle_bool 0.60 weighted_score,
       ("PASS", "STRONG", "Low Risk"));
    (bool_decide (n <= 1)%nat && Qle_bool 0.55 weighted_score,
       ("CONDITIONAL PASS", "MODERATE", "Medium Risk"));
    (Qle_bool 0.50 weighted_score && bool_decide (n <= 2)%nat,
       ("CONDITIONAL PASS", "WEAK", "Medium-High Risk")) ].

Fixpoint first_match {A} (rows : list (bool * A)) (otherwise : A) : A :=
  match rows with
  | [] => otherwise
  | (guard, outcome) :: rows' =>
      if guard then outcome else first_match rows' otherwise
  end.

Definition decision_table (critical_failures below_threshold : list string)
    (weighted_score : Q) : string * string * string :=
  first_match (decision_rows critical_failures below_threshold weighted_score)
              ("FAIL", "WEAK", "High Risk").

(** The two inputs of the table as the specification words them, on the
    adjusted scores and the profile of the stage: the pillars whose
    adjusted score is below the threshold of the stage, and the sum over
    the pillars of adjusted score times weight. *)
Definition spec_below_threshold (thresholds : gmap string Q)
    (adjusted_scores : list (string * Q)) : list string :=
  map fst
    (List.filter
       (fun '(pillar, score) =>
          match thresholds !! pillar with
          | Some t => Qltb score t
          | None => false
          end)
       adjusted_scores).

Definition spec_weighted_score (weights : gmap string Q)
    (adjusted_scores : list (string * Q)) : Q :=
  py_sum
    (map (fun pillar =>
            items_get adjusted_scores pillar 0 * dict_get weights pillar 0)
         (map fst adjusted_scores)).

(** ** Model-family fusion of [predict_advanced] *)

(** The block "Combine all predictions (weighted ensemble)": the opinions
    of the stage, industry and temporal models are the inputs, [None] when
    the model is not loaded. *)
Definition predict_advanced_final_proba (base_proba : Q)
    (stage_proba industry_proba : option Q)
    (temporal_preds : option (gmap string Q)) : result Q :=
  let final_proba := base_proba in
  let weight_sum := 1.0 in
  let '(final_proba, weight_sum) :=
    match stage_proba with
    | Some stage_proba => (final_proba + stage_proba * 0.2, weight_sum + 0.2)
    | None => (final_proba, weight_sum)
    end in
  let '(final_proba, weight_sum) :=
    match industry_proba with
    | Some industry_proba => (final_proba + industry_proba * 0.15, weight_sum + 0.15)
    | None => (final_proba, weight_sum)
    end in
  let* fw :=
    match temporal_preds with
    | Some preds =>
        if negb (Nat.eqb (size preds) 0)
           && bool_decide (is_Some (preds !! "medium_term"))
        then
          let* medium := dict_index preds "medium_term" in
          Ok (final_proba + medium * 0.1, weight_sum + 0.1)
        else Ok (final_proba, weight_sum)
    | None => Ok (final_proba, weight_sum)
    end in
  let '(final_proba, weight_sum) := fw in
  py_div final_proba weight_sum.

(** The fusion as the specification words it: each available opinion
    enters the numerator with its weight and the denominator with the
    same weight. *)
Definition opinion_term (w : Q) (p : option Q) : Q :=
  match p with Some x => w * x | None => 0 end.

Definition opinion_weight (w : Q) (p : option Q) : Q :=
  match p with Some _ => w | None => 0 end.

Definition fusion_formula (base : Q) (stage industry temporal_medium : option Q) : Q :=
  (base + opinion_term 0.2 stage
   + opinion_term 0.15 industry + opinion_term 0.1 temporal_medium)
  / (1.0 + opinion_weight 0.2 stage + opinion_weight 0.15 industry
     + opinion_weight 0.1 temporal_medium).

(** The medium-term opinion of the temporal model, when available. *)
Definition temporal_medium (temporal_preds : option (gmap string Q)) : option Q :=
  match temporal_preds with
  | Some preds => preds !! "medium_term"
  | None => None
  end.

(** ** Insight generator *)

Definition insight_runway_critical : string :=
  "üö® CRITICAL: Less than 6 months runway - immediate funding needed".
Definition insight_runway_warning : string :=
  "‚ö†Ô∏è Warning: Runway below 12 months - plan next raise".
Definition insight_high_burn : string :=
  "üî• High burn multiple - improve capital efficiency".
Definition insight_capital_strong : string :=
  "üí™ Strong capital position with healthy metrics".
Definition insight_capital_weak : string :=
  "üí∏ Capital concerns - focus on fundraising or revenue".
Definition insight_advantage_strong : string :=
  "üõ°Ô∏è Strong competitive moat and differentiation".
Definition insight_advantage_weak : string :=
  "‚ö° Weak competitive position - build differentiation".
Definition insight_market_strong : string :=
  "üéØ Excellent market fit and positioning".
Definition insight_market_weak : string :=
  "üìä Market challenges - improve PMF and retention".
Definition insight_people_strong : string :=
  "üë• World-class team with proven experience".
Definition insight_people_weak : string :=
  "ü§ù Team gaps - hire senior talent or advisors".

(** The critical runway and burn warnings. *)
Definition critical_warnings : list string :=
  [insight_runway_critical; insight_runway_warning; insight_high_burn].

Definition is_critical_warning (s : string) : bool :=
  existsb (String.eqb s) critical_warnings.

(** [v * c] for a numeric literal [c], on a value already compared with a
    number. *)
Definition num_mul (v : pyval) (c : Q) : result Q :=
  match as_number v with
  | Some x => Ok (x * c)
  | None => Raise TypeError
  end.

Section Insights.

(** How [str.format] renders the value of a [{}] field. *)
Variable format : pyval -> string.

Definition insight_hypergrowth (v : pyval) : string :=
  "üöÄ Hypergrowth: " +:+ format v +:+ "% YoY revenue growth".
Definition insight_strong_growth (v : pyval) : string :=
  "üìà Strong growth: " +:+ format v +:+ "% YoY revenue growth".
Definition insight_ndr (v : pyval) : string :=
  "üíé Excellent NDR: " +:+ format v +:+ "% - strong expansion revenue".
Definition insight_retention (v : pyval) : string :=
  "‚≠ê Outstanding product retention: " +:+ format v +:+ "% at 30 days".
Definition insight_concentration (v : pyval) : string :=
  "‚ö†Ô∏è High customer concentration risk: " +:+ format v +:+ "%".
Definition insight_churn (v : pyval) : string :=
  "üìâ High churn rate: " +:+ format v +:+ "% monthly".

Definition generate_insights (data : gmap string pyval) (prediction : Q)
    (pillar_scores : option (list (string * Q))) : result (list string) :=
  let insights := [] in
  (* Critical warnings first *)
  let* runway := dict_index data "runway_months" in
  let* c := num_lt runway 6 in
  let* insights :=
    if c then Ok (insights ++ [insight_runway_critical])
    else
      let* runway := dict_index data "runway_months" in
      let* c := num_lt runway 12 in
      Ok (append_if c insight_runway_warning insights) in
  let* burn := dict_index data "burn_multiple" in
  let* c := num_gt burn 5 in
  let insights := append_if c insight_high_burn insights in
  (* Pillar-specific insights *)
  let insights :=
    match pillar_scores with
    | Some ((_ :: _) as pillar_scores) =>
        (* Capital insights *)
        let insights :=
          if Qltb 0.7 (items_get pillar_scores "capital" 0)
          then insights ++ [insight_capital_strong]
          else append_if (Qltb (items_get pillar_scores "capital" 0) 0.3)
                         insight_capital_weak insights in
        (* Advantage insights *)
        let insights :=
          if Qltb 0.7 (items_get pillar_scores "advantage" 0)
          then insights ++ [insight_advantage_strong]
          else append_if (Qltb (items_get pillar_scores "advantage" 0) 0.3)
                         insight_advantage_weak insights in
        (* Market insights *)
        let insights :=
          if Qltb 0.7 (items_get pillar_scores "market" 0)
          then insights ++ [insight_market_strong]
          else append_if (Qltb (items_get pillar_scores "market" 0) 0.3)
                         insight_market_weak insights in
        (* People insights *)
        if Qltb 0.7 (items_get pillar_scores "people" 0)
        then insights ++ [insight_people_strong]
        else append_if (Qltb (items_get pillar_scores "people" 0) 0.3)
                       insight_people_weak insights
    | _ => insights
    end in
  (* Positive highlights *)
  let* growth := dict_index data "revenue_growth_rate_percent" in
  let* c := num_gt growth 150 in
  let* insights :=
    if c then
      let* growth := dict_index data "revenue_growth_rate_percent" in
      Ok (insights ++ [insight_hypergrowth growth])
    else
      let* growth := dict_index data "revenue_growth_rate_percent" in
      let* c := num_gt growth 100 in
      if c then
        let* growth := dict_index data "revenue_growth_rate_percent" in
        Ok (insights ++ [insight_strong_growth growth])
      else Ok insights in
  let* ndr := dict_index data "net_dollar_retention_percent" in
  let* c := num_gt ndr 120 in
  let* insights :=
    if c then
      let* ndr := dict_index data "net_dollar_retention_percent" in
      Ok (insights ++ [insight_ndr ndr])
    else Ok insights in
  let* retention := dict_index data "product_retention_30d" in
  let* c := num_gt retention 0.8 in
  let* insights :=
    if c then
      let* retention := dict_index data "product_retention_30d" in
      let* percent := num_mul retention 100 in
      Ok (insights ++ [insight_retention (PyInt (py_int percent))])
    else Ok insights in
  (* Red flags *)
  let* concentration := dict_index data "customer_concentration_percent" in
  let* c := num_gt concentration 50 in
  let* insights :=
    if c then
      let* concentration := dict_index data "customer_concentration_percent" in
      Ok (insights ++ [insight_concentration concentration])
    else Ok insights in
  let* c := num_gt (dict_get data "churn_rate" (PyInt 0)) 10 in
  let insights :=
    append_if c (insight_churn (dict_get data "churn_rate" (PyInt 0))) insights in
  (* Limit to 6 most important insights *)
  Ok (take 6 insights).

End Insights.

(** ** Input domains *)

(** Every field of [fields] that [data] holds is a number. *)
Definition numeric_if_present (fields : list string)
    (data : gmap string pyval) : bool :=
  forallb (fun k => match data !! k with
                    | Some v => is_number v
                    | None => true
                    end) fields.

(** Every field of [fields] is present in [data] and a number. *)
Definition numeric_and_present (fields : list string)
    (data : gmap string pyval) : bool :=
  forallb (fun k => match data !! k with
                    | Some v => is_number v
                    | None => false
                    end) fields.

(** The fields the detector and the adjuster order against a number; the
    request schema declares them [confloat] or [conint], or does not
    declare them at all. *)
Definition numeric_fields : list string :=
  ["runway_months"; "burn_multiple"; "customer_concentration_percent";
   "churn_rate"; "regulatory_risk_score"; "competition_intensity";
   "debt_to_equity_ratio"; "switching_cost_score"; "team_diversity_percent";
   "patent_count"; "net_dollar_retention_percent";
   "prior_successful_exits_count"].

Definition metrics_well_typed (data : gmap string pyval) : bool :=
  numeric_if_present numeric_fields data.

(** The fields [generate_insights] subscripts. *)
Definition insight_fields : list string :=
  ["runway_months"; "burn_multiple"; "revenue_growth_rate_percent";
   "net_dollar_retention_percent"; "product_retention_30d";
   "customer_concentration_percent"].

Definition insight_metrics_ok (data : gmap string pyval) : bool :=
  numeric_and_present insight_fields data
  && numeric_if_present ["churn_rate"] data.

(** The keys of a pillar score set are pillar names. *)
Definition pillar_keys_ok (pillar_scores : list (string * Q)) : bool :=
  forallb (fun kv => existsb (String.eqb (fst kv)) pillars) pillar_scores.

(** ** Assertions *)

(** Total correctness: the computation returns a value that satisfies [P]. *)
Definition returns {A} (m : result A) (P : A -> Prop) : Prop :=
  exists a, m = Ok a /\ P a.

(** The numeric reading of a field of the payload. *)
Definition metric (data : gmap string pyval) (k : string) : option Q :=
  match data !! k with
  | Some v => as_number v
  | None => None
  end.

(** The critical warnings a payload triggers: runway below 6 months or
    else below 12, then burn multiple above 5. *)
Definition triggered_warnings (data : gmap string pyval) : list string :=
  match metric data "runway_months", metric data "burn_multiple" with
  | Some runway, Some burn =>
      (if Qltb runway 6 then [insight_runway_critical]
       else if Qltb runway 12 then [insight_runway_warning]
       else [])
      ++ (if Qltb 5 burn then [insight_high_burn] else [])
  | _, _ => []
  end.

(** Every critical warning of the sequence comes before every other
    insight of it. *)
Definition warnings_first (insights : list string) : Prop :=
  forall (i j : nat) (a b : string),
    insights !! i = Some a -> insights !! j = Some b ->
    is_critical_warning a = true -> is_critical_warning b = false ->
    (i < j)%nat.

(** The triggered warnings, followed by insights of the other kinds. *)
Definition after_warnings (data : gmap string pyval) (insights : list string)
    : Prop :=
  exists rest,
    insights = triggered_warnings data ++ rest
    /\ Forall (fun s => is_critical_warning s = false) rest.

(** ** Example payloads *)

(** Two months of runway, and nothing else for the adjuster to penalise. *)
Definition runway_crisis : gmap string pyval :=
  list_to_map
    [("funding_stage", PyStr "seed");
     ("runway_months", PyFloat 2);
     ("burn_multiple", PyFloat 1.5);
     ("investor_tier_primary", PyStr "Tier 1");
     ("has_debt", PyBool false);
     ("network_effects_present", PyBool true);
     ("switching_cost_score", PyFloat 4);
     ("customer_concentration_percent", PyFloat 15);
     ("competition_intensity", PyFloat 3);
     ("prior_successful_exits_count", PyInt 1);
     ("team_diversity_percent", PyFloat 40);
     ("founders_count", PyInt 2);
     ("key_person_dependency", PyBool false)].

Definition top_scores : list (string * Q) :=
  [("capital", 1.0); ("advantage", 1.0); ("market", 1.0); ("people", 1.0)].

(** A payload on which eleven insight rules fire. *)
Definition busy_startup : gmap string pyval :=
  list_to_map
    [("runway_months", PyFloat 4);
     ("burn_multiple", PyFloat 6);
     ("revenue_growth_rate_percent", PyFloat 200);
     ("net_dollar_retention_percent", PyFloat 140);
     ("product_retention_30d", PyFloat 0.9);
     ("customer_concentration_percent", PyFloat 60);
     ("churn_rate", PyFloat 15)].

(** ** Further domains *)

(** The four fields the critical failure detector orders against a
    number. *)
Definition detector_fields : list string :=
  ["runway_months"; "burn_multiple"; "customer_concentration_percent";
   "churn_rate"].

(** The five failure messages, in the order of the rules. *)
Definition failure_messages : list string :=
  [runway_failure; burn_failure; concentration_failure; churn_failure;
   founder_failure].

(** The weight a profile gives to a pillar name, 0 when it has none, and
    the total weight of a list of pillar names. *)
Definition weight_of (profile : gmap string Q) (pillar : string) : Q :=
  match profile !! pillar with
  | Some w => w
  | None => 0
  end.

Definition total_weight (profile : gmap string Q) (keys : list string) : Q :=
  fold_right (fun k acc => weight_of profile k + acc) 0 keys.

(** ** Exceptions beyond the three builtins of [pyerr] *)

(** [ValueError] (raised by [min] on an empty sequence), [AttributeError],
    pydantic's [ValidationError] and FastAPI's [HTTPException] with its
    status code. *)
Inductive exn : Type :=
| Builtin (e : pyerr)
| ValueError
| AttributeError
| ValidationError
| HTTPException (status_code : Z).

Inductive outcome (A : Type) : Type :=
| Done (a : A)
| Throw (e : exn).
Arguments Done {A} a.
Arguments Throw {A} e.

Definition lift {A} (m : result A) : outcome A :=
  match m with
  | Ok a => Done a
  | Raise e => Throw (Builtin e)
  end.

Definition obind {A B} (m : outcome A) (k : A -> outcome B) : outcome B :=
  match m with
  | Done a => k a
  | Throw e => Throw e
  end.

Notation "'do*' x ':=' m 'in' k" := (obind m (fun x => k))
  (at level 10, x name, m at level 100, k at level 200).

(** [sep.join(parts)]. *)
Fixpoint join (sep : string) (parts : list string) : string :=
  match parts with
  | [] => ""
  | [s] => s
  | s :: rest => s +:+ sep +:+ join sep rest
  end.

(** ** Risk label of a probability *)

Definition get_risk_level (probability : Q)
    (pillar_scores : option (list (string * Q))) : string :=
  (* Standard risk levels with adjusted thresholds *)
  let standard :=
    if Qgeb probability 0.75 then "Low Risk"
    else if Qgeb probability 0.6 then "Medium-Low Risk"
    else if Qgeb probability 0.45 then "Medium Risk"
    else if Qgeb probability 0.3 then "Medium-High Risk"
    else if Qgeb probability 0.15 then "High Risk"
    else "Very High Risk" in
  (* Check for critical weaknesses in any pillar *)
  match pillar_scores with
  | Some ((_ :: _) as scores) =>
      let critical_pillars :=
        map fst (List.filter (fun '(p, s) => Qltb s 0.3) scores) in
      let weak_pillars :=
        map fst (List.filter (fun '(p, s) => Qltb s 0.5) scores) in
      (* If any pillar is critically weak, increase risk level *)
      match critical_pillars with
      | _ :: _ =>
          if Qgeb probability 0.7 then
            "Medium Risk (Critical weakness detected)"
          else if Qgeb probability 0.5 then "High Risk"
          else "Very High Risk"
      | [] => standard
      end
  | _ => standard
  end.

(** The labels of [get_risk_level] from the mildest to the most severe;
    the label of a critical weakness ranks with "Medium Risk". *)
Definition risk_ladder : list string :=
  ["Low Risk"; "Medium-Low Risk"; "Medium Risk"; "Medium-High Risk";
   "High Risk"; "Very High Risk"].

Fixpoint position (s : string) (l : list string) : option nat :=
  match l with
  | [] => None
  | x :: l' => if String.eqb x s then Some 0%nat
               else option_map S (position s l')
  end.

Definition severity (label : string) : option nat :=
  if String.eqb label "Medium Risk (Critical weakness detected)"
  then position "Medium Risk" risk_ladder
  else position label risk_ladder.

(** ** Temporal insights ([temporal_models.py]) *)

Definition rec_immediate_action : string :=
  "Immediate action needed: Focus on runway extension and revenue generation".
Definition rec_scaling : string :=
  "Prepare for scaling challenges: Strengthen unit economics and team".
Definition rec_moats : string :=
  "Build stronger moats: Invest in IP, network effects, or switching costs".
Definition rec_momentum : string :=
  "Maintain momentum: Continue current strategy while preparing for scale".

Definition _determine_trajectory (predictions : gmap string Q) : string :=
  let short := dict_get predictions "short_term" 0.5 in
  let medium := dict_get predictions "medium_term" 0.5 in
  let long := dict_get predictions "long_term" 0.5 in
  if Qltb 0.7 short && Qltb 0.7 medium && Qltb 0.7 long then
    "strong_growth"
  else if Qltb 0.7 short && Qltb 0.5 medium && Qltb long 0.5 then
    "early_peak"
  else if Qltb short 0.5 && Qltb 0.6 medium && Qltb 0.7 long then
    "late_bloomer"
  else if Qltb short 0.3 then
    "immediate_risk"
  else
    "steady_progress".

(** [min(xs, key=...)] on a sequence that starts with [best]: the first
    element with the least key. *)
Fixpoint min_by {A} (key : A -> Q) (best : A) (rest : list A) : A :=
  match rest with
  | [] => best
  | x :: rest' => min_by key (if Qltb (key x) (key best) then x else best) rest'
  end.

Definition _identify_critical_period (predictions : gmap string Q) : string :=
  (* periods = ['short_term', 'medium_term', 'long_term'] *)
  let min_period :=
    min_by (fun p => dict_get predictions p 0.5)
           "short_term" ["medium_term"; "long_term"] in
  if Qltb (dict_get predictions min_period 0.5) 0.3 then min_period
  else "none".

Definition _generate_recommendations (predictions : gmap string Q)
    : list string :=
  let recommendations := [] in
  let short := dict_get predictions "short_term" 0.5 in
  let medium := dict_get predictions "medium_term" 0.5 in
  let long := dict_get predictions "long_term" 0.5 in
  let recommendations :=
    append_if (Qltb short 0.4) rec_immediate_action recommendations in
  let recommendations :=
    append_if (Qltb medium 0.5 && Qltb 0.6 short) rec_scaling recommendations in
  let recommendations :=
    append_if (Qltb long 0.5) rec_moats recommendations in
  let recommendations :=
    append_if (Qltb 0.7 short && Qltb 0.7 long) rec_momentum recommendations in
  recommendations.

(** The dict returned by [get_temporal_insights]. *)
Record temporal_insights : Type := {
  trajectory : string;
  critical_period : string;
  recommendations : list string
}.

Definition get_temporal_insights (predictions : gmap string Q)
    : temporal_insights :=
  {| trajectory := _determine_trajectory predictions;
     critical_period := _identify_critical_period predictions;
     recommendations := _generate_recommendations predictions |}.

(** ** Derived fields of [StartupMetrics] *)

Definition is_none (v : pyval) : bool :=
  match v with PyNone => true | _ => false end.

(** [k in values]. *)
Definition has_key {V} (k : string) (values : gmap string V) : bool :=
  match values !! k with Some _ => true | None => false end.

(** [a / b], [a - b] and [a * b] on dynamically typed operands: a string
    or [None] operand raises [TypeError] ([str * int] repeats the string
    instead, and then raises at the comparison with a number that follows
    each product below). *)
Definition num_div (a b : pyval) : result Q :=
  match as_number a, as_number b with
  | Some x, Some y => py_div x y
  | _, _ => Raise TypeError
  end.

Definition num_sub (a : Q) (b : pyval) : result Q :=
  match as_number b with
  | Some y => Ok (a - y)
  | None => Raise TypeError
  end.

(** [min(x, c)] for an integer literal [c]: the float [x] is kept unless
    [c] is strictly smaller. *)
Definition min_with_int (x : Q) (c : Z) : pyval :=
  if Qltb (inject_Z c) x then PyInt c else PyFloat x.

(** The fields of [fields] that have been validated are floats: the
    schema declares the fields that the two validators below read as
    [confloat], whose bounds keep them finite, and a field that failed
    its validation is not in [values]. *)
Definition validated_floats (fields : list string)
    (values : gmap string pyval) : bool :=
  forallb (fun k => match values !! k with
                    | Some (PyFloat _) | None => true
                    | Some _ => false
                    end) fields.

(** The validator of [runway_months] ([pre=True, always=True]): [v] is the
    submitted value ([None] when omitted), [values] the fields validated
    so far.  The [try] block either returns, falls through to the last
    line, or raises; [TypeError] and [ValueError] are caught.

    The division is that of the rationals.  On floats the code rounds the
    quotient, and on an [int] beyond the range of the floats it raises
    [OverflowError], which the handler does not catch and this definition
    leaves out: the properties of the validators are stated on
    [validated_floats], and only where the rounding cannot change them. *)
Definition calculate_runway (v : pyval) (values : gmap string pyval)
    : result pyval :=
  let attempt : result (option pyval) :=
    if is_none v && has_key "cash_on_hand_usd" values
       && has_key "monthly_burn_usd" values then
      let* burn := dict_index values "monthly_burn_usd" in
      let* c := num_gt burn 0 in
      if c then
        let* cash := dict_index values "cash_on_hand_usd" in
        let* burn := dict_index values "monthly_burn_usd" in
        let* months := num_div cash burn in
        Ok (Some (min_with_int months 120))
      else Ok (Some (PyInt 120))  (* Default if no burn *)
    else Ok None in
  match attempt with
  | Ok (Some r) => Ok r
  | Ok None => Ok (if negb (is_none v) then v else PyInt 0)
  | Raise TypeError => Ok (PyInt 0)
  | Raise e => Raise e
  end.

(** The validator of [burn_multiple]; [TypeError], [ValueError] and
    [ZeroDivisionError] are caught.

    Over the rationals [new_arr > 0] follows from the test on the
    revenue before it.  On floats the product with 0.2 underflows to 0.0
    on the smallest positive revenues (1e-323 and below), and the code
    then returns 0 where this definition divides; as above,
    [OverflowError] is left out. *)
Definition calculate_burn_multiple (v : pyval) (values : gmap string pyval)
    : result pyval :=
  let attempt : result (option pyval) :=
    if is_none v && has_key "monthly_burn_usd" values
       && has_key "annual_revenue_run_rate" values then
      let* burn := dict_index values "monthly_burn_usd" in
      let* annual_burn := num_mul burn 12 in
      let* c :=
        if Qltb 0 annual_burn then
          let* arr := dict_index values "annual_revenue_run_rate" in
          num_gt arr 0
        else Ok false in
      if c then
        let* arr := dict_index values "annual_revenue_run_rate" in
        let* net_burn := num_sub annual_burn arr in
        let* r :=
          if Qltb 0 net_burn then
            let* arr := dict_index values "annual_revenue_run_rate" in
            let* new_arr := num_mul arr 0.2 in
            if Qltb 0 new_arr then
              let* multiple := py_div net_burn new_arr in
              Ok (Some (min_with_int multiple 100))
            else Ok None
          else Ok None in
        match r with
        | Some r => Ok (Some r)
        | None => Ok (Some (PyInt 0))
        end
      else if Qltb 0 annual_burn then Ok (Some (PyInt 5))
      else Ok (Some (PyInt 0))
    else Ok None in
  match attempt with
  | Ok (Some r) => Ok r
  | Ok None => Ok (if negb (is_none v) then v else PyInt 1)
  | Raise TypeError | Raise ZeroDivisionError => Ok (PyInt 1)
  | Raise e => Raise e
  end.

(** ** Recommendation text *)

Definition rec_capital_critical : string :=
  "üö® URGENT: Raise funding immediately or drastically cut burn. Target 18+ months runway.".
Definition rec_capital_weak : string :=
  "üìä Extend runway to 18+ months. Focus on revenue growth or raise bridge round.".
Definition rec_capital_improve : string :=
  "üí∞ Optimize burn rate and improve unit economics for next funding round.".
Definition rec_advantage_critical : string :=
  "‚ö° Build defensibility NOW: file patents, create network effects, or develop proprietary tech.".
Definition rec_advantage_weak : string :=
  "üõ°Ô∏è Strengthen moat: increase switching costs and build deeper technical differentiation.".
Definition rec_advantage_improve : string :=
  "üöÄ Enhance competitive position through product innovation and brand building.".
Definition rec_market_critical : string :=
  "üéØ Fix product-market fit urgently. Consider pivot if retention < 40% at 30 days.".
Definition rec_market_weak : string :=
  "üìà Improve retention metrics and reduce customer concentration below 30%.".
Definition rec_market_improve : string :=
  "üåç Expand market share and improve net dollar retention above 120%.".
Definition rec_people_critical : string :=
  "üë• Hire senior talent immediately. Add experienced advisors in your domain.".
Definition rec_people_weak : string :=
  "ü§ù Strengthen leadership team and add board members with relevant exits.".
Definition rec_people_improve : string :=
  "‚≠ê Scale team thoughtfully while maintaining culture and expertise.".
Definition headline_strong : string :=
  "üèÜ STRONG POSITION! Ready to scale aggressively.".
Definition headline_solid : string :=
  "‚úÖ Solid foundation with clear growth path.".
Definition headline_moderate : string :=
  "‚ö†Ô∏è Moderate risk - focus on key improvements.".
Definition headline_challenges : string :=
  "üî∂ Significant challenges - immediate action required.".
Definition headline_pivot : string :=
  "üö® CRITICAL: Major pivot or restructuring needed.".
Definition bullet : string :=
  "‚Ä¢ ".

(** The dict literal [detailed_recs]. *)
Definition pillar_recs (critical weak improve : string) : gmap string string :=
  list_to_map [("critical", critical); ("weak", weak); ("improve", improve)].

Definition detailed_recs : gmap string (gmap string string) :=
  list_to_map
    [("capital",
      pillar_recs rec_capital_critical rec_capital_weak rec_capital_improve);
     ("advantage",
      pillar_recs rec_advantage_critical rec_advantage_weak
                  rec_advantage_improve);
     ("market",
      pillar_recs rec_market_critical rec_market_weak rec_market_improve);
     ("people",
      pillar_recs rec_people_critical rec_people_weak rec_people_improve)].

(** [detailed_recs[pillar][kind]]. *)
Definition detailed_rec (pillar kind : string) : result string :=
  let* recs := dict_index detailed_recs pillar in
  dict_index recs kind.

(** [for pillar, score in selected: rec_parts.append(f"<bullet>{...}")]. *)
Fixpoint append_bullets (kind : string) (selected : list (string * Q))
    (rec_parts : list string) : result (list string) :=
  match selected with
  | [] => Ok rec_parts
  | (pillar, score) :: rest =>
      let* r := detailed_rec pillar kind in
      append_bullets kind rest (rec_parts ++ [bullet +:+ r])
  end.

(** [min(pillar_scores, key=pillar_scores.get)]: the first key with the
    least score; [ValueError] on an empty dict. *)
Definition weakest_pillar (pillar_scores : list (string * Q)) : outcome string :=
  match pillar_scores with
  | [] => Throw ValueError
  | first :: rest => Done (fst (min_by snd first rest))
  end.

(** The list [rec_parts] that [generate_recommendation] joins. *)
Definition recommendation_parts (probability : Q)
    (pillar_scores : list (string * Q)) (data : option (gmap string pyval))
    : outcome (list string) :=
  (* Analyze pillar strengths *)
  let critical_pillars :=
    List.filter (fun '(p, s) => Qltb s 0.3) pillar_scores in
  let weak_pillars :=
    List.filter (fun '(p, s) => Qle_bool 0.3 s && Qltb s 0.5) pillar_scores in
  let strong_pillars :=
    List.filter (fun '(p, s) => Qgeb s 0.7) pillar_scores in
  (* Build recommendation based on overall score and pillar analysis *)
  let rec_parts := [] in
  (* Overall assessment *)
  let rec_parts :=
    if Qgeb probability 0.75 then rec_parts ++ [headline_strong]
    else if Qgeb probability 0.6 then rec_parts ++ [headline_solid]
    else if Qgeb probability 0.45 then rec_parts ++ [headline_moderate]
    else if Qgeb probability 0.3 then rec_parts ++ [headline_challenges]
    else rec_parts ++ [headline_pivot] in
  do* rec_parts :=
    match critical_pillars, weak_pillars with
    | _ :: _, _ =>
        (* Critical issues first *)
        let rec_parts := rec_parts ++ ["CRITICAL FIXES:"] in
        lift (append_bullets "critical" (take 2 critical_pillars) rec_parts)
    | [], _ :: _ =>
        (* Then weak areas *)
        let rec_parts := rec_parts ++ ["PRIORITY IMPROVEMENTS:"] in
        lift (append_bullets "weak" (take 2 weak_pillars) rec_parts)
    | [], [] =>
        (* If doing well, focus on optimization *)
        if Qgeb probability 0.6 then
          do* weakest := weakest_pillar pillar_scores in
          do* r := lift (detailed_rec weakest "improve") in
          Done (rec_parts ++ ["OPTIMIZE: " +:+ r])
        else Done rec_parts
    end in
  (* Add specific metric targets if data provided *)
  match data with
  | Some data =>
      if negb (Nat.eqb (size data) 0) then
        let targets := [] in
        do* c := lift (num_lt (dict_get data "runway_months" (PyInt 0)) 18) in
        let targets := append_if c "runway 18+ months" targets in
        do* c := lift (num_lt (dict_get data "net_dollar_retention_percent"
                                        (PyInt 0)) 110) in
        let targets := append_if c "NDR >110%" targets in
        do* c := lift (num_lt (dict_get data "product_retention_30d" (PyInt 0))
                              0.6) in
        let targets := append_if c "30d retention >60%" targets in
        match targets with
        | _ :: _ => Done (rec_parts ++ ["KEY TARGETS: " +:+ join ", " targets])
        | [] => Done rec_parts
        end
      else Done rec_parts
  | None => Done rec_parts
  end.

Definition generate_recommendation (probability : Q)
    (pillar_scores : list (string * Q)) (data : option (gmap string pyval))
    : outcome string :=
  do* rec_parts := recommendation_parts probability pillar_scores data in
  Done (join " " rec_parts).

(** The five headlines, from the best to the worst band, and the fields
    the targets are read from. *)
Definition headlines : list string :=
  [headline_strong; headline_solid; headline_moderate; headline_challenges;
   headline_pivot].

Definition target_fields : list string :=
  ["runway_months"; "net_dollar_retention_percent"; "product_retention_30d"].

(** A part that starts with the bullet. *)
Definition is_bullet (part : string) : bool := String.prefix bullet part.

(** ** Rate limiting decorator *)

(** [rate_limit_storage = defaultdict(list)]: per client, the arrival
    times ([time.time()]) of its recorded requests. *)
Abbreviation storage := (gmap string (list Q)).

(** [rate_limit_storage[client_id]]: a missing client reads as []. *)
Definition storage_get (st : storage) (client_id : string) : list Q :=
  match st !! client_id with
  | Some timestamps => timestamps
  | None => []
  end.

(** An endpoint runs against the storage: it may itself be decorated. *)
Definition endpoint (A : Type) : Type := storage -> storage * outcome A.

(** An undecorated endpoint body leaves the storage alone. *)
Definition handler {A} (body : outcome A) : endpoint A :=
  fun st => (st, body).

(** The [wrapper] that [rate_limit(max_requests, window)(func)] returns,
    for a request of [client_id] at [current_time]. *)
Definition rate_limit {A} (max_requests window : Z) (func : endpoint A)
    (client_id : string) (current_time : Q) : endpoint A :=
  fun st =>
  (* Clean old entries *)
  let st :=
    <[client_id :=
        List.filter
          (fun timestamp => Qltb (current_time - timestamp) (inject_Z window))
          (storage_get st client_id)]> st in
  (* Check rate limit *)
  if (Z.of_nat (length (storage_get st client_id)) >=? max_requests)%Z then
    (st, Throw (HTTPException 429))
  else
    (* Record request *)
    let st := <[client_id := storage_get st client_id ++ [current_time]]> st in
    func st.

(** [except Exception as e: raise HTTPException(status_code=500, ...)]
    around the body of an endpoint. *)
Definition or_500 {A} (m : outcome A) : outcome A :=
  match m with
  | Done a => Done a
  | Throw _ => Throw (HTTPException 500)
  end.

(** [/predict]: decorated with [rate_limit(max_requests=100, window=3600)];
    [body] is the result of its [try] block. *)
Definition predict_endpoint {A} (body : outcome A)
    (client_id : string) (current_time : Q) : endpoint A :=
  rate_limit 100 3600 (handler (or_500 body)) client_id current_time.

(** [/predict_advanced]: decorated the same way, and its [try] block starts
    with [standard_response = await predict(request, metrics)], the
    decorated [predict]; [rest] is the remainder of the block.  The two
    wrappers read the clock one after the other. *)
Definition predict_advanced_endpoint {A B} (body : outcome A)
    (rest : A -> outcome B) (client_id : string) (outer_time inner_time : Q)
    : endpoint B :=
  rate_limit 100 3600
    (fun st =>
       let '(st, standard_response) :=
         predict_endpoint body client_id inner_time st in
       (st, or_500 (obind standard_response rest)))
    client_id outer_time.

(** A run of a decorated endpoint whose body succeeds, over requests
    (client, arrival time) in arrival order: [true] where the request was
    served, [false] where it was answered 429. *)
Fixpoint serve (max_requests window : Z) (requests : list (string * Q))
    (st : storage) : storage * list bool :=
  match requests with
  | [] => (st, [])
  | (client_id, current_time) :: requests' =>
      let '(st, response) :=
        rate_limit max_requests window (handler (Done tt))
                   client_id current_time st in
      let '(st, log) := serve max_requests window requests' st in
      (st, match response with Done _ => true | Throw _ => false end :: log)
  end.

(** The requests of [client_id] that a run served and that arrived in the
    window of length [window] ending at [now]. *)
Definition served_in_window (client_id : string) (window : Z) (now : Q)
    (requests : list (string * Q)) (log : list bool) : list (string * Q) :=
  map fst
    (List.filter
       (fun '((c, t), served) =>
          served && String.eqb c client_id
          && Qle_bool t now && Qltb (now - t) (inject_Z window))
       (combine requests log)).

(** The part of a log that answers the requests of [client_id]. *)
Definition log_of (client_id : string) (requests : list (string * Q))
    (log : list bool) : list bool :=
  map snd
    (List.filter (fun '((c, t), served) => String.eqb c client_id)
                 (combine requests log)).

(** The timestamps of [timestamps] that the wrapper keeps at [now]. *)
Definition live (window : Z) (now : Q) (timestamps : list Q) : list Q :=
  List.filter (fun timestamp => Qltb (now - timestamp) (inject_Z window))
              timestamps.

(** The timestamps of [timestamps] in the window of length [window] that
    ends at [now]. *)
Definition within (window : Z) (now : Q) (timestamps : list Q) : list Q :=
  List.filter
    (fun timestamp =>
       Qle_bool timestamp now && Qltb (now - timestamp) (inject_Z window))
    timestamps.

(** ** The decorated endpoints *)

(** What an endpoint can receive as its first argument: a Starlette
    [Request], of which the wrapper reads [request.client] ([None] when the
    server knows no client address) and the [X-API-Key] header, or a
    [StartupMetrics] object. *)
Inductive request_arg : Type :=
| Request (client_host : option string) (api_key : option string)
| Metrics (data : gmap string pyval).

(** An entry of the list that [batch_predict] returns. *)
Inductive batch_entry (A : Type) : Type :=
| Prediction (pred : A)
| ErrorEntry (error : exn) (metrics : gmap string pyval).
Arguments Prediction {A} pred.
Arguments ErrorEntry {A} error metrics.

Section Wrapper.

(** [hashlib.sha256(key.encode()).hexdigest()]. *)
Variable sha256_hexdigest : string -> string.

(** Get client identifier (IP or API key): [request.client.host] is read
    first, and [StartupMetrics] has no attribute [client]. *)
Definition client_id_of (request : request_arg) : outcome string :=
  match request with
  | Request (Some host) api_key =>
      Done (match api_key with
            | Some key => sha256_hexdigest key
            | None => host
            end)
  | Request None _ => Throw AttributeError
  | Metrics _ => Throw AttributeError
  end.

(** The whole [wrapper(request, *args, **kwargs)]. *)
Definition wrapper {A} (max_requests window : Z)
    (func : request_arg -> endpoint A) (request : request_arg)
    (current_time : Q) : endpoint A :=
  fun st =>
  match client_id_of request with
  | Done client_id =>
      rate_limit max_requests window (func request) client_id current_time st
  | Throw e => (st, Throw e)
  end.

(** [predict] as the module binds it: the wrapper around its body, whose
    [try] block answers [body request]. *)
Definition predict {A} (body : request_arg -> outcome A)
    (request : request_arg) (current_time : Q) : endpoint A :=
  wrapper 100 3600 (fun request => handler (or_500 (body request)))
          request current_time.

(** [/batch_predict]: [pred = await predict(metrics)] for each element,
    an error entry where that raises; every element comes with the time
    its call would read from the clock.  The answer is the list and its
    length. *)
Fixpoint batch_predictions {A} (body : request_arg -> outcome A)
    (metrics_list : list (gmap string pyval * Q)) (st : storage)
    : storage * list (batch_entry A) :=
  match metrics_list with
  | [] => (st, [])
  | (metrics, current_time) :: metrics_list' =>
      let '(st, pred) := predict body (Metrics metrics) current_time st in
      let entry :=
        match pred with
        | Done pred => Prediction pred
        | Throw e => ErrorEntry e metrics
        end in
      let '(st, predictions) := batch_predictions body metrics_list' st in
      (st, entry :: predictions)
  end.

Definition batch_predict {A} (body : request_arg -> outcome A)
    (metrics_list : list (gmap string pyval * Q)) (st : storage)
    : storage * (list (batch_entry A) * nat) :=
  let '(st, predictions) := batch_predictions body metrics_list st in
  (st, (predictions, length predictions)).

End Wrapper.

(** ** The response of [predict] *)

Module Response.

(** [PredictionResponse]; the confidence interval as (lower, upper). *)
Record t : Type := {
  success_probability : Q;
  confidence_interval : Q * Q;
  risk_level : string;
  key_insights : list string;
  pillar_scores : list (string * Q);
  recommendation : string;
  verdict : string;
  strength : string;
  weighted_score : Q;
  critical_failures : list string;
  below_threshold : list string;
  stage_thresholds : gmap string Q
}.

End Response.

(** [Field(..., ge=0, le=1)]. *)
Definition in_unit_interval (x : Q) : bool := Qle_bool 0 x && Qle_bool x 1.

(** [confloat(ge=..., le=...)] of the request schema: a float within the
    bounds. *)
Definition confloat (ge le : Q) (v : pyval) : bool :=
  match v with
  | PyFloat x => Qle_bool ge x && Qle_bool x le
  | _ => false
  end.

(** [product_retention_30d: confloat(ge=0, le=1)].  [generate_insights]
    converts a hundred times this field with [int], which raises
    [OverflowError] where the product is infinite; within the bounds of
    the schema the product is at most 100. *)
Definition retention_validated (data : gmap string pyval) : bool :=
  match data !! "product_retention_30d" with
  | Some v => confloat 0 1 v
  | None => false
  end.

(** The part of [predict] that follows the models: from the blended
    [final_prediction], the standard deviation [std_dev] of the ensemble
    and the pillar scores to the validated response. *)
Definition predict_response (format : pyval -> string)
    (final_prediction std_dev : Q) (pillar_scores : list (string * Q))
    (data : gmap string pyval) : outcome Response.t :=
  (* Calculate confidence interval (simplified) *)
  let confidence_interval :=
    (py_max 0 (final_prediction - 1.96 * std_dev),
     py_min 1 (final_prediction + 1.96 * std_dev)) in
  (* Perform comprehensive evaluation *)
  do* evaluation :=
    lift (evaluate_startup_comprehensive pillar_scores data final_prediction) in
  (* Generate response with comprehensive evaluation *)
  do* key_insights :=
    lift (generate_insights format data (adjusted_probability evaluation)
            (Some (adjusted_pillar_scores evaluation))) in
  do* recommendation :=
    generate_recommendation (adjusted_probability evaluation)
      (adjusted_pillar_scores evaluation) (Some data) in
  let response :=
    {| Response.success_probability := adjusted_probability evaluation;
       Response.confidence_interval := confidence_interval;
       Response.risk_level := risk_level evaluation;
       Response.key_insights := key_insights;
       Response.pillar_scores := adjusted_pillar_scores evaluation;
       Response.recommendation := recommendation;
       Response.verdict := verdict evaluation;
       Response.strength := strength evaluation;
       Response.weighted_score := weighted_score evaluation;
       Response.critical_failures := critical_failures evaluation;
       Response.below_threshold := below_threshold evaluation;
       Response.stage_thresholds := stage_thresholds evaluation |} in
  if in_unit_interval (Response.success_probability response)
     && in_unit_interval (Response.weighted_score response)
  then Done response
  else Throw ValidationError.

(** * Properties *)

(** ** Order on scores *)

Lemma Qltb_lt (x y : Q) : Qltb x y = true <-> x < y.
Proof.
  unfold Qltb. rewrite negb_true_iff. split.
  - intros H. apply Qnot_le_lt. intros Hle.
    apply Qle_bool_iff in Hle. congruence.
  - intros H. destruct (Qle_bool y x) eqn:E; [|reflexivity].
    apply Qle_bool_iff in E. exfalso. eapply Qlt_not_le; eassumption.
Qed.

Lemma Qltb_ge (x y : Q) : Qltb x y = false <-> y <= x.
Proof.
  unfold Qltb. rewrite negb_false_iff. apply Qle_bool_iff.
Qed.

Lemma Qgeb_le (x y : Q) : Qgeb x y = true <-> y <= x.
Proof. unfold Qgeb. apply Qle_bool_iff. Qed.

Lemma py_min_le_l (a b : Q) : py_min a b <= a.
Proof.
  unfold py_min. destruct (Qltb b a) eqn:E.
  - apply Qltb_lt in E. lra.
  - lra.
Qed.

Lemma py_min_le_r (a b : Q) : py_min a b <= b.
Proof.
  unfold py_min. destruct (Qltb b a) eqn:E.
  - lra.
  - apply Qltb_ge in E. exact E.
Qed.

Lemma py_min_glb (a b c : Q) : c <= a -> c <= b -> c <= py_min a b.
Proof. unfold py_min. destruct (Qltb b a); auto. Qed.

Lemma py_max_ge_l (a b : Q) : a <= py_max a b.
Proof.
  unfold py_max. destruct (Qltb a b) eqn:E.
  - apply Qltb_lt in E. lra.
  - lra.
Qed.

Lemma py_max_ge_r (a b : Q) : b <= py_max a b.
Proof.
  unfold py_max. destruct (Qltb a b) eqn:E.
  - lra.
  - apply Qltb_ge in E. exact E.
Qed.

Lemma py_max_lub (a b c : Q) : a <= c -> b <= c -> py_max a b <= c.
Proof. unfold py_max. destruct (Qltb a b); auto. Qed.

(** The clamp [max(0, min(1, x))]. *)
Lemma clamp_range (x : Q) : 0 <= py_max 0 (py_min 1 x) <= 1.
Proof.
  split.
  - apply py_max_ge_l.
  - apply py_max_lub; [lra | apply py_min_le_l].
Qed.

(** ** Exceptions *)

Lemma bind_Ok {A B} (m : result A) (k : A -> result B) (b : B) :
  bind m k = Ok b <-> exists a, m = Ok a /\ k a = Ok b.
Proof.
  destruct m as [a|e]; simpl; split.
  - intros H. exists a. auto.
  - intros (a' & Ha & Hk). congruence.
  - discriminate.
  - intros (a' & Ha & _). discriminate.
Qed.

Lemma mapM_Ok {A B} (f : A -> result B) (l : list A) :
  (forall x, In x l -> exists y, f x = Ok y) ->
  exists ys, mapM f l = Ok ys /\ Forall2 (fun x y => f x = Ok y) l ys.
Proof.
  induction l as [|x l IH]; intros Hf; simpl.
  - exists []. split; [reflexivity | constructor].
  - destruct (Hf x) as [y Hy]; [left; reflexivity|].
    destruct IH as (ys & Hys & Hall); [intros; apply Hf; right; assumption|].
    exists (y :: ys). rewrite Hy, Hys. simpl.
    split; [reflexivity | constructor; assumption].
Qed.

Lemma filterM_Ok {A} (f : A -> result bool) (l : list A) :
  (forall x, In x l -> exists c, f x = Ok c) ->
  exists ys, filterM f l = Ok ys.
Proof.
  induction l as [|x l IH]; intros Hf; simpl.
  - exists []. reflexivity.
  - destruct (Hf x) as [c Hc]; [left; reflexivity|].
    destruct IH as (ys & Hys); [intros; apply Hf; right; assumption|].
    rewrite Hc, Hys. simpl. eauto.
Qed.

(** ** Typed payloads *)

Lemma numeric_if_present_get (fields : list string) (data : gmap string pyval)
    (k : string) (n : Z) :
  numeric_if_present fields data = true -> In k fields ->
  exists x, as_number (dict_get data k (PyInt n)) = Some x.
Proof.
  unfold numeric_if_present. rewrite forallb_forall. intros H Hk.
  specialize (H k Hk). unfold dict_get.
  destruct (data !! k) as [v|]; [|simpl; eauto].
  unfold is_number in H. destruct (as_number v); [eauto | discriminate].
Qed.

Lemma numeric_and_present_index (fields : list string)
    (data : gmap string pyval) (k : string) :
  numeric_and_present fields data = true -> In k fields ->
  exists v x, dict_index data k = Ok v /\ as_number v = Some x.
Proof.
  unfold numeric_and_present. rewrite forallb_forall. intros H Hk.
  specialize (H k Hk). unfold dict_index.
  destruct (data !! k) as [v|]; [|discriminate].
  unfold is_number in H. destruct (as_number v) eqn:E; [eauto | discriminate].
Qed.

Ltac in_fields := simpl; repeat (first [left; reflexivity | right]).

(** Name the numeric reading of field [k] of a well-typed payload. *)
Ltac field_number H k n :=
  let x := fresh "x" in
  let Hx := fresh "Hx" in
  destruct (numeric_if_present_get _ _ k n H ltac:(in_fields)) as [x Hx];
  rewrite ?Hx.

(** ** StageProfile registry *)

Lemma weights_seed_row : dict_index stage_weights_table "Seed" = Ok seed_weights.
Proof. reflexivity. Qed.

Lemma thresholds_seed_row :
  dict_index stage_thresholds_table "Seed" = Ok seed_thresholds.
Proof. reflexivity. Qed.

Lemma stage_lookup_miss (table : gmap string (gmap string Q)) (s : string)
    (seed : gmap string Q) :
  dict_index table "Seed" = Ok seed -> table !! s = None ->
  stage_lookup table (PyStr s) = Ok seed.
Proof.
  intros Hseed Hs. unfold stage_lookup. rewrite Hseed. simpl.
  unfold dict_get. rewrite Hs. reflexivity.
Qed.

Lemma funding_stage_valid_cases (s : string) :
  funding_stage_valid s = true ->
  s = "pre_seed" \/ s = "seed" \/ s = "series_a" \/ s = "series_b"
  \/ s = "series_c" \/ s = "growth".
Proof.
  unfold funding_stage_valid, funding_stage_pattern. simpl.
  rewrite !orb_true_iff, !String.eqb_eq. intuition discriminate.
Qed.

Lemma weights_keys (s : string) :
  s ∉ stage_order -> stage_weights_table !! s = None.
Proof. intros H. apply not_elem_of_list_to_map_1. exact H. Qed.

Lemma thresholds_keys (s : string) :
  s ∉ stage_order -> stage_thresholds_table !! s = None.
Proof. intros H. apply not_elem_of_list_to_map_1. exact H. Qed.

(** C3: every stage string the request schema accepts misses both lookup
    tables, whose keys are display-case names, so on schema-valid input
    [get_stage_weights] and [get_stage_thresholds] are the constant
    Seed-profile functions. *)
Theorem C3_schema_stage_is_seed (s : string) :
  funding_stage_valid s = true ->
  stage_weights_table !! s = None
  /\ stage_thresholds_table !! s = None
  /\ get_stage_weights (PyStr s) = dict_index stage_weights_table "Seed"
  /\ get_stage_weights (PyStr s) = Ok seed_weights
  /\ get_stage_thresholds (PyStr s) = dict_index stage_thresholds_table "Seed"
  /\ get_stage_thresholds (PyStr s) = Ok seed_thresholds.
Proof.
  intros Hs.
  assert (Hw : stage_weights_table !! s = None).
  { apply funding_stage_valid_cases in Hs.
    destruct Hs as [-> | [-> | [-> | [-> | [-> | ->]]]]]; reflexivity. }
  assert (Ht : stage_thresholds_table !! s = None).
  { apply funding_stage_valid_cases in Hs.
    destruct Hs as [-> | [-> | [-> | [-> | [-> | ->]]]]]; reflexivity. }
  unfold get_stage_weights, get_stage_thresholds.
  rewrite weights_seed_row, thresholds_seed_row.
  rewrite (stage_lookup_miss _ s _ weights_seed_row Hw).
  rewrite (stage_lookup_miss _ s _ thresholds_seed_row Ht).
  repeat split; auto.
Qed.

Lemma C3_schema_stage_is_seed_witness :
  funding_stage_valid "series_a" = true
  /\ get_stage_weights (PyStr "series_a") = Ok seed_weights
  /\ get_stage_thresholds (PyStr "series_a") = Ok seed_thresholds.
Proof.
  split; [reflexivity|].
  pose proof (C3_schema_stage_is_seed "series_a" eq_refl) as H.
  split; apply H.
Defined.

(** C8: the two lookups never raise; on a stage string that is not a key
    of the table (such as "unicorn_plus") they return the Seed row. *)
Theorem C8_unknown_stage_falls_back (s : string) :
  s ∉ stage_order ->
  get_stage_weights (PyStr s) = Ok seed_weights
  /\ get_stage_thresholds (PyStr s) = Ok seed_thresholds.
Proof.
  intros Hs. split.
  - apply stage_lookup_miss; [reflexivity | apply weights_keys, Hs].
  - apply stage_lookup_miss; [reflexivity | apply thresholds_keys, Hs].
Qed.

Lemma C8_unknown_stage_falls_back_witness :
  get_stage_weights (PyStr "unicorn_plus") = Ok seed_weights
  /\ get_stage_thresholds (PyStr "unicorn_plus") = Ok seed_thresholds.
Proof.
  apply (C8_unknown_stage_falls_back "unicorn_plus").
  intros H. apply list_elem_of_In in H. simpl in H.
  repeat (destruct H as [H | H]; [discriminate H|]). exact H.
Defined.

Ltac eval_threshold :=
  lazymatch goal with
  | |- threshold_of _ _ = Ok _ => vm_compute; reflexivity
  end.

Ltac solve_non_decreasing :=
  let i := fresh "i" in
  let j := fresh "j" in
  let Hi := fresh "Hi" in
  let Hj := fresh "Hj" in
  intros i j ? ? Hi Hj ?;
  do 5 (try destruct i as [|i]); simpl in Hi; try discriminate Hi;
  do 5 (try destruct j as [|j]); simpl in Hj; try discriminate Hj;
  try lia;
  injection Hi as Hi; injection Hj as Hj; subst;
  eexists _, _;
  (split; [eval_threshold | split; [eval_threshold |]]);
  apply Qle_bool_iff; reflexivity.

(** C7, as stated, fails: the people threshold drops from 0.50 at "Seed"
    to 0.45 at "Series A". *)
Lemma C7_people_threshold_drops :
  ~ (forall pillar, In pillar pillars -> non_decreasing_along pillar stage_order).
Proof.
  intros H.
  destruct (H "people" ltac:(in_fields) 1%nat 2%nat "Seed" "Series A"
              eq_refl eq_refl ltac:(lia)) as (a & b & Ha & Hb & Hle).
  vm_compute in Ha. vm_compute in Hb.
  injection Ha as <-. injection Hb as <-.
  apply Qle_bool_iff in Hle. discriminate Hle.
Qed.

(** C7, amended: the thresholds of capital, advantage and market never
    decrease from "Pre-seed" to "Series C"; those of people never decrease
    from "Pre-seed" to "Seed" and from "Series A" to "Series C", and drop
    from 0.50 to 0.45 between "Seed" and "Series A". *)
Theorem C7_thresholds_trend :
  non_decreasing_along "capital" stage_order
  /\ non_decreasing_along "advantage" stage_order
  /\ non_decreasing_along "market" stage_order
  /\ non_decreasing_along "people" ["Pre-seed"; "Seed"]
  /\ non_decreasing_along "people" ["Series A"; "Series B"; "Series C"]
  /\ threshold_of "Seed" "people" = Ok 0.50
  /\ threshold_of "Series A" "people" = Ok 0.45.
Proof.
  split; [solve_non_decreasing|].
  split; [solve_non_decreasing|].
  split; [solve_non_decreasing|].
  split; [solve_non_decreasing|].
  split; [solve_non_decreasing|].
  split; vm_compute; reflexivity.
Qed.

(** ** Pillar risk adjuster *)

(** Whatever the adjuster returns went through the clamp. *)
Lemma calculate_risk_adjusted_score_inv (base_score : Q)
    (pillar_name : string) (data : gmap string pyval) (adjusted : Q) :
  calculate_risk_adjusted_score base_score pillar_name data = Ok adjusted ->
  exists x, adjusted = py_max 0 (py_min 1 x).
Proof.
  unfold calculate_risk_adjusted_score. intros H.
  do 4 (apply bind_Ok in H as (? & _ & H)).
  injection H as <-. eauto.
Qed.

(** On a typed payload the adjuster returns. *)
Lemma calculate_risk_adjusted_score_total (base_score : Q)
    (pillar_name : string) (data : gmap string pyval) :
  metrics_well_typed data = true ->
  exists adjusted,
    calculate_risk_adjusted_score base_score pillar_name data = Ok adjusted.
Proof.
  intros H. unfold metrics_well_typed in H.
  unfold calculate_risk_adjusted_score, num_gt, num_lt, num_ge.
  field_number H "customer_concentration_percent" 0%Z.
  field_number H "regulatory_risk_score" 0%Z.
  field_number H "competition_intensity" 0%Z.
  field_number H "debt_to_equity_ratio" 0%Z.
  field_number H "switching_cost_score" 0%Z.
  field_number H "team_diversity_percent" 0%Z.
  field_number H "patent_count" 0%Z.
  field_number H "net_dollar_retention_percent" 0%Z.
  field_number H "prior_successful_exits_count" 0%Z.
  destruct (String.eqb pillar_name "market");
    destruct (String.eqb pillar_name "capital");
    destruct (String.eqb pillar_name "advantage");
    destruct (String.eqb pillar_name "people");
    try destruct (truthy (dict_get data "has_debt" (PyBool false)));
    cbn [bind]; eexists; reflexivity.
Qed.

(** C5: for every pillar name, every base score (in particular every base
    score of [0,1]) and every payload, a score the adjuster returns lies in
    [0,1]; and it does return one on every payload whose numeric fields
    hold numbers. *)
Theorem C5_adjusted_score_in_unit_interval (base_score : Q)
    (pillar_name : string) (data : gmap string pyval) :
  (forall adjusted,
      calculate_risk_adjusted_score base_score pillar_name data = Ok adjusted ->
      0 <= adjusted <= 1)
  /\ (metrics_well_typed data = true ->
      exists adjusted,
        calculate_risk_adjusted_score base_score pillar_name data = Ok adjusted).
Proof.
  split.
  - intros adjusted H.
    apply calculate_risk_adjusted_score_inv in H as [x ->].
    apply clamp_range.
  - apply calculate_risk_adjusted_score_total.
Qed.

Lemma C5_adjusted_score_in_unit_interval_witness :
  exists adjusted,
    calculate_risk_adjusted_score 0.98 "market"
      {[ "net_dollar_retention_percent" := PyFloat 140 ]} = Ok adjusted
    /\ 0 <= adjusted <= 1.
Proof.
  destruct (C5_adjusted_score_in_unit_interval 0.98 "market"
              {[ "net_dollar_retention_percent" := PyFloat 140 ]})
    as [Hrange Hreturns].
  destruct Hreturns as [adjusted Hadjusted]; [reflexivity|].
  exists adjusted. split; [exact Hadjusted | apply Hrange, Hadjusted].
Defined.

(** C4: the code tests the tier against "Tier 1" and "Tier 2", which no
    schema-valid value equals: at [investor_tier_primary = "tier_1"] and
    ["tier_2"] the capital score 0.5 comes back as 0.45, and only the
    display-case spelling escapes the penalty. *)
Theorem C4_schema_tier_penalised :
  (exists v, calculate_risk_adjusted_score 0.5 "capital"
               {[ "investor_tier_primary" := PyStr "tier_1" ]} = Ok v
             /\ v == 0.45)
  /\ (exists v, calculate_risk_adjusted_score 0.5 "capital"
                  {[ "investor_tier_primary" := PyStr "tier_2" ]} = Ok v
                /\ v == 0.45)
  /\ calculate_risk_adjusted_score 0.5 "capital"
       {[ "investor_tier_primary" := PyStr "Tier 1" ]} = Ok 0.5
  /\ Forall (fun tier => in_strs (PyStr tier) ["Tier 1"; "Tier 2"] = false)
            investor_tier_pattern.
Proof.
  split; [eexists; split; [vm_compute; reflexivity | reflexivity]|].
  split; [eexists; split; [vm_compute; reflexivity | reflexivity]|].
  split; [vm_compute; reflexivity|].
  repeat constructor.
Qed.

(** ** Critical failure detector *)

Lemma In_append_if {A} (c : bool) (x y : A) (l : list A) :
  In x l -> In x (append_if c y l).
Proof.
  unfold append_if. destruct c; [|auto].
  intros H. apply in_or_app. left. exact H.
Qed.

Lemma In_append_if_inv {A} (c : bool) (x y : A) (l : list A) :
  In x (append_if c y l) -> x = y \/ In x l.
Proof.
  unfold append_if. destruct c; [|auto].
  intros H. apply in_app_or in H. destruct H as [H | [H | []]]; auto.
Qed.

(** The detector returns exactly when its four numeric readings are
    numbers, and then returns [failures_of] them. *)
Lemma check_critical_failures_spec (data : gmap string pyval)
    (failures : list string) :
  check_critical_failures data = Ok failures <->
  exists runway burn concentration churn,
    as_number (dict_get data "runway_months" (PyInt 0)) = Some runway
    /\ as_number (dict_get data "burn_multiple" (PyInt 0)) = Some burn
    /\ as_number (dict_get data "customer_concentration_percent" (PyInt 0))
       = Some concentration
    /\ as_number (dict_get data "churn_rate" (PyInt 0)) = Some churn
    /\ failures = failures_of data runway burn concentration churn.
Proof.
  unfold check_critical_failures, num_gt, num_lt, failures_of. split.
  - intros H.
    destruct (as_number (dict_get data "runway_months" (PyInt 0)))
      as [runway|]; [|discriminate H].
    destruct (as_number (dict_get data "burn_multiple" (PyInt 0)))
      as [burn|]; [|discriminate H].
    destruct (as_number (dict_get data "customer_concentration_percent" (PyInt 0)))
      as [concentration|]; [|discriminate H].
    destruct (as_number (dict_get data "churn_rate" (PyInt 0)))
      as [churn|]; [|discriminate H].
    cbn [bind] in H. injection H as <-.
    exists runway, burn, concentration, churn. auto.
  - intros (runway & burn & concentration & churn
            & -> & -> & -> & -> & ->).
    reflexivity.
Qed.

Lemma check_critical_failures_total (data : gmap string pyval) :
  metrics_well_typed data = true ->
  exists failures, check_critical_failures data = Ok failures.
Proof.
  intros H. unfold metrics_well_typed in H.
  destruct (numeric_if_present_get _ _ "runway_months" 0%Z H ltac:(in_fields))
    as [runway Hrunway].
  destruct (numeric_if_present_get _ _ "burn_multiple" 0%Z H ltac:(in_fields))
    as [burn Hburn].
  destruct (numeric_if_present_get _ _ "customer_concentration_percent" 0%Z H
              ltac:(in_fields)) as [concentration Hconcentration].
  destruct (numeric_if_present_get _ _ "churn_rate" 0%Z H ltac:(in_fields))
    as [churn Hchurn].
  exists (failures_of data runway burn concentration churn).
  apply check_critical_failures_spec. eauto 10.
Qed.

(** C9: whenever the detector returns on a payload without
    [runway_months], the runway failure is in the list, the missing value
    being read as 0; whenever it returns on a payload without [churn_rate],
    the churn failure is not in the list; and it returns on every payload
    whose numeric fields hold numbers. *)
Theorem C9_missing_runway_fires (data : gmap string pyval) :
  (forall failures,
      check_critical_failures data = Ok failures ->
      (data !! "runway_months" = None -> In runway_failure failures)
      /\ (data !! "churn_rate" = None -> ~ In churn_failure failures))
  /\ (metrics_well_typed data = true ->
      exists failures, check_critical_failures data = Ok failures).
Proof.
  split; [|apply check_critical_failures_total].
  intros failures H.
  apply check_critical_failures_spec in H
    as (runway & burn & conc & churn & Hr & _ & _ & Hc & ->).
  unfold failures_of. split; intros Habsent.
  - unfold dict_get in Hr. rewrite Habsent in Hr. injection Hr as <-.
    do 4 apply In_append_if. left. reflexivity.
  - unfold dict_get in Hc. rewrite Habsent in Hc. injection Hc as <-.
    intros Hin.
    apply In_append_if_inv in Hin as [Hin | Hin]; [discriminate Hin|].
    change (In churn_failure
              (append_if (Qltb 80 conc) concentration_failure
              (append_if (Qltb 5 burn) burn_failure
              (append_if (Qltb runway 3) runway_failure [])))) in Hin.
    apply In_append_if_inv in Hin as [Hin | Hin]; [discriminate Hin|].
    apply In_append_if_inv in Hin as [Hin | Hin]; [discriminate Hin|].
    apply In_append_if_inv in Hin as [Hin | Hin]; [discriminate Hin|].
    exact Hin.
Qed.

Lemma C9_missing_runway_fires_witness :
  exists failures,
    check_critical_failures {[ "founders_count" := PyInt 2 ]} = Ok failures
    /\ In runway_failure failures
    /\ ~ In churn_failure failures.
Proof.
  destruct (C9_missing_runway_fires {[ "founders_count" := PyInt 2 ]})
    as [Hlist Hreturns].
  destruct Hreturns as [failures Hfailures]; [reflexivity|].
  destruct (Hlist failures Hfailures) as [Hrunway Hchurn].
  exists failures. split; [exact Hfailures|].
  split; [apply Hrunway | apply Hchurn]; reflexivity.
Defined.

(** ** Verdict classifier *)

(** A profile holds a value for each of the four pillars. *)
Lemma profile_has_pillars (capital advantage market people : Q) (p : string) :
  In p pillars -> exists q, mk_profile capital advantage market people !! p = Some q.
Proof.
  simpl. intros [<- | [<- | [<- | [<- | []]]]]; eexists; reflexivity.
Qed.

Lemma table_rows_are_profiles (rows : list (string * gmap string Q))
    (s : string) (w : gmap string Q) :
  Forall (fun row => exists c a m p, snd row = mk_profile c a m p) rows ->
  (list_to_map rows : gmap string (gmap string Q)) !! s = Some w ->
  exists c a m p, w = mk_profile c a m p.
Proof.
  intros Hrows Hw. apply elem_of_list_to_map_2 in Hw.
  rewrite Forall_forall in Hrows. apply (Hrows (s, w)), Hw.
Qed.

Lemma stage_lookup_Ok (rows : list (string * gmap string Q)) (v : pyval) :
  Forall (fun row => exists c a m p, snd row = mk_profile c a m p) rows ->
  is_Some ((list_to_map rows : gmap string (gmap string Q)) !! "Seed") ->
  exists c a m p, stage_lookup (list_to_map rows) v = Ok (mk_profile c a m p).
Proof.
  intros Hrows [seed Hseed]. unfold stage_lookup, dict_index.
  rewrite Hseed. cbn [bind].
  destruct (table_rows_are_profiles rows "Seed" seed Hrows Hseed)
    as (c & a & m & p & ->).
  destruct v as [| | | |s]; try (exists c, a, m, p; reflexivity).
  unfold dict_get. destruct (list_to_map rows !! s) as [w|] eqn:Hw.
  - destruct (table_rows_are_profiles rows s w Hrows Hw)
      as (c' & a' & m' & p' & ->).
    exists c', a', m', p'. reflexivity.
  - exists c, a, m, p. reflexivity.
Qed.

Lemma get_stage_weights_Ok (v : pyval) :
  exists c a m p, get_stage_weights v = Ok (mk_profile c a m p).
Proof.
  apply stage_lookup_Ok.
  - repeat constructor; simpl; eauto.
  - eexists. reflexivity.
Qed.

Lemma get_stage_thresholds_Ok (v : pyval) :
  exists c a m p, get_stage_thresholds v = Ok (mk_profile c a m p).
Proof.
  apply stage_lookup_Ok.
  - repeat constructor; simpl; eauto.
  - eexists. reflexivity.
Qed.

Lemma items_lookup_key {V} (d : list (string * V)) (k : string) :
  In k (map fst d) -> exists v, items_lookup d k = Some v.
Proof.
  induction d as [|[k' v'] d IH]; simpl; [intros []|].
  intros [-> | Hk].
  - rewrite String.eqb_refl. eauto.
  - destruct (String.eqb k' k); eauto.
Qed.

(** The risk adjustment keeps the keys of the pillar score set. *)
Lemma adjusted_scores_Ok (data : gmap string pyval)
    (pillar_scores : list (string * Q)) :
  metrics_well_typed data = true ->
  exists adjusted_scores,
    mapM (fun '(pillar, score) =>
            let* adjusted := calculate_risk_adjusted_score score pillar data in
            Ok (pillar, adjusted))
         pillar_scores = Ok adjusted_scores
    /\ map fst adjusted_scores = map fst pillar_scores.
Proof.
  intros H. induction pillar_scores as [|[pillar score] l IH]; simpl.
  - exists []. split; reflexivity.
  - destruct (calculate_risk_adjusted_score_total score pillar data H)
      as [x ->].
    destruct IH as (ys & -> & Hkeys). cbn [bind].
    eexists. split; [reflexivity|]. simpl. rewrite Hkeys. reflexivity.
Qed.

Lemma pillar_keys_ok_In (pillar_scores : list (string * Q)) (k : string) :
  pillar_keys_ok pillar_scores = true -> In k (map fst pillar_scores) ->
  In k pillars.
Proof.
  unfold pillar_keys_ok. rewrite forallb_forall. intros H Hk.
  apply in_map_iff in Hk as ([k' v] & <- & Hkv).
  specialize (H _ Hkv). apply existsb_exists in H as (p & Hp & Heq).
  apply String.eqb_eq in Heq. simpl in *. subst. exact Hp.
Qed.

(** Case analysis on the four guards of step 6. *)
Ltac verdict_guards failures below terms :=
  destruct (negb (Nat.eqb (length failures) 0)) eqn:?;
    [|destruct (Nat.eqb (length (map fst below)) 0
                && Qgeb (py_sum terms) 0.6) eqn:?;
      [|destruct (Nat.leb (length (map fst below)) 1
                  && Qgeb (py_sum terms) 0.55) eqn:?;
        [|destruct (Qgeb (py_sum terms) 0.5
                    && Nat.leb (length (map fst below)) 2) eqn:?]]].

(** On a typed payload and a pillar score set, the evaluation returns. *)
Lemma evaluate_startup_comprehensive_total (pillar_scores : list (string * Q))
    (data : gmap string pyval) (base_probability : Q) :
  metrics_well_typed data = true ->
  pillar_keys_ok pillar_scores = true ->
  exists r,
    evaluate_startup_comprehensive pillar_scores data base_probability = Ok r.
Proof.
  intros Htyped Hkeys. unfold evaluate_startup_comprehensive.
  destruct (check_critical_failures_total data Htyped) as [failures ->].
  cbn [bind].
  destruct (adjusted_scores_Ok data pillar_scores Htyped)
    as (adjusted_scores & -> & Hadj).
  cbn [bind].
  destruct (get_stage_weights_Ok (dict_get data "funding_stage" (PyStr "Seed")))
    as (wc & wa & wm & wp & ->).
  destruct (get_stage_thresholds_Ok (dict_get data "funding_stage" (PyStr "Seed")))
    as (tc & ta & tm & tp & ->).
  cbn [bind].
  assert (Hin : forall k, In k (map fst adjusted_scores) -> In k pillars).
  { intros k Hk. rewrite Hadj in Hk.
    eapply pillar_keys_ok_In; eassumption. }
  destruct (filterM_Ok
              (fun '(pillar, score) =>
                 let* t := dict_index (mk_profile tc ta tm tp) pillar in
                 Ok (Qltb score t))
              adjusted_scores) as [below ->].
  { intros [pillar score] Hx.
    destruct (profile_has_pillars tc ta tm tp pillar) as [q Hq].
    { apply Hin, in_map_iff. exists (pillar, score). auto. }
    unfold dict_index. rewrite Hq. cbn [bind]. eauto. }
  cbn [bind].
  destruct (mapM_Ok
              (fun pillar =>
                 let* score := items_index adjusted_scores pillar in
                 let* w := dict_index (mk_profile wc wa wm wp) pillar in
                 Ok (score * w))
              (map fst adjusted_scores)) as (terms & -> & _).
  { intros pillar Hp.
    destruct (items_lookup_key adjusted_scores pillar Hp) as [score Hs].
    destruct (profile_has_pillars wc wa wm wp pillar (Hin _ Hp)) as [w Hw].
    unfold items_index, dict_index. rewrite Hs, Hw. cbn [bind]. eauto. }
  cbn [bind].
  verdict_guards failures below terms; eexists; reflexivity.
Qed.

(** Whatever the evaluation returns, its fields are related as steps 1, 6
    and 7 of the code relate them. *)
Lemma evaluate_startup_comprehensive_inv (pillar_scores : list (string * Q))
    (data : gmap string pyval) (base_probability : Q) (r : evaluation) :
  evaluate_startup_comprehensive pillar_scores data base_probability = Ok r ->
  check_critical_failures data = Ok (critical_failures r)
  /\ (verdict r, risk_level r, strength r)
     = verdict_of (critical_failures r) (below_threshold r) (weighted_score r)
  /\ adjusted_probability r = reconcile (verdict r) base_probability.
Proof.
  unfold evaluate_startup_comprehensive. intros H.
  apply bind_Ok in H as (failures & Hfailures & H).
  apply bind_Ok in H as (adjusted_scores & _ & H).
  apply bind_Ok in H as (weights & _ & H).
  apply bind_Ok in H as (thresholds & _ & H).
  apply bind_Ok in H as (below & _ & H).
  apply bind_Ok in H as (terms & _ & H).
  unfold verdict_of, reconcile.
  verdict_guards failures below terms;
    injection H as <-;
    cbn [verdict risk_level strength adjusted_probability weighted_score
         below_threshold critical_failures];
    repeat match goal with E : _ = _ :> bool |- _ => rewrite E; clear E end;
    auto.
Qed.

Lemma Qle_bool_060 (w : Q) : Qle_bool 0.60 w = Qle_bool 0.6 w.
Proof. apply Qleb_comp; reflexivity. Qed.

Lemma Qle_bool_050 (w : Q) : Qle_bool 0.50 w = Qle_bool 0.5 w.
Proof. apply Qleb_comp; reflexivity. Qed.

(** The rows of the code are the rows of the decision table. *)
Lemma verdict_of_decision_table (critical_failures below_threshold : list string)
    (weighted_score : Q) :
  let '(verdict, risk_level, strength) :=
    verdict_of critical_failures below_threshold weighted_score in
  (verdict, strength, risk_level)
  = decision_table critical_failures below_threshold weighted_score.
Proof.
  unfold verdict_of, decision_table, decision_rows, Qgeb.
  rewrite Qle_bool_060, Qle_bool_050.
  destruct critical_failures as [|failure failures];
    [|cbn [length Nat.eqb negb]; cbn [first_match];
      case_bool_decide; [reflexivity | congruence]].
  destruct (Qle_bool 0.6 weighted_score), (Qle_bool 0.55 weighted_score),
    (Qle_bool 0.5 weighted_score);
    destruct below_threshold as [|p1 [|p2 [|p3 l]]]; reflexivity.
Qed.

Lemma verdict_of_critical (critical_failures below_threshold : list string)
    (weighted_score : Q) :
  critical_failures <> [] ->
  verdict_of critical_failures below_threshold weighted_score
  = ("FAIL", "Critical Risk", "CRITICAL").
Proof.
  intros H. unfold verdict_of.
  destruct critical_failures; [congruence | reflexivity].
Qed.

Lemma verdict_of_cases (critical_failures below_threshold : list string)
    (weighted_score : Q) :
  let v := fst (fst (verdict_of critical_failures below_threshold weighted_score)) in
  v = "FAIL" \/ v = "CONDITIONAL PASS" \/ v = "PASS".
Proof.
  unfold verdict_of.
  repeat match goal with
         | |- context [if ?c then _ else _] => destruct c
         end; simpl; auto.
Qed.

Lemma mapM_inv {A B} (f : A -> result B) (l : list A) (ys : list B) :
  mapM f l = Ok ys -> Forall2 (fun x y => f x = Ok y) l ys.
Proof.
  revert ys. induction l as [|x l IH]; simpl; intros ys H.
  - injection H as <-. constructor.
  - apply bind_Ok in H as (y & Hy & H).
    apply bind_Ok in H as (ys' & Hys & H). injection H as <-.
    constructor; auto.
Qed.

(** What the fields of a returned evaluation were computed from. *)
Lemma evaluate_startup_comprehensive_steps (pillar_scores : list (string * Q))
    (data : gmap string pyval) (base_probability : Q) (r : evaluation) :
  evaluate_startup_comprehensive pillar_scores data base_probability = Ok r ->
  let funding_stage := dict_get data "funding_stage" (PyStr "Seed") in
  mapM (fun '(pillar, score) =>
          let* adjusted := calculate_risk_adjusted_score score pillar data in
          Ok (pillar, adjusted))
       pillar_scores = Ok (adjusted_pillar_scores r)
  /\ get_stage_weights funding_stage = Ok (stage_weights r)
  /\ get_stage_thresholds funding_stage = Ok (stage_thresholds r)
  /\ (exists below,
        filterM (fun '(pillar, score) =>
                   let* t := dict_index (stage_thresholds r) pillar in
                   Ok (Qltb score t))
                (adjusted_pillar_scores r) = Ok below
        /\ below_threshold r = map fst below)
  /\ (exists terms,
        mapM (fun pillar =>
                let* score := items_index (adjusted_pillar_scores r) pillar in
                let* w := dict_index (stage_weights r) pillar in
                Ok (score * w))
             (map fst (adjusted_pillar_scores r)) = Ok terms
        /\ weighted_score r = py_sum terms).
Proof.
  unfold evaluate_startup_comprehensive. intros H.
  apply bind_Ok in H as (failures & _ & H).
  apply bind_Ok in H as (adjusted_scores & Hadjusted & H).
  apply bind_Ok in H as (weights & Hweights & H).
  apply bind_Ok in H as (thresholds & Hthresholds & H).
  apply bind_Ok in H as (below & Hbelow & H).
  apply bind_Ok in H as (terms & Hterms & H).
  verdict_guards failures below terms;
    injection H as <-;
    cbn [adjusted_pillar_scores stage_weights stage_thresholds
         below_threshold weighted_score];
    eauto 10.
Qed.

(** The list comprehension of step 4 and the sum of step 5, read as the
    specification words them. *)
Lemma below_threshold_spec (thresholds : gmap string Q)
    (adjusted_scores below : list (string * Q)) :
  filterM (fun '(pillar, score) =>
             let* t := dict_index thresholds pillar in
             Ok (Qltb score t))
          adjusted_scores = Ok below ->
  map fst below = spec_below_threshold thresholds adjusted_scores.
Proof.
  unfold spec_below_threshold. revert below.
  induction adjusted_scores as [|[pillar score] l IH]; simpl; intros below H.
  - injection H as <-. reflexivity.
  - apply bind_Ok in H as (c & Hc & H).
    apply bind_Ok in H as (ys & Hys & H). injection H as <-.
    unfold dict_index in Hc.
    destruct (thresholds !! pillar) as [t|]; [|discriminate Hc].
    cbn [bind] in Hc. injection Hc as <-.
    destruct (Qltb score t); simpl; rewrite (IH ys Hys); reflexivity.
Qed.

Lemma weighted_score_spec (weights : gmap string Q)
    (adjusted_scores : list (string * Q)) (keys : list string)
    (terms : list Q) :
  mapM (fun pillar =>
          let* score := items_index adjusted_scores pillar in
          let* w := dict_index weights pillar in
          Ok (score * w))
       keys = Ok terms ->
  terms
  = map (fun pillar =>
           items_get adjusted_scores pillar 0 * dict_get weights pillar 0)
        keys.
Proof.
  revert terms. induction keys as [|k keys IH]; simpl; intros terms H.
  - injection H as <-. reflexivity.
  - apply bind_Ok in H as (y & Hy & H).
    apply bind_Ok in H as (ys & Hys & H). injection H as <-.
    rewrite <- (IH ys Hys). f_equal.
    unfold items_index, items_get, dict_index, dict_get in *.
    destruct (items_lookup adjusted_scores k) as [score|]; [|discriminate Hy].
    cbn [bind] in Hy.
    destruct (weights !! k) as [w|]; [|discriminate Hy].
    cbn [bind] in Hy. injection Hy as <-. reflexivity.
Qed.

(** C1: whatever the evaluation returns, its (verdict, strength, risk) is
    the triple of the first matching row of the decision table, read on
    the critical failures of the payload, the pillars below threshold and
    the weighted score, and these are the ones of the inputs: the adjusted
    scores are the risk-adjusted input scores, pillar by pillar, the
    pillars below threshold are those whose adjusted score is below the
    threshold of the stage, and the weighted score is the sum of adjusted
    score times stage weight.  A non-empty list of critical failures gives
    FAIL / CRITICAL / Critical Risk whatever the weighted score.  The
    evaluation returns on every typed payload and pillar score set. *)
Theorem C1_verdict_decision_table (pillar_scores : list (string * Q))
    (data : gmap string pyval) (base_probability : Q) :
  (forall r,
      evaluate_startup_comprehensive pillar_scores data base_probability
      = Ok r ->
      check_critical_failures data = Ok (critical_failures r)
      /\ Forall2 (fun input adjusted =>
                    fst adjusted = fst input
                    /\ calculate_risk_adjusted_score (snd input) (fst input)
                                                      data
                       = Ok (snd adjusted))
                 pillar_scores (adjusted_pillar_scores r)
      /\ get_stage_weights (dict_get data "funding_stage" (PyStr "Seed"))
         = Ok (stage_weights r)
      /\ get_stage_thresholds (dict_get data "funding_stage" (PyStr "Seed"))
         = Ok (stage_thresholds r)
      /\ below_threshold r
         = spec_below_threshold (stage_thresholds r) (adjusted_pillar_scores r)
      /\ weighted_score r
         = spec_weighted_score (stage_weights r) (adjusted_pillar_scores r)
      /\ (verdict r, strength r, risk_level r)
         = decision_table (critical_failures r) (below_threshold r)
                          (weighted_score r)
      /\ (critical_failures r <> [] ->
          (verdict r, strength r, risk_level r)
          = ("FAIL", "CRITICAL", "Critical Risk")))
  /\ (metrics_well_typed data = true ->
      pillar_keys_ok pillar_scores = true ->
      exists r,
        evaluate_startup_comprehensive pillar_scores data base_probability
        = Ok r).
Proof.
  split; [|apply evaluate_startup_comprehensive_total].
  intros r Hr.
  pose proof (evaluate_startup_comprehensive_steps _ _ _ _ Hr) as Hsteps.
  cbv zeta in Hsteps.
  destruct Hsteps as (Hadjusted & Hweights & Hthresholds
                      & (below & Hbelow & Hb) & (terms & Hterms & Hw)).
  apply evaluate_startup_comprehensive_inv in Hr as (Hcheck & Hverdict & _).
  split; [exact Hcheck|]. split.
  { apply mapM_inv in Hadjusted.
    eapply Forall2_impl; [exact Hadjusted|].
    intros [pillar score] [pillar' adjusted] H. cbv beta iota in H.
    apply bind_Ok in H as (a & Ha & H). injection H as <- <-.
    split; [reflexivity | exact Ha]. }
  split; [exact Hweights|]. split; [exact Hthresholds|]. split.
  { rewrite Hb. apply below_threshold_spec, Hbelow. }
  split.
  { rewrite Hw. unfold spec_weighted_score. f_equal.
    apply weighted_score_spec, Hterms. }
  split.
  - pose proof (verdict_of_decision_table (critical_failures r)
                  (below_threshold r) (weighted_score r)) as Htable.
    rewrite <- Hverdict in Htable. exact Htable.
  - intros Hcrit.
    rewrite (verdict_of_critical _ (below_threshold r) (weighted_score r) Hcrit)
      in Hverdict.
    injection Hverdict as -> -> ->. reflexivity.
Qed.

Lemma C1_verdict_decision_table_witness :
  exists r,
    evaluate_startup_comprehensive top_scores runway_crisis 0.9 = Ok r
    /\ below_threshold r = []
    /\ weighted_score r == 1
    /\ (verdict r, strength r, risk_level r)
       = ("FAIL", "CRITICAL", "Critical Risk").
Proof.
  destruct (C1_verdict_decision_table top_scores runway_crisis 0.9)
    as [Htable Hreturns].
  destruct Hreturns as [r Hr]; [reflexivity | reflexivity |].
  destruct (Htable r Hr)
    as (Hcheck & _ & _ & _ & _ & _ & _ & Hcritical).
  exists r. split; [exact Hr|]. split; [|split].
  - vm_compute in Hr. injection Hr as Hr. rewrite <- Hr. reflexivity.
  - vm_compute in Hr. injection Hr as Hr. rewrite <- Hr. reflexivity.
  - apply Hcritical. intros Hnone. rewrite Hnone in Hcheck.
    vm_compute in Hcheck. discriminate Hcheck.
Defined.

(** ** Probability reconciliation *)

Lemma reconcile_range (verdict : string) (base_probability : Q) :
  0 <= base_probability <= 1 ->
  0 <= reconcile verdict base_probability <= 1.
Proof.
  intros [H0 H1]. unfold reconcile.
  destruct (String.eqb verdict "FAIL");
    [|destruct (String.eqb verdict "CONDITIONAL PASS")].
  - split; [apply py_min_glb; lra|].
    apply Qle_trans with 0.45; [apply py_min_le_r | lra].
  - split.
    + apply Qle_trans with 0.45; [lra | apply py_max_ge_l].
    + apply py_max_lub; [lra|].
      apply Qle_trans with 0.65; [apply py_min_le_r | lra].
  - split.
    + apply Qle_trans with 0.55; [lra | apply py_max_ge_l].
    + apply py_max_lub; lra.
Qed.

Lemma reconcile_fail (base_probability : Q) :
  reconcile "FAIL" base_probability <= 0.45.
Proof. apply py_min_le_r. Qed.

Lemma reconcile_conditional (base_probability : Q) :
  0.45 <= reconcile "CONDITIONAL PASS" base_probability <= 0.65.
Proof.
  change (0.45 <= py_max 0.45 (py_min base_probability 0.65) <= 0.65).
  split; [apply py_max_ge_l|].
  apply py_max_lub; [lra | apply py_min_le_r].
Qed.

Lemma reconcile_pass (base_probability : Q) :
  0.55 <= reconcile "PASS" base_probability.
Proof. apply py_max_ge_l. Qed.

(** C2: for a base probability of [0,1], whatever the evaluation returns
    has an adjusted probability of [0,1] that agrees with its verdict: at
    most 0.45 under FAIL, within [0.45, 0.65] under CONDITIONAL PASS, at
    least 0.55 under PASS, the verdict being one of the three.  The
    evaluation returns on every typed payload and pillar score set. *)
Theorem C2_probability_consistent_with_verdict
    (pillar_scores : list (string * Q)) (data : gmap string pyval)
    (base_probability : Q) :
  0 <= base_probability <= 1 ->
  (forall r,
      evaluate_startup_comprehensive pillar_scores data base_probability
      = Ok r ->
      (verdict r = "FAIL" -> adjusted_probability r <= 0.45)
      /\ (verdict r = "CONDITIONAL PASS" ->
          0.45 <= adjusted_probability r <= 0.65)
      /\ (verdict r = "PASS" -> 0.55 <= adjusted_probability r)
      /\ 0 <= adjusted_probability r <= 1
      /\ (verdict r = "FAIL" \/ verdict r = "CONDITIONAL PASS"
          \/ verdict r = "PASS"))
  /\ (metrics_well_typed data = true ->
      pillar_keys_ok pillar_scores = true ->
      exists r,
        evaluate_startup_comprehensive pillar_scores data base_probability
        = Ok r).
Proof.
  intros Hbase. split; [|apply evaluate_startup_comprehensive_total].
  intros r Hr.
  apply evaluate_startup_comprehensive_inv in Hr as (_ & Hverdict & Hprob).
  rewrite Hprob.
  split; [intros ->; apply reconcile_fail|].
  split; [intros ->; apply reconcile_conditional|].
  split; [intros ->; apply reconcile_pass|].
  split; [apply reconcile_range, Hbase|].
  pose proof (verdict_of_cases (critical_failures r) (below_threshold r)
                (weighted_score r)) as Hcases.
  rewrite <- Hverdict in Hcases. exact Hcases.
Qed.

Lemma C2_probability_consistent_with_verdict_witness :
  0 <= 0.9 <= 1
  /\ exists r,
       evaluate_startup_comprehensive top_scores runway_crisis 0.9 = Ok r
       /\ verdict r = "FAIL"
       /\ adjusted_probability r <= 0.45.
Proof.
  assert (Hbase : 0 <= 0.9 <= 1) by (split; apply Qle_bool_iff; reflexivity).
  split; [exact Hbase|].
  destruct (C2_probability_consistent_with_verdict top_scores runway_crisis
              0.9 Hbase) as [Hconsistent Hreturns].
  destruct Hreturns as [r Hr]; [reflexivity | reflexivity |].
  destruct (Hconsistent r Hr) as (Hfail & _).
  exists r. split; [exact Hr|].
  assert (Hverdict : verdict r = "FAIL").
  { vm_compute in Hr. injection Hr as Hr. rewrite <- Hr. reflexivity. }
  split; [exact Hverdict | apply Hfail, Hverdict].
Defined.

(** ** Model-family fusion *)

Lemma py_div_Ok (a b : Q) : Qeq_bool b 0 = false -> py_div a b = Ok (a / b).
Proof. intros H. unfold py_div. rewrite H. reflexivity. Qed.

(** C6: the fusion never fails and is the weighted average of the
    available opinions: each of the stage (0.2), industry (0.15) and
    medium-term temporal (0.1) opinions enters numerator and denominator
    exactly when it is available; with none of them the result is the base
    probability, 0.62 for a base of 0.62. *)
Theorem C6_fusion_weighted_average :
  (forall (base_proba : Q) (stage_proba industry_proba : option Q)
          (temporal_preds : option (gmap string Q)),
      exists p,
        predict_advanced_final_proba base_proba stage_proba industry_proba
                                     temporal_preds = Ok p
        /\ p == fusion_formula base_proba stage_proba industry_proba
                               (temporal_medium temporal_preds))
  /\ (forall base_proba : Q,
        exists p,
          predict_advanced_final_proba base_proba None None None = Ok p
          /\ p == base_proba)
  /\ (exists p,
        predict_advanced_final_proba 0.62 None None None = Ok p
        /\ p == 0.62).
Proof.
  split; [|split].
  - intros base stage industry temporal_preds.
    unfold predict_advanced_final_proba, fusion_formula, temporal_medium.
    destruct temporal_preds as [preds|].
    + destruct (preds !! "medium_term") as [medium|] eqn:Hmedium.
      * assert (Hsize : Nat.eqb (size preds) 0 = false).
        { apply Nat.eqb_neq. eapply map_size_ne_0_lookup_2. eauto. }
        rewrite Hsize. unfold dict_index. rewrite Hmedium.
        rewrite bool_decide_eq_true_2 by eauto.
        destruct stage as [stage|], industry as [industry|];
          cbn [negb andb bind opinion_term opinion_weight];
          (rewrite py_div_Ok by reflexivity);
          (eexists; split; [reflexivity|]);
          apply Qdiv_comp; ring.
      * rewrite bool_decide_eq_false_2 by (intros [? ?]; discriminate).
        rewrite andb_false_r.
        destruct stage as [stage|], industry as [industry|];
          cbn [bind opinion_term opinion_weight];
          (rewrite py_div_Ok by reflexivity);
          (eexists; split; [reflexivity|]);
          apply Qdiv_comp; ring.
    + destruct stage as [stage|], industry as [industry|];
        cbn [bind opinion_term opinion_weight];
        (rewrite py_div_Ok by reflexivity);
        (eexists; split; [reflexivity|]);
        apply Qdiv_comp; ring.
  - intros base. eexists. split; [reflexivity|]. field.
  - eexists. split; [reflexivity|]. reflexivity.
Qed.

(** ** Insight generator *)

Lemma returns_Ok {A} (a : A) (P : A -> Prop) : P a -> returns (Ok a) P.
Proof. intros H. exists a. auto. Qed.

Lemma returns_bind {A B} (m : result A) (k : A -> result B)
    (Q : A -> Prop) (P : B -> Prop) :
  returns m Q -> (forall a, Q a -> returns (k a) P) -> returns (bind m k) P.
Proof. intros (a & -> & Ha) Hk. simpl. apply Hk, Ha. Qed.

Lemma returns_bind_Ok {A B} (m : result A) (a : A) (k : A -> result B)
    (P : B -> Prop) :
  m = Ok a -> returns (k a) P -> returns (bind m k) P.
Proof. intros -> H. exact H. Qed.

Lemma returns_let {A B} (v : A) (k : A -> result B)
    (Q : A -> Prop) (P : B -> Prop) :
  Q v -> (forall a, Q a -> returns (k a) P) -> returns (let x := v in k x) P.
Proof. intros Hv Hk. apply Hk, Hv. Qed.

(** One statement of the code at a time. *)
Ltac step_with H := eapply returns_bind_Ok; [exact H | cbv beta].
Ltac step_num H :=
  eapply returns_bind_Ok;
  [unfold num_lt, num_gt, num_mul; rewrite H; reflexivity | cbv beta].
Ltac step_let Q :=
  lazymatch goal with
  | |- returns (let x := ?v in @?k x) ?P =>
      apply (returns_let v k Q P); [| intros ? ?; cbv beta]
  end.

Lemma metric_index (data : gmap string pyval) (k : string) (v : pyval) (x : Q) :
  dict_index data k = Ok v -> as_number v = Some x -> metric data k = Some x.
Proof.
  unfold dict_index, metric. destruct (data !! k); [|discriminate].
  intros [= ->]. auto.
Qed.

Lemma triggered_warnings_critical (data : gmap string pyval) :
  Forall (fun s => is_critical_warning s = true) (triggered_warnings data).
Proof.
  unfold triggered_warnings.
  destruct (metric data "runway_months") as [runway|]; [|constructor].
  destruct (metric data "burn_multiple") as [burn|]; [|constructor].
  destruct (Qltb runway 6), (Qltb runway 12), (Qltb 5 burn);
    repeat constructor.
Qed.

Lemma triggered_warnings_length (data : gmap string pyval) :
  (length (triggered_warnings data) <= 2)%nat.
Proof.
  unfold triggered_warnings.
  destruct (metric data "runway_months") as [runway|]; [|simpl; lia].
  destruct (metric data "burn_multiple") as [burn|]; [|simpl; lia].
  destruct (Qltb runway 6), (Qltb runway 12), (Qltb 5 burn); simpl; lia.
Qed.

Lemma after_warnings_app (data : gmap string pyval) (l : list string)
    (x : string) :
  is_critical_warning x = false -> after_warnings data l ->
  after_warnings data (l ++ [x]).
Proof.
  intros Hx (rest & -> & Hrest). exists (rest ++ [x]). split.
  - rewrite app_assoc. reflexivity.
  - apply Forall_app. split; [exact Hrest | repeat constructor; exact Hx].
Qed.

Lemma after_warnings_append_if (data : gmap string pyval) (l : list string)
    (c : bool) (x : string) :
  is_critical_warning x = false -> after_warnings data l ->
  after_warnings data (append_if c x l).
Proof.
  intros Hx Hl. destruct c; simpl; [apply after_warnings_app|]; assumption.
Qed.

(** A pillar statement: [if c1: append(x) elif c2: append(y)]. *)
Lemma after_warnings_band (data : gmap string pyval) (l : list string)
    (c1 c2 : bool) (x y : string) :
  is_critical_warning x = false -> is_critical_warning y = false ->
  after_warnings data l ->
  after_warnings data (if c1 then l ++ [x] else append_if c2 y l).
Proof.
  intros Hx Hy Hl. destruct c1.
  - apply after_warnings_app; assumption.
  - apply after_warnings_append_if; assumption.
Qed.

Lemma warnings_first_app (warnings rest : list string) :
  Forall (fun s => is_critical_warning s = true) warnings ->
  Forall (fun s => is_critical_warning s = false) rest ->
  warnings_first (warnings ++ rest).
Proof.
  intros Hw Hr i j a b Hi Hj Ha Hb.
  apply lookup_app_Some in Hi as [Hi | [_ Hi]]; cycle 1.
  { pose proof (Forall_lookup_1 _ _ _ _ Hr Hi) as Hcontra.
    simpl in Hcontra. congruence. }
  apply lookup_app_Some in Hj as [Hj | [Hlen _]].
  - pose proof (Forall_lookup_1 _ _ _ _ Hw Hj) as Hcontra.
    simpl in Hcontra. congruence.
  - apply lookup_lt_Some in Hi. lia.
Qed.

(** [insights[:6]] keeps the triggered warnings in front. *)
Lemma after_warnings_take (data : gmap string pyval) (l : list string) :
  after_warnings data l ->
  (length (take 6 l) <= 6)%nat
  /\ warnings_first (take 6 l)
  /\ triggered_warnings data `prefix_of` take 6 l.
Proof.
  intros (rest & -> & Hrest).
  pose proof (triggered_warnings_length data) as Hlen.
  rewrite take_app, (take_ge (triggered_warnings data)) by lia.
  split; [|split].
  - rewrite length_app, length_take. lia.
  - apply warnings_first_app.
    + apply triggered_warnings_critical.
    + apply Forall_take, Hrest.
  - apply prefix_app_r. reflexivity.
Qed.

Lemma generate_insights_returns (format : pyval -> string)
    (data : gmap string pyval) (prediction : Q)
    (pillar_scores : option (list (string * Q))) :
  insight_metrics_ok data = true ->
  returns (generate_insights format data prediction pillar_scores)
          (fun insights =>
             (length insights <= 6)%nat
             /\ warnings_first insights
             /\ triggered_warnings data `prefix_of` insights).
Proof.
  intros H. unfold insight_metrics_ok in H.
  apply andb_true_iff in H as [H Hchurn].
  destruct (numeric_and_present_index _ _ "runway_months" H ltac:(in_fields))
    as (runway & xr & Hrunway & Hxr).
  destruct (numeric_and_present_index _ _ "burn_multiple" H ltac:(in_fields))
    as (burn & xb & Hburn & Hxb).
  destruct (numeric_and_present_index _ _ "revenue_growth_rate_percent" H
              ltac:(in_fields)) as (growth & xg & Hgrowth & Hxg).
  destruct (numeric_and_present_index _ _ "net_dollar_retention_percent" H
              ltac:(in_fields)) as (ndr & xn & Hndr & Hxn).
  destruct (numeric_and_present_index _ _ "product_retention_30d" H
              ltac:(in_fields)) as (retention & xp & Hretention & Hxp).
  destruct (numeric_and_present_index _ _ "customer_concentration_percent" H
              ltac:(in_fields)) as (conc & xc & Hconc & Hxc).
  destruct (numeric_if_present_get _ _ "churn_rate" 0%Z Hchurn ltac:(in_fields))
    as (xh & Hxh).
  cbv beta delta [generate_insights].
  (* Critical warnings first *)
  step_let (fun l : list string => l = []). { reflexivity. } subst.
  step_with Hrunway. step_num Hxr.
  eapply returns_bind
    with (Q := fun l => l = if Qltb xr 6 then [insight_runway_critical]
                            else if Qltb xr 12 then [insight_runway_warning]
                            else []).
  { destruct (Qltb xr 6); [apply returns_Ok; reflexivity|].
    step_with Hrunway. step_num Hxr. apply returns_Ok.
    destruct (Qltb xr 12); reflexivity. }
  intros ? ->.
  step_with Hburn. step_num Hxb.
  step_let (after_warnings data).
  { exists []. split; [|constructor]. rewrite app_nil_r.
    unfold triggered_warnings.
    rewrite (metric_index _ _ _ _ Hrunway Hxr), (metric_index _ _ _ _ Hburn Hxb).
    destruct (Qltb 5 xb); [reflexivity | symmetry; apply app_nil_r]. }
  (* Pillar-specific insights *)
  step_let (after_warnings data).
  { destruct pillar_scores as [[|p scores]|]; try assumption.
    cbv zeta.
    repeat (apply after_warnings_band; [reflexivity | reflexivity |]).
    assumption. }
  (* Positive highlights *)
  step_with Hgrowth. step_num Hxg.
  eapply returns_bind with (Q := after_warnings data).
  { destruct (Qltb 150 xg).
    - step_with Hgrowth. apply returns_Ok.
      apply after_warnings_app; [reflexivity | assumption].
    - step_with Hgrowth. step_num Hxg. destruct (Qltb 100 xg).
      + step_with Hgrowth. apply returns_Ok.
        apply after_warnings_app; [reflexivity | assumption].
      + apply returns_Ok. assumption. }
  intros ? ?.
  step_with Hndr. step_num Hxn.
  eapply returns_bind with (Q := after_warnings data).
  { destruct (Qltb 120 xn).
    - step_with Hndr. apply returns_Ok.
      apply after_warnings_app; [reflexivity | assumption].
    - apply returns_Ok. assumption. }
  intros ? ?.
  step_with Hretention. step_num Hxp.
  eapply returns_bind with (Q := after_warnings data).
  { destruct (Qltb 0.8 xp).
    - step_with Hretention. step_num Hxp. apply returns_Ok.
      apply after_warnings_app; [reflexivity | assumption].
    - apply returns_Ok. assumption. }
  intros ? ?.
  (* Red flags *)
  step_with Hconc. step_num Hxc.
  eapply returns_bind with (Q := after_warnings data).
  { destruct (Qltb 50 xc).
    - step_with Hconc. apply returns_Ok.
      apply after_warnings_app; [reflexivity | assumption].
    - apply returns_Ok. assumption. }
  intros ? ?.
  step_num Hxh.
  step_let (after_warnings data).
  { apply after_warnings_append_if; [reflexivity | assumption]. }
  (* Limit to 6 most important insights *)
  apply returns_Ok, after_warnings_take. assumption.
Qed.







(** * Further properties *)

(** ** Stage profiles *)

Lemma stage_lookup_row (rows : list (string * gmap string Q)) (v : pyval)
    (w : gmap string Q) :
  stage_lookup (list_to_map rows) v = Ok w -> exists k, (k, w) ∈ rows.
Proof.
  unfold stage_lookup, dict_index.
  destruct (list_to_map rows !! "Seed") as [seed|] eqn:Hseed; [|discriminate].
  cbn [bind]. intros [= <-].
  destruct v as [| | | |s];
    try (exists "Seed"; apply elem_of_list_to_map_2, Hseed).
  unfold dict_get. destruct (list_to_map rows !! s) as [w|] eqn:Hw.
  - exists s. apply elem_of_list_to_map_2, Hw.
  - exists "Seed". apply elem_of_list_to_map_2, Hseed.
Qed.

Ltac table_row H :=
  repeat (apply elem_of_cons in H as [H | H]; [injection H as -> ->|]);
  [.. | apply elem_of_nil in H; destruct H].

Lemma stage_weights_row (funding_stage : pyval) :
  exists c a m p,
    get_stage_weights funding_stage = Ok (mk_profile c a m p)
    /\ c + a + m + p == 1
    /\ 0 < c /\ 0 < a /\ 0 < m /\ 0 < p.
Proof.
  destruct (get_stage_weights_Ok funding_stage) as (c & a & m & p & Hw).
  unfold get_stage_weights in *. rewrite Hw.
  remember (mk_profile c a m p) as w eqn:Heqw. clear Heqw.
  destruct (stage_lookup_row _ _ _ Hw) as [k Hk]. clear Hw.
  table_row Hk; eexists _, _, _, _;
    (split; [reflexivity|]); (split; [reflexivity|]);
    repeat split.
Qed.

Lemma stage_thresholds_row (funding_stage : pyval) :
  exists c a m p,
    get_stage_thresholds funding_stage = Ok (mk_profile c a m p)
    /\ Forall (fun t => 0.30 <= t <= 0.60) [c; a; m; p].
Proof.
  destruct (get_stage_thresholds_Ok funding_stage) as (c & a & m & p & Ht).
  unfold get_stage_thresholds in *. rewrite Ht.
  remember (mk_profile c a m p) as w eqn:Heqw. clear Heqw.
  destruct (stage_lookup_row _ _ _ Ht) as [k Hk]. clear Ht.
  table_row Hk; eexists _, _, _, _;
    (split; [reflexivity|]);
    repeat constructor; apply Qle_bool_iff; reflexivity.
Qed.

(** X1: whatever stage is asked for, the weights returned are four positive
    numbers that sum to 1, and the thresholds returned lie between 0.30
    and 0.60. *)
Theorem stage_profiles_well_formed (funding_stage : pyval) :
  (exists c a m p,
      get_stage_weights funding_stage = Ok (mk_profile c a m p)
      /\ c + a + m + p == 1
      /\ 0 < c /\ 0 < a /\ 0 < m /\ 0 < p)
  /\ (exists c a m p,
        get_stage_thresholds funding_stage = Ok (mk_profile c a m p)
        /\ Forall (fun t => 0.30 <= t <= 0.60) [c; a; m; p]).
Proof.
  split; [apply stage_weights_row | apply stage_thresholds_row].
Qed.

(** ** Pillar risk adjuster: shape of the adjustment *)

Lemma clamp_mono (x y : Q) :
  x <= y -> py_max 0 (py_min 1 x) <= py_max 0 (py_min 1 y).
Proof.
  intros H. apply py_max_lub; [apply py_max_ge_l|].
  apply Qle_trans with (py_min 1 y); [|apply py_max_ge_r].
  apply py_min_glb; [apply py_min_le_l|].
  apply Qle_trans with x; [apply py_min_le_r | exact H].
Qed.

(** Decide the comparisons of two string literals, in the goal and in [H]. *)
Ltac literal_eqb H :=
  repeat match goal with
         | |- context [String.eqb (String ?a ?s) (String ?b ?t)] =>
             let r := eval vm_compute in (String.eqb (String a s) (String b t)) in
             change (String.eqb (String a s) (String b t)) with r in *
         | _ : context [String.eqb (String ?a ?s) (String ?b ?t)] |- _ =>
             let r := eval vm_compute in (String.eqb (String a s) (String b t)) in
             change (String.eqb (String a s) (String b t)) with r in *
         end.

(** Split on the pillar the adjuster is asked about: one of the four
    names, or none of them. *)
Ltac pillar_cases pillar_name H :=
  destruct (String.eqb_spec pillar_name "market") as [-> | ?];
    [|destruct (String.eqb_spec pillar_name "capital") as [-> | ?];
      [|destruct (String.eqb_spec pillar_name "advantage") as [-> | ?];
        [|destruct (String.eqb_spec pillar_name "people") as [-> | ?]]]];
  literal_eqb H; cbv iota in H |- *.

(** Name the reading of every field the hypothesis [H] still consults,
    dropping the cases in which the code raised. *)
Ltac consulted_fields H :=
  repeat match type of H with
         | context [as_number ?v] =>
             destruct (as_number v) eqn:?; cbn [bind] in H;
             try discriminate H
         end.

(** When the adjuster returns for one base score it returns for all of
    them, and its result is the clamp of the base score moved by an amount
    that does not depend on the base score and lies in [-0.30, 0.10]. *)
Lemma calculate_risk_adjusted_score_shift (base_score : Q)
    (pillar_name : string) (data : gmap string pyval) (adjusted : Q) :
  calculate_risk_adjusted_score base_score pillar_name data = Ok adjusted ->
  exists f : Q -> Q,
    (forall b, calculate_risk_adjusted_score b pillar_name data
               = Ok (py_max 0 (py_min 1 (f b))))
    /\ (forall b, f b == b + f 0)
    /\ -0.3 <= f 0 <= 0.1.
Proof.
  unfold calculate_risk_adjusted_score, num_gt, num_lt, num_ge. intros H.
  pillar_cases pillar_name H;
    try destruct (truthy (dict_get data "has_debt" (PyBool false)));
    consulted_fields H;
    repeat match type of H with
           | context [if ?c then _ else _] => destruct c
           end;
    (eexists (fun b => _); split;
     [intros b; cbn [bind]; reflexivity
     |split; [intros b; cbv beta; ring | cbv beta; lra]]).
Qed.

(** X2: the adjuster is monotone in the base score: on the same pillar and
    payload a higher base score never gives a lower adjusted score. *)
Theorem risk_adjustment_monotone (pillar_name : string)
    (data : gmap string pyval) (base1 base2 adjusted1 adjusted2 : Q) :
  calculate_risk_adjusted_score base1 pillar_name data = Ok adjusted1 ->
  calculate_risk_adjusted_score base2 pillar_name data = Ok adjusted2 ->
  base1 <= base2 ->
  adjusted1 <= adjusted2.
Proof.
  intros H1 H2 Hle.
  destruct (calculate_risk_adjusted_score_shift _ _ _ _ H1)
    as (f & Hf & Hshift & _).
  rewrite Hf in H1, H2. injection H1 as <-. injection H2 as <-.
  apply clamp_mono. rewrite (Hshift base1), (Hshift base2). lra.
Qed.

Lemma risk_adjustment_monotone_witness :
  exists adjusted1 adjusted2,
    calculate_risk_adjusted_score 0.4 "people" runway_crisis = Ok adjusted1
    /\ calculate_risk_adjusted_score 0.7 "people" runway_crisis = Ok adjusted2
    /\ adjusted1 <= adjusted2.
Proof.
  exists 0.4, 0.7. split; [reflexivity|]. split; [reflexivity|].
  apply (risk_adjustment_monotone "people" runway_crisis 0.4 0.7);
    [reflexivity | reflexivity | apply Qle_bool_iff; reflexivity].
Defined.

(** X3: for a base score of [0,1] the adjuster lowers the score by at most
    0.30 and raises it by at most 0.10. *)
Theorem risk_adjustment_bounded (pillar_name : string)
    (data : gmap string pyval) (base_score adjusted : Q) :
  0 <= base_score <= 1 ->
  calculate_risk_adjusted_score base_score pillar_name data = Ok adjusted ->
  base_score - 0.3 <= adjusted <= base_score + 0.1.
Proof.
  intros [H0 H1] H.
  destruct (calculate_risk_adjusted_score_shift _ _ _ _ H)
    as (f & Hf & Hshift & Hlo & Hhi).
  rewrite Hf in H. injection H as <-.
  pose proof (Hshift base_score) as Hb. split.
  - apply Qle_trans with (py_min 1 (f base_score)); [|apply py_max_ge_r].
    apply py_min_glb; lra.
  - apply py_max_lub; [lra|].
    apply Qle_trans with (f base_score); [apply py_min_le_r | lra].
Qed.

Lemma risk_adjustment_bounded_witness :
  exists adjusted,
    calculate_risk_adjusted_score 0.5 "market"
      {[ "customer_concentration_percent" := PyFloat 60 ]} = Ok adjusted
    /\ 0.5 - 0.3 <= adjusted <= 0.5 + 0.1.
Proof.
  exists (0.5 - 0.1). split; [reflexivity|].
  apply (risk_adjustment_bounded "market"
           {[ "customer_concentration_percent" := PyFloat 60 ]} 0.5);
    [split; apply Qle_bool_iff; reflexivity | reflexivity].
Defined.

(** A pillar name outside the four is only clamped: no rule applies and
    the payload is not read, so the call returns whatever the payload
    holds. *)
Theorem unknown_pillar_only_clamped (base_score : Q) (pillar_name : string)
    (data : gmap string pyval) :
  ~ In pillar_name pillars ->
  calculate_risk_adjusted_score base_score pillar_name data
  = Ok (py_max 0 (py_min 1 base_score)).
Proof.
  intros Hnot. unfold calculate_risk_adjusted_score.
  assert (Hneq : forall p, In p pillars -> String.eqb pillar_name p = false).
  { intros p Hp. apply String.eqb_neq. intros ->. apply Hnot, Hp. }
  rewrite !Hneq by in_fields. reflexivity.
Qed.

Lemma unknown_pillar_only_clamped_witness :
  calculate_risk_adjusted_score 1.2 "team"
    {[ "patent_count" := PyStr "seven" ]} = Ok 1.
Proof.
  apply (unknown_pillar_only_clamped 1.2 "team"
           {[ "patent_count" := PyStr "seven" ]}).
  simpl. intros H. repeat (destruct H as [H | H]; [discriminate H|]). exact H.
Defined.

(** X4: the only exception the adjuster raises is [TypeError], and it does
    raise it when a field it orders against a number holds a value that is
    not a number. *)
Theorem risk_adjustment_raises_only_TypeError (base_score : Q)
    (pillar_name : string) (data : gmap string pyval) :
  (forall e,
      calculate_risk_adjusted_score base_score pillar_name data = Raise e ->
      e = TypeError)
  /\ (forall v,
        data !! "customer_concentration_percent" = Some v ->
        is_number v = false ->
        calculate_risk_adjusted_score base_score "market" data
        = Raise TypeError).
Proof.
  split.
  - unfold calculate_risk_adjusted_score, num_gt, num_lt, num_ge. intros e H.
    pillar_cases pillar_name H;
      try destruct (truthy (dict_get data "has_debt" (PyBool false)));
      repeat match type of H with
             | context [as_number ?v] =>
                 destruct (as_number v) eqn:?; cbn [bind] in H
             end;
      cbn [bind] in H; congruence.
  - intros v Hv Hnum.
    unfold calculate_risk_adjusted_score, num_gt, dict_get.
    rewrite Hv. unfold is_number in Hnum.
    destruct (as_number v); [discriminate Hnum | reflexivity].
Qed.

Lemma risk_adjustment_raises_only_TypeError_witness :
  calculate_risk_adjusted_score 0.5 "market"
    {[ "customer_concentration_percent" := PyStr "high" ]} = Raise TypeError.
Proof.
  destruct (risk_adjustment_raises_only_TypeError 0.5 "market"
              {[ "customer_concentration_percent" := PyStr "high" ]})
    as [_ Hraises].
  apply (Hraises (PyStr "high")); reflexivity.
Defined.

(** ** Critical failure detector: order, defaults, exceptions *)

Lemma sublist_append_if {A} (c : bool) (x : A) (l k : list A) :
  l `sublist_of` k -> append_if c x l `sublist_of` k ++ [x].
Proof.
  intros H. destruct c; simpl.
  - apply sublist_app; [exact H | reflexivity].
  - apply sublist_inserts_r, H.
Qed.

(** X5: the failures come in the order of the rules, each at most once: the
    returned list is a sublist of the five messages, so it has at most 5
    entries and no duplicates. *)
Theorem critical_failures_ordered (data : gmap string pyval)
    (failures : list string) :
  check_critical_failures data = Ok failures ->
  failures `sublist_of` failure_messages
  /\ (length failures <= 5)%nat
  /\ NoDup failures.
Proof.
  intros H.
  apply check_critical_failures_spec in H as (r & b & c & h & _ & _ & _ & _ & ->).
  assert (Hsub : failures_of data r b c h `sublist_of` failure_messages).
  { unfold failures_of.
    change failure_messages
      with ((((([] ++ [runway_failure]) ++ [burn_failure])
               ++ [concentration_failure]) ++ [churn_failure])
             ++ [founder_failure]).
    repeat apply sublist_append_if. constructor. }
  split; [exact Hsub|]. split.
  - apply sublist_length in Hsub. exact Hsub.
  - eapply sublist_NoDup; [|exact Hsub].
    apply NoDup_ListNoDup. repeat constructor; simpl; intuition discriminate.
Qed.

Lemma critical_failures_ordered_witness :
  exists failures,
    check_critical_failures runway_crisis = Ok failures
    /\ failures `sublist_of` failure_messages
    /\ (length failures <= 5)%nat
    /\ NoDup failures.
Proof.
  exists [runway_failure]. split; [reflexivity|].
  apply (critical_failures_ordered runway_crisis). reflexivity.
Defined.

(** X6: the founder rule defaults to firing: a payload with neither
    [founders_count] nor [key_person_dependency] is reported as a single
    founder with key person risk, while one with a founder count other
    than 1 never is. *)
Theorem founder_rule_defaults (data : gmap string pyval)
    (failures : list string) :
  check_critical_failures data = Ok failures ->
  (data !! "founders_count" = None ->
   data !! "key_person_dependency" = None ->
   In founder_failure failures)
  /\ (forall n : Z,
        data !! "founders_count" = Some (PyInt n) -> n <> 1%Z ->
        ~ In founder_failure failures).
Proof.
  intros H.
  apply check_critical_failures_spec in H as (r & b & c & h & _ & _ & _ & _ & ->).
  unfold failures_of, dict_get. split.
  - intros Hcount Hkey. rewrite Hcount, Hkey. simpl.
    apply in_or_app. right. left. reflexivity.
  - intros n -> Hn.
    assert (Heq : num_eq (PyInt n) 1 = false).
    { unfold num_eq. simpl. apply not_true_is_false. intros Heq.
      apply Qeq_bool_iff in Heq. unfold Qeq in Heq. simpl in Heq. lia. }
    rewrite Heq. cbn [andb append_if]. intros Hin.
    repeat (apply In_append_if_inv in Hin as [Hin | Hin]; [discriminate Hin|]).
    exact Hin.
Qed.

Lemma founder_rule_defaults_witness :
  exists failures,
    check_critical_failures {[ "runway_months" := PyInt 24 ]} = Ok failures
    /\ In founder_failure failures.
Proof.
  exists [founder_failure]. split; [reflexivity|].
  apply (founder_rule_defaults {[ "runway_months" := PyInt 24 ]});
    reflexivity.
Defined.

Lemma numeric_if_present_detector (data : gmap string pyval) :
  numeric_if_present detector_fields data = true <->
  exists r b c h,
    as_number (dict_get data "runway_months" (PyInt 0)) = Some r
    /\ as_number (dict_get data "burn_multiple" (PyInt 0)) = Some b
    /\ as_number (dict_get data "customer_concentration_percent" (PyInt 0))
       = Some c
    /\ as_number (dict_get data "churn_rate" (PyInt 0)) = Some h.
Proof.
  unfold numeric_if_present, detector_fields, dict_get, is_number.
  cbn [forallb]. rewrite !andb_true_iff. split.
  - intros (Hr & Hb & Hc & Hh & _).
    destruct (data !! "runway_months") as [vr|];
      [destruct (as_number vr) as [r|]; [|discriminate Hr]|];
      destruct (data !! "burn_multiple") as [vb|];
      [destruct (as_number vb) as [b|]; [|discriminate Hb]| |
       destruct (as_number vb) as [b|]; [|discriminate Hb]|];
      destruct (data !! "customer_concentration_percent") as [vc|];
      try (destruct (as_number vc) as [c|]; [|discriminate Hc]);
      destruct (data !! "churn_rate") as [vh|];
      try (destruct (as_number vh) as [h|]; [|discriminate Hh]);
      simpl; eauto 10.
  - intros (r & b & c & h & Hr & Hb & Hc & Hh).
    destruct (data !! "runway_months") as [vr|];
      destruct (data !! "burn_multiple") as [vb|];
      destruct (data !! "customer_concentration_percent") as [vc|];
      destruct (data !! "churn_rate") as [vh|];
      rewrite ?Hr, ?Hb, ?Hc, ?Hh; auto.
Qed.

(** X7: the detector returns exactly on the payloads whose four numeric
    fields, where present, hold numbers; on the others it raises
    [TypeError], never [KeyError]: every field is read with a default. *)
Theorem critical_failures_domain (data : gmap string pyval) :
  ((exists failures, check_critical_failures data = Ok failures) <->
   numeric_if_present detector_fields data = true)
  /\ (forall e, check_critical_failures data = Raise e -> e = TypeError).
Proof.
  split.
  - rewrite numeric_if_present_detector. split.
    + intros [failures H].
      apply check_critical_failures_spec in H
        as (r & b & c & h & Hr & Hb & Hc & Hh & _).
      eauto 10.
    + intros (r & b & c & h & Hr & Hb & Hc & Hh).
      exists (failures_of data r b c h).
      apply check_critical_failures_spec. eauto 10.
  - unfold check_critical_failures, num_lt, num_gt. intros e H.
    repeat match type of H with
           | context [as_number ?v] =>
               destruct (as_number v) eqn:?; cbn [bind] in H
           end;
      congruence.
Qed.

(** ** Evaluation: the intermediate values *)

Lemma filterM_inv {A} (f : A -> result bool) (l ys : list A) :
  filterM f l = Ok ys -> ys `sublist_of` l.
Proof.
  revert ys. induction l as [|x l IH]; simpl; intros ys H.
  - injection H as <-. constructor.
  - apply bind_Ok in H as (c & _ & H).
    apply bind_Ok in H as (ys' & Hys & H). injection H as <-.
    destruct c; constructor; auto.
Qed.

Lemma sublist_map {A B} (f : A -> B) (l k : list A) :
  l `sublist_of` k -> map f l `sublist_of` map f k.
Proof. induction 1; simpl; constructor; auto. Qed.

Lemma adjusted_scores_inv (data : gmap string pyval)
    (pillar_scores adjusted_scores : list (string * Q)) :
  mapM (fun '(pillar, score) =>
          let* adjusted := calculate_risk_adjusted_score score pillar data in
          Ok (pillar, adjusted))
       pillar_scores = Ok adjusted_scores ->
  map fst adjusted_scores = map fst pillar_scores
  /\ Forall (fun kv => 0 <= snd kv <= 1) adjusted_scores.
Proof.
  intros H. apply mapM_inv in H.
  induction H as [|[pillar score] [pillar' adjusted] l l' Hx _ IH].
  - split; constructor.
  - apply bind_Ok in Hx as (a & Ha & Hx). injection Hx as <- <-.
    destruct IH as [IHkeys IHrange]. split.
    + simpl. rewrite IHkeys. reflexivity.
    + constructor; [|exact IHrange]. simpl.
      apply calculate_risk_adjusted_score_inv in Ha as [x ->].
      apply clamp_range.
Qed.

(** X8: the evaluation keeps the pillar score set in shape: the adjusted
    scores have the keys of the input in the same order and lie in [0,1],
    and the pillars below threshold are some of those keys, in that
    order. *)
Theorem evaluation_keeps_pillars (pillar_scores : list (string * Q))
    (data : gmap string pyval) (base_probability : Q) (r : evaluation) :
  evaluate_startup_comprehensive pillar_scores data base_probability = Ok r ->
  map fst (adjusted_pillar_scores r) = map fst pillar_scores
  /\ Forall (fun kv => 0 <= snd kv <= 1) (adjusted_pillar_scores r)
  /\ below_threshold r `sublist_of` map fst pillar_scores.
Proof.
  intros H.
  apply evaluate_startup_comprehensive_steps in H
    as (Hadjusted & _ & _ & (below & Hbelow & Heq) & _).
  apply adjusted_scores_inv in Hadjusted as [Hkeys Hrange].
  split; [exact Hkeys|]. split; [exact Hrange|].
  rewrite Heq, <- Hkeys. apply sublist_map.
  eapply filterM_inv, Hbelow.
Qed.

Lemma evaluation_keeps_pillars_witness :
  exists r,
    evaluate_startup_comprehensive top_scores runway_crisis 0.9 = Ok r
    /\ map fst (adjusted_pillar_scores r) = pillars
    /\ Forall (fun kv => 0 <= snd kv <= 1) (adjusted_pillar_scores r).
Proof.
  destruct (evaluate_startup_comprehensive_total top_scores runway_crisis 0.9)
    as [r Hr]; [reflexivity | reflexivity|].
  exists r. split; [exact Hr|].
  destruct (evaluation_keeps_pillars top_scores runway_crisis 0.9 r Hr)
    as (Hkeys & Hrange & _).
  split; [exact Hkeys | exact Hrange].
Defined.

(** ** Evaluation: the weighted score *)

Lemma fold_left_Qplus_bounds (terms bounds : list Q) (a : Q) :
  Forall2 (fun t b => 0 <= t <= b) terms bounds ->
  a <= fold_left Qplus terms a
  /\ fold_left Qplus terms a <= a + fold_right Qplus 0 bounds.
Proof.
  intros H. revert a. induction H as [|t b terms bounds [Ht0 Htb] _ IH];
    intros a; simpl.
  - split; lra.
  - destruct (IH (a + t)) as [IHlo IHhi]. split; lra.
Qed.

Lemma total_weight_submseteq (c a m p : Q) (l k : list string) :
  0 <= c -> 0 <= a -> 0 <= m -> 0 <= p ->
  l ⊆+ k ->
  total_weight (mk_profile c a m p) l <= total_weight (mk_profile c a m p) k.
Proof.
  intros Hc Ha Hm Hp.
  assert (Hnonneg : forall x, 0 <= weight_of (mk_profile c a m p) x).
  { intros x. unfold weight_of.
    destruct (mk_profile c a m p !! x) as [w|] eqn:Hw; [|lra].
    apply elem_of_list_to_map_2 in Hw.
    repeat (apply elem_of_cons in Hw as [Hw | Hw];
            [injection Hw as _ ->; assumption|]).
    apply elem_of_nil in Hw. destruct Hw. }
  induction 1 as [|x l k _ IH|x y l|x l k _ IH|l k k' _ IH1 _ IH2]; simpl.
  - lra.
  - lra.
  - lra.
  - pose proof (Hnonneg x). lra.
  - lra.
Qed.

(** A term of the weighted sum is a score of [0,1] times the weight of its
    pillar. *)
Lemma weighted_terms_bounded (c a m p : Q)
    (adjusted_scores : list (string * Q)) (keys : list string)
    (terms : list Q) :
  0 <= c -> 0 <= a -> 0 <= m -> 0 <= p ->
  Forall (fun kv => 0 <= snd kv <= 1) adjusted_scores ->
  mapM (fun pillar =>
          let* score := items_index adjusted_scores pillar in
          let* w := dict_index (mk_profile c a m p) pillar in
          Ok (score * w))
       keys = Ok terms ->
  Forall2 (fun t b => 0 <= t <= b) terms
          (map (weight_of (mk_profile c a m p)) keys)
  /\ (forall k, In k keys -> In k pillars).
Proof.
  intros Hc Ha Hm Hp Hrange H. apply mapM_inv in H.
  induction H as [|k t keys terms Hk _ [IHterms IHkeys]];
    [split; [constructor | intros k []]|].
  apply bind_Ok in Hk as (score & Hscore & Hk).
  apply bind_Ok in Hk as (w & Hw & Hk). injection Hk as <-.
  assert (Hs : 0 <= score <= 1).
  { unfold items_index in Hscore.
    destruct (items_lookup adjusted_scores k) as [s|] eqn:Hs;
      [|discriminate Hscore].
    injection Hscore as ->. clear - Hrange Hs.
    induction adjusted_scores as [|[k' s'] l IH]; [discriminate Hs|].
    apply Forall_cons in Hrange as [Hhead Htail]. simpl in Hs.
    destruct (String.eqb k' k); [injection Hs as <-; exact Hhead | auto]. }
  unfold dict_index in Hw.
  destruct (mk_profile c a m p !! k) as [w'|] eqn:Hlookup; [|discriminate Hw].
  injection Hw as ->.
  assert (Hpillar : In k pillars /\ 0 <= w).
  { apply elem_of_list_to_map_2 in Hlookup.
    repeat (apply elem_of_cons in Hlookup as [Hlookup | Hlookup];
            [injection Hlookup as -> ->; split; [in_fields | assumption]|]).
    apply elem_of_nil in Hlookup. destruct Hlookup. }
  destruct Hpillar as [Hpillar Hw0]. split.
  - simpl. constructor; [|exact IHterms].
    unfold weight_of. rewrite Hlookup. nra.
  - intros k' [<- | Hk']; auto.
Qed.

(** The weighted score is a sum of scores of [0,1] weighted by distinct
    weights of one stage profile. *)
Lemma weighted_score_range (pillar_scores : list (string * Q))
    (data : gmap string pyval) (base_probability : Q) (r : evaluation) :
  NoDup (map fst pillar_scores) ->
  evaluate_startup_comprehensive pillar_scores data base_probability = Ok r ->
  0 <= weighted_score r <= 1.
Proof.
  intros Hnodup H.
  apply evaluate_startup_comprehensive_steps in H
    as (Hadjusted & Hweights & _ & _ & (terms & Hterms & ->)).
  apply adjusted_scores_inv in Hadjusted as [Hkeys Hrange].
  destruct (stage_weights_row (dict_get data "funding_stage" (PyStr "Seed")))
    as (c & a & m & p & Hrow & Hsum & Hc & Ha & Hm & Hp).
  rewrite Hrow in Hweights. injection Hweights as Hweights.
  rewrite <- Hweights in Hterms.
  apply weighted_terms_bounded in Hterms as [Hbounds Hin];
    [|lra | lra | lra | lra | exact Hrange].
  destruct (fold_left_Qplus_bounds _ _ 0 Hbounds) as [Hlo Hhi].
  unfold py_sum. split; [exact Hlo|].
  eapply Qle_trans; [exact Hhi|].
  assert (Htotal : fold_right Qplus 0
                     (map (weight_of (mk_profile c a m p))
                          (map fst (adjusted_pillar_scores r)))
                   = total_weight (mk_profile c a m p)
                       (map fst (adjusted_pillar_scores r))).
  { generalize (map fst (adjusted_pillar_scores r)).
    induction l as [|k l IH]; simpl; [reflexivity | rewrite IH; reflexivity]. }
  rewrite Htotal.
  assert (Hsub : map fst (adjusted_pillar_scores r) ⊆+ pillars).
  { apply NoDup_submseteq.
    - rewrite Hkeys. exact Hnodup.
    - intros k Hk. apply list_elem_of_In, Hin, list_elem_of_In, Hk. }
  pose proof (total_weight_submseteq c a m p _ _
                ltac:(lra) ltac:(lra) ltac:(lra) ltac:(lra) Hsub) as Hle.
  assert (Hall : total_weight (mk_profile c a m p) pillars == c + a + m + p).
  { assert (H1 : mk_profile c a m p !! "capital" = Some c) by reflexivity.
    assert (H2 : mk_profile c a m p !! "advantage" = Some a) by reflexivity.
    assert (H3 : mk_profile c a m p !! "market" = Some m) by reflexivity.
    assert (H4 : mk_profile c a m p !! "people" = Some p) by reflexivity.
    unfold total_weight, weight_of, pillars. cbn [fold_right].
    rewrite H1, H2, H3, H4. ring. }
  lra.
Qed.

(** X9: with distinct pillar keys the weighted score of a returned evaluation
    lies in [0,1], as the response schema requires of it. *)
Theorem weighted_score_in_unit_interval (pillar_scores : list (string * Q))
    (data : gmap string pyval) (base_probability : Q) (r : evaluation) :
  NoDup (map fst pillar_scores) ->
  evaluate_startup_comprehensive pillar_scores data base_probability = Ok r ->
  0 <= weighted_score r <= 1.
Proof. apply weighted_score_range. Qed.

Lemma weighted_score_in_unit_interval_witness :
  exists r,
    evaluate_startup_comprehensive top_scores runway_crisis 0.9 = Ok r
    /\ 0 <= weighted_score r <= 1.
Proof.
  destruct (evaluate_startup_comprehensive_total top_scores runway_crisis 0.9)
    as [r Hr]; [reflexivity | reflexivity|].
  exists r. split; [exact Hr|].
  apply (weighted_score_in_unit_interval top_scores runway_crisis 0.9 r);
    [|exact Hr].
  apply NoDup_ListNoDup. repeat constructor; simpl; intuition discriminate.
Defined.

(** ** Evaluation: errors and verdicts *)

Lemma profile_lookup_None (c a m p : Q) (k : string) :
  existsb (String.eqb k) pillars = false -> mk_profile c a m p !! k = None.
Proof.
  intros H. apply not_elem_of_list_to_map_1. simpl.
  intros Hin. apply list_elem_of_In in Hin.
  assert (Hex : existsb (String.eqb k) pillars = true).
  { apply existsb_exists. exists k. split; [exact Hin | apply String.eqb_refl]. }
  congruence.
Qed.

(** The threshold check stops at the first key that is not a pillar. *)
Lemma below_threshold_KeyError (c a m p : Q)
    (adjusted_scores : list (string * Q)) :
  pillar_keys_ok adjusted_scores = false ->
  exists k,
    In k (map fst adjusted_scores) /\ ~ In k pillars
    /\ filterM (fun '(pillar, score) =>
                  let* t := dict_index (mk_profile c a m p) pillar in
                  Ok (Qltb score t))
               adjusted_scores = Raise (KeyError k).
Proof.
  unfold pillar_keys_ok.
  induction adjusted_scores as [|[k s] l IH];
    cbn [forallb map filterM fst]; [discriminate|].
  destruct (existsb (String.eqb k) pillars) eqn:Hk; cbn [andb].
  - intros H. destruct (IH H) as (k' & Hin & Hnot & Hraise).
    exists k'. split; [right; exact Hin|]. split; [exact Hnot|].
    apply existsb_exists in Hk as (x & Hx & Heq).
    apply String.eqb_eq in Heq. subst x.
    destruct (profile_has_pillars c a m p k Hx) as [q Hq].
    unfold dict_index at 1. rewrite Hq. cbn [bind]. rewrite Hraise.
    reflexivity.
  - intros _. exists k. split; [left; reflexivity|]. split.
    + intros Hin.
      assert (Hex : existsb (String.eqb k) pillars = true).
      { apply existsb_exists. exists k.
        split; [exact Hin | apply String.eqb_refl]. }
      congruence.
    + unfold dict_index. rewrite (profile_lookup_None c a m p k Hk).
      reflexivity.
Qed.

Lemma pillar_keys_ok_keys (l k : list (string * Q)) :
  map fst l = map fst k -> pillar_keys_ok l = pillar_keys_ok k.
Proof.
  unfold pillar_keys_ok. revert k.
  induction l as [|[x s] l IH]; intros [|[y t] k] Hmap;
    cbn [map fst forallb] in *; try discriminate Hmap; [reflexivity|].
  injection Hmap as -> Hmap. rewrite (IH k Hmap). reflexivity.
Qed.

(** X10: a pillar score set with a key that is not one of the four pillars
    makes the evaluation raise [KeyError] for the first such key: the
    adjuster lets the key through, the threshold lookup does not. *)
Theorem evaluation_rejects_unknown_pillar (pillar_scores : list (string * Q))
    (data : gmap string pyval) (base_probability : Q) :
  metrics_well_typed data = true ->
  pillar_keys_ok pillar_scores = false ->
  exists k,
    In k (map fst pillar_scores) /\ ~ In k pillars
    /\ evaluate_startup_comprehensive pillar_scores data base_probability
       = Raise (KeyError k).
Proof.
  intros Htyped Hkeys. unfold evaluate_startup_comprehensive.
  destruct (check_critical_failures_total data Htyped) as [failures ->].
  destruct (adjusted_scores_Ok data pillar_scores Htyped)
    as (adjusted_scores & -> & Hadj).
  destruct (get_stage_weights_Ok (dict_get data "funding_stage" (PyStr "Seed")))
    as (wc & wa & wm & wp & ->).
  destruct (get_stage_thresholds_Ok (dict_get data "funding_stage" (PyStr "Seed")))
    as (tc & ta & tm & tp & ->).
  cbn [bind].
  rewrite <- (pillar_keys_ok_keys _ _ Hadj) in Hkeys.
  destruct (below_threshold_KeyError tc ta tm tp adjusted_scores Hkeys)
    as (k & Hin & Hnot & ->).
  exists k. rewrite <- Hadj. auto.
Qed.

Lemma evaluation_rejects_unknown_pillar_witness :
  evaluate_startup_comprehensive [("capital", 0.8); ("team", 0.9)]
    runway_crisis 0.5 = Raise (KeyError "team").
Proof.
  destruct (evaluation_rejects_unknown_pillar
              [("capital", 0.8); ("team", 0.9)] runway_crisis 0.5)
    as (k & _ & _ & Hraise); [reflexivity | reflexivity|].
  rewrite Hraise. vm_compute in Hraise. injection Hraise as <-. reflexivity.
Defined.

(** X11: a returned verdict is PASS exactly when there is no critical failure,
    no pillar below threshold and a weighted score of at least 0.6; with
    three or more pillars below threshold it is FAIL. *)
Theorem verdict_pass_exactly (pillar_scores : list (string * Q))
    (data : gmap string pyval) (base_probability : Q) (r : evaluation) :
  evaluate_startup_comprehensive pillar_scores data base_probability = Ok r ->
  (verdict r = "PASS" <->
   critical_failures r = [] /\ below_threshold r = []
   /\ 0.6 <= weighted_score r)
  /\ ((3 <= length (below_threshold r))%nat -> verdict r = "FAIL").
Proof.
  intros H.
  apply evaluate_startup_comprehensive_inv in H as (_ & Hverdict & _).
  unfold verdict_of in Hverdict.
  destruct (critical_failures r) as [|f fs];
    [|injection Hverdict as -> _ _; split;
      [split; [discriminate | intros [Hf _]; discriminate Hf] | reflexivity]].
  cbn [length Nat.eqb negb] in Hverdict.
  destruct (Qgeb (weighted_score r) 0.6) eqn:H6;
    destruct (Qgeb (weighted_score r) 0.55) eqn:H55;
    destruct (Qgeb (weighted_score r) 0.5) eqn:H5;
    destruct (below_threshold r) as [|p1 [|p2 [|p3 l]]];
    cbn [length Nat.eqb Nat.leb andb] in Hverdict;
    injection Hverdict as -> _ _;
    (split;
     [split;
      [try discriminate; intros _; repeat split; apply Qgeb_le, H6
      |intros (_ & Hb & Hw); try discriminate Hb;
       try reflexivity;
       apply Qgeb_le in Hw; congruence]
     |simpl; intros Hlen; try reflexivity; lia]).
Qed.

Lemma verdict_pass_exactly_witness :
  exists r,
    evaluate_startup_comprehensive top_scores runway_crisis 0.9 = Ok r
    /\ verdict r <> "PASS".
Proof.
  destruct (evaluate_startup_comprehensive_total top_scores runway_crisis 0.9)
    as [r Hr]; [reflexivity | reflexivity|].
  exists r. split; [exact Hr|].
  destruct (verdict_pass_exactly top_scores runway_crisis 0.9 r Hr)
    as [Hpass _].
  intros Hverdict. apply Hpass in Hverdict as (Hnone & _).
  vm_compute in Hr. injection Hr as Hr. rewrite <- Hr in Hnone.
  discriminate Hnone.
Defined.

(** ** Evaluation: the base probability *)

(** The base probability only enters the adjusted probability. *)
Lemma evaluate_startup_comprehensive_rebase (pillar_scores : list (string * Q))
    (data : gmap string pyval) (base base' : Q) (r : evaluation) :
  evaluate_startup_comprehensive pillar_scores data base = Ok r ->
  exists r',
    evaluate_startup_comprehensive pillar_scores data base' = Ok r'
    /\ verdict r' = verdict r
    /\ strength r' = strength r
    /\ risk_level r' = risk_level r
    /\ weighted_score r' = weighted_score r
    /\ below_threshold r' = below_threshold r
    /\ critical_failures r' = critical_failures r.
Proof.
  unfold evaluate_startup_comprehensive. intros H.
  apply bind_Ok in H as (failures & -> & H). cbn [bind].
  apply bind_Ok in H as (adjusted_scores & -> & H). cbn [bind].
  apply bind_Ok in H as (weights & -> & H). cbn [bind].
  apply bind_Ok in H as (thresholds & -> & H). cbn [bind].
  apply bind_Ok in H as (below & -> & H). cbn [bind].
  apply bind_Ok in H as (terms & -> & H). cbn [bind].
  verdict_guards failures below terms;
    injection H as <-; eexists; split; try reflexivity; auto 10.
Qed.

(** Split on every comparison of the goal and of the hypotheses. *)
Ltac order_cases :=
  repeat match goal with
         | |- context [Qltb ?x ?y] =>
             let E := fresh "E" in
             destruct (Qltb x y) eqn:E;
             [apply Qltb_lt in E | apply Qltb_ge in E]
         | _ : context [Qltb ?x ?y] |- _ =>
             let E := fresh "E" in
             destruct (Qltb x y) eqn:E;
             [apply Qltb_lt in E | apply Qltb_ge in E]
         end.

Lemma reconcile_idempotent (verdict : string) (base_probability : Q) :
  reconcile verdict (reconcile verdict base_probability)
  == reconcile verdict base_probability.
Proof.
  unfold reconcile.
  destruct (String.eqb verdict "FAIL");
    [|destruct (String.eqb verdict "CONDITIONAL PASS")];
    unfold py_min, py_max;
    order_cases; lra.
Qed.

Lemma reconcile_monotone (verdict : string) (p q : Q) :
  p <= q -> reconcile verdict p <= reconcile verdict q.
Proof.
  intros Hpq. unfold reconcile.
  destruct (String.eqb verdict "FAIL");
    [|destruct (String.eqb verdict "CONDITIONAL PASS")];
    unfold py_min, py_max;
    order_cases; lra.
Qed.

(** X12: reconciling twice changes nothing: evaluating again with the adjusted
    probability as base gives the same verdict and the same adjusted
    probability; and a higher base probability never gives a lower
    adjusted one. *)
Theorem reconciliation_idempotent_monotone (pillar_scores : list (string * Q))
    (data : gmap string pyval) (base_probability : Q) (r : evaluation) :
  evaluate_startup_comprehensive pillar_scores data base_probability = Ok r ->
  (exists r',
      evaluate_startup_comprehensive pillar_scores data
        (adjusted_probability r) = Ok r'
      /\ verdict r' = verdict r
      /\ adjusted_probability r' == adjusted_probability r)
  /\ (forall higher r',
        base_probability <= higher ->
        evaluate_startup_comprehensive pillar_scores data higher = Ok r' ->
        verdict r' = verdict r
        /\ adjusted_probability r <= adjusted_probability r').
Proof.
  intros H.
  pose proof (evaluate_startup_comprehensive_inv _ _ _ _ H) as (_ & _ & Hprob).
  split.
  - destruct (evaluate_startup_comprehensive_rebase _ _ _
                (adjusted_probability r) _ H) as (r' & Hr' & Hverdict & _).
    exists r'. split; [exact Hr'|]. split; [exact Hverdict|].
    pose proof (evaluate_startup_comprehensive_inv _ _ _ _ Hr')
      as (_ & _ & Hprob').
    rewrite Hprob', Hverdict, Hprob. apply reconcile_idempotent.
  - intros higher r' Hle Hr'.
    destruct (evaluate_startup_comprehensive_rebase _ _ _ higher _ H)
      as (r'' & Hr'' & Hverdict & _).
    rewrite Hr' in Hr''. injection Hr'' as <-.
    split; [exact Hverdict|].
    pose proof (evaluate_startup_comprehensive_inv _ _ _ _ Hr')
      as (_ & _ & Hprob').
    rewrite Hprob, Hprob', Hverdict. apply reconcile_monotone, Hle.
Qed.

Lemma reconciliation_idempotent_monotone_witness :
  exists r r',
    evaluate_startup_comprehensive top_scores runway_crisis 0.9 = Ok r
    /\ evaluate_startup_comprehensive top_scores runway_crisis
         (adjusted_probability r) = Ok r'
    /\ adjusted_probability r' == adjusted_probability r.
Proof.
  destruct (evaluate_startup_comprehensive_total top_scores runway_crisis 0.9)
    as [r Hr]; [reflexivity | reflexivity|].
  destruct (reconciliation_idempotent_monotone top_scores runway_crisis 0.9 r
              Hr) as [(r' & Hr' & _ & Hsame) _].
  exists r, r'. auto.
Defined.

(** ** Risk label *)

Ltac order_bools :=
  repeat match goal with
         | H : Qltb _ _ = true |- _ => apply Qltb_lt in H
         | H : Qltb _ _ = false |- _ => apply Qltb_ge in H
         | H : Qgeb _ _ = true |- _ => apply Qgeb_le in H
         | H : Qgeb _ _ = false |- _ =>
             unfold Qgeb in H; apply (Qltb_lt _ _) in H
         end.

Lemma Qgeb_false (x y : Q) : Qgeb x y = false <-> x < y.
Proof.
  unfold Qgeb. rewrite <- (Qltb_lt x y). unfold Qltb.
  destruct (Qle_bool y x); simpl; intuition discriminate.
Qed.

Lemma critical_filter_nil (scores : list (string * Q)) :
  Forall (fun '(p, s) => 0.3 <= s) scores ->
  List.filter (fun '(p, s) => Qltb s 0.3) scores = [].
Proof.
  induction 1 as [|[p s] scores Hs _ IH]; [reflexivity|].
  simpl. apply Qltb_ge in Hs. rewrite Hs. exact IH.
Qed.

(** A pillar score of 0.3 or more never changes the label: when no
    pillar is below 0.3 the label is the one of the probability alone, so
    the "weak" pillars (below 0.5) that the function collects have no
    effect. *)
Theorem risk_level_without_critical_pillar (probability : Q)
    (pillar_scores : list (string * Q)) :
  Forall (fun '(p, s) => 0.3 <= s) pillar_scores ->
  get_risk_level probability (Some pillar_scores)
  = get_risk_level probability None.
Proof.
  intros H. unfold get_risk_level.
  destruct pillar_scores as [|x scores]; [reflexivity|].
  cbv zeta. rewrite (critical_filter_nil _ H). reflexivity.
Qed.

Lemma risk_level_without_critical_pillar_witness :
  get_risk_level 0.8 (Some [("capital", 0.3); ("market", 0.45)])
  = get_risk_level 0.8 None.
Proof.
  apply risk_level_without_critical_pillar.
  repeat constructor; vm_compute; discriminate.
Defined.

Ltac risk_cases :=
  repeat match goal with
         | |- context [if Qgeb ?a ?b then _ else _] =>
             let E := fresh "E" in destruct (Qgeb a b) eqn:E
         end;
  repeat match goal with
         | H : Qgeb _ _ = true |- _ => apply Qgeb_le in H
         | H : Qgeb _ _ = false |- _ => apply Qgeb_false in H
         end.

Ltac ranks :=
  eexists _, _; split; [vm_compute; reflexivity|];
  split; [vm_compute; reflexivity|];
  first [lia | exfalso; lra].

(** X13: a critically weak pillar (score below 0.3) never lowers the
    label: on the ladder from "Low Risk" to "Very High Risk" the label with
    the pillar scores ranks at least as high as the label of the
    probability alone, and with a critical pillar it is never milder than
    "Medium Risk", whatever the probability. *)
Theorem critical_pillar_never_lowers_risk (probability : Q)
    (pillar_scores : option (list (string * Q))) :
  (exists plain scored : nat,
      severity (get_risk_level probability None) = Some plain
      /\ severity (get_risk_level probability pillar_scores) = Some scored
      /\ (plain <= scored)%nat)
  /\ (forall scores p s,
        pillar_scores = Some scores -> In (p, s) scores -> s < 0.3 ->
        In (get_risk_level probability pillar_scores)
           ["Medium Risk (Critical weakness detected)"; "High Risk";
            "Very High Risk"]).
Proof.
  split.
  - unfold get_risk_level.
    destruct pillar_scores as [[|x scores]|]; cbv zeta;
      try destruct (map fst (List.filter _ (x :: scores)));
      risk_cases; ranks.
  - intros scores p s -> Hin Hs. unfold get_risk_level.
    destruct scores as [|x scores]; [destruct Hin|]. cbv zeta.
    destruct (map fst (List.filter _ (x :: scores))) eqn:E.
    + exfalso. apply map_eq_nil in E.
      assert (Hf : In (p, s) (List.filter (fun '(_, s) => Qltb s 0.3)
                                          (x :: scores))).
      { apply filter_In. split; [exact Hin|]. apply Qltb_lt, Hs. }
      rewrite E in Hf. destruct Hf.
    + risk_cases; in_fields.
Qed.

Lemma critical_pillar_never_lowers_risk_witness :
  In (get_risk_level 0.9 (Some [("capital", 0.9); ("people", 0.2)]))
     ["Medium Risk (Critical weakness detected)"; "High Risk";
      "Very High Risk"].
Proof.
  destruct (critical_pillar_never_lowers_risk 0.9
              (Some [("capital", 0.9); ("people", 0.2)])) as [_ H].
  apply (H [("capital", 0.9); ("people", 0.2)] "people" 0.2).
  - reflexivity.
  - right. left. reflexivity.
  - reflexivity.
Defined.

(** X14: the label is antitone in the probability: with the same pillar
    scores, a higher probability never gets a more severe label. *)
Theorem risk_level_antitone (p1 p2 : Q)
    (pillar_scores : option (list (string * Q))) :
  p1 <= p2 ->
  exists lower higher : nat,
    severity (get_risk_level p1 pillar_scores) = Some lower
    /\ severity (get_risk_level p2 pillar_scores) = Some higher
    /\ (higher <= lower)%nat.
Proof.
  intros Hle. unfold get_risk_level.
  destruct pillar_scores as [[|x scores]|]; cbv zeta;
    try destruct (map fst (List.filter _ (x :: scores)));
    risk_cases; ranks.
Qed.

Lemma risk_level_antitone_witness :
  exists lower higher : nat,
    severity (get_risk_level 0.2 (Some [("market", 0.1)])) = Some lower
    /\ severity (get_risk_level 0.72 (Some [("market", 0.1)])) = Some higher
    /\ (higher <= lower)%nat.
Proof.
  apply risk_level_antitone. vm_compute. discriminate.
Defined.

(** ** Temporal insights *)

Lemma min_by_spec {A} (key : A -> Q) (best : A) (rest : list A) :
  In (min_by key best rest) (best :: rest)
  /\ Forall (fun x => key (min_by key best rest) <= key x) (best :: rest).
Proof.
  revert best. induction rest as [|x rest IH]; intros best; simpl.
  - split; [left; reflexivity|]. repeat constructor. lra.
  - destruct (IH (if Qltb (key x) (key best) then x else best)) as [Hin Hall].
    apply Forall_cons in Hall as [Hhd Hall]. split.
    + destruct Hin as [<-|Hin]; [|right; right; exact Hin].
      destruct (Qltb (key x) (key best)); [right; left|left]; reflexivity.
    + destruct (Qltb (key x) (key best)) eqn:E.
      * apply Qltb_lt in E. repeat constructor; [lra|lra|exact Hall].
      * apply Qltb_ge in E. repeat constructor; [lra|lra|exact Hall].
Qed.

Ltac bool_cases :=
  repeat match goal with
         | |- context [Qltb ?a ?b] =>
             let E := fresh "E" in destruct (Qltb a b) eqn:E
         end;
  repeat match goal with
         | H : Qltb _ _ = true |- _ => apply Qltb_lt in H
         | H : Qltb _ _ = false |- _ => apply Qltb_ge in H
         end.

Lemma critical_period_spec (predictions : gmap string Q) :
  let short := dict_get predictions "short_term" 0.5 in
  let medium := dict_get predictions "medium_term" 0.5 in
  let long := dict_get predictions "long_term" 0.5 in
  (_identify_critical_period predictions = "none"
   /\ 0.3 <= short /\ 0.3 <= medium /\ 0.3 <= long)
  \/ (In (_identify_critical_period predictions)
         ["short_term"; "medium_term"; "long_term"]
      /\ dict_get predictions (_identify_critical_period predictions) 0.5 < 0.3
      /\ dict_get predictions (_identify_critical_period predictions) 0.5 <= short
      /\ dict_get predictions (_identify_critical_period predictions) 0.5 <= medium
      /\ dict_get predictions (_identify_critical_period predictions) 0.5 <= long).
Proof.
  intros short medium long. unfold _identify_critical_period.
  destruct (min_by_spec (fun p => dict_get predictions p 0.5)
              "short_term" ["medium_term"; "long_term"]) as [Hin Hall].
  set (min_period := min_by _ _ _) in *. cbv zeta.
  apply Forall_cons in Hall as [Hs Hall].
  apply Forall_cons in Hall as [Hm Hall].
  apply Forall_cons in Hall as [Hl _].
  fold short in Hs. fold medium in Hm. fold long in Hl.
  destruct (Qltb (dict_get predictions min_period 0.5) 0.3) eqn:E.
  - right. apply Qltb_lt in E. auto.
  - left. apply Qltb_ge in E. repeat split; lra.
Qed.

(** X15: the advice of the temporal model is never contradictory: at most two
    recommendations are given, each at most once, and "Maintain momentum"
    is never combined with "Immediate action needed" or with "Build
    stronger moats". *)
Theorem temporal_recommendations_consistent (predictions : gmap string Q) :
  let advice := _generate_recommendations predictions in
  (length advice <= 2)%nat
  /\ NoDup advice
  /\ ~ (In rec_momentum advice /\ In rec_immediate_action advice)
  /\ ~ (In rec_momentum advice /\ In rec_moats advice).
Proof.
  unfold _generate_recommendations.
  generalize (dict_get predictions "short_term" 0.5),
             (dict_get predictions "medium_term" 0.5),
             (dict_get predictions "long_term" 0.5).
  intros short medium long. cbv zeta.
  bool_cases; try (exfalso; lra); cbn [andb append_if app length];
    (split; [lia|]);
    (split; [repeat constructor; rewrite ?list_elem_of_In; simpl;
             intuition discriminate|]);
    split; intros [H1 H2]; simpl in H1, H2; intuition discriminate.
Qed.

Lemma trajectory_strong_growth (predictions : gmap string Q) :
  _determine_trajectory predictions = "strong_growth" ->
  0.7 < dict_get predictions "short_term" 0.5
  /\ 0.7 < dict_get predictions "medium_term" 0.5
  /\ 0.7 < dict_get predictions "long_term" 0.5.
Proof.
  unfold _determine_trajectory. cbv zeta.
  bool_cases; cbn [andb]; intros H; try discriminate H; auto.
Qed.

Lemma trajectory_immediate_risk (predictions : gmap string Q) :
  _determine_trajectory predictions = "immediate_risk" ->
  dict_get predictions "short_term" 0.5 < 0.3.
Proof.
  unfold _determine_trajectory. cbv zeta.
  bool_cases; cbn [andb]; intros H; try discriminate H; auto.
Qed.

(** X16: the three temporal insights agree with each other.  A "strong_growth"
    trajectory comes with no critical period and with the single advice
    to maintain momentum; an "immediate_risk" trajectory always names a
    critical period, whose prediction is the lowest of the three and below
    0.3, and comes with the advice of immediate action. *)
Theorem temporal_insights_agree (predictions : gmap string Q) :
  let insights := get_temporal_insights predictions in
  (trajectory insights = "strong_growth" ->
   critical_period insights = "none"
   /\ recommendations insights = [rec_momentum])
  /\ (trajectory insights = "immediate_risk" ->
      In (critical_period insights) ["short_term"; "medium_term"; "long_term"]
      /\ dict_get predictions (critical_period insights) 0.5 < 0.3
      /\ In rec_immediate_action (recommendations insights)).
Proof.
  cbn [get_temporal_insights trajectory critical_period recommendations].
  split; intros H.
  - apply trajectory_strong_growth in H as (Hs & Hm & Hl). split.
    + destruct (critical_period_spec predictions)
        as [(Hnone & _)|(Hin & Hlow & _)]; [exact Hnone|].
      exfalso. simpl in Hin.
      destruct Hin as [E|[E|[E|[]]]]; rewrite <- E in Hlow; lra.
    + unfold _generate_recommendations. cbv zeta.
      revert Hs Hm Hl.
      generalize (dict_get predictions "short_term" 0.5),
                 (dict_get predictions "medium_term" 0.5),
                 (dict_get predictions "long_term" 0.5).
      intros short medium long Hs Hm Hl.
      bool_cases; try (exfalso; lra); reflexivity.
  - apply trajectory_immediate_risk in H.
    destruct (critical_period_spec predictions)
      as [(_ & Hs & _)|(Hin & Hlow & _)]; [exfalso; lra|].
    split; [exact Hin|]. split; [exact Hlow|].
    unfold _generate_recommendations. cbv zeta.
    revert H.
    generalize (dict_get predictions "short_term" 0.5),
               (dict_get predictions "medium_term" 0.5),
               (dict_get predictions "long_term" 0.5).
    intros short medium long H.
    bool_cases; try (exfalso; lra); cbn [andb append_if app]; in_fields.
Qed.

Lemma temporal_insights_agree_witness :
  In (_identify_critical_period
        {[ "short_term" := 0.2; "medium_term" := 0.6; "long_term" := 0.4 ]})
     ["short_term"; "medium_term"; "long_term"]
  /\ In rec_immediate_action
        (_generate_recommendations
           {[ "short_term" := 0.2; "medium_term" := 0.6; "long_term" := 0.4 ]}).
Proof.
  destruct (temporal_insights_agree
              {[ "short_term" := 0.2; "medium_term" := 0.6;
                 "long_term" := 0.4 ]}) as [_ H].
  destruct H as (H1 & _ & H2); [reflexivity|].
  split; [exact H1 | exact H2].
Defined.

(** ** Derived fields of the request schema *)

Lemma py_div_pos (a b : Q) : 0 < b -> py_div a b = Ok (a / b).
Proof.
  intros H. apply py_div_Ok. destruct (Qeq_bool b 0) eqn:E; [|reflexivity].
  apply Qeq_bool_iff in E. lra.
Qed.

Lemma min_with_int_number (x : Q) (c : Z) :
  as_number (min_with_int x c) = Some (py_min x (inject_Z c)).
Proof. unfold min_with_int, py_min. destruct (Qltb _ _); reflexivity. Qed.

Lemma Qdiv_nonneg (a b : Q) : 0 <= a -> 0 < b -> 0 <= a / b.
Proof.
  intros Ha Hb. unfold Qdiv. apply Qmult_le_0_compat; [exact Ha|].
  apply Qlt_le_weak, Qinv_lt_0_compat, Hb.
Qed.

Lemma Qdiv_pos (a b : Q) : 0 < a -> 0 < b -> 0 < a / b.
Proof.
  intros Ha Hb. unfold Qdiv. apply Qmult_lt_0_compat; [exact Ha|].
  apply Qinv_lt_0_compat, Hb.
Qed.

(** What [calculate_runway] answers when the field is omitted and the two
    other fields have been validated as numbers. *)
Lemma calculate_runway_derived (values : gmap string pyval)
    (cash_v burn_v : pyval) (cash burn : Q) :
  values !! "cash_on_hand_usd" = Some cash_v -> as_number cash_v = Some cash ->
  values !! "monthly_burn_usd" = Some burn_v -> as_number burn_v = Some burn ->
  exists r,
    calculate_runway PyNone values = Ok r
    /\ as_number r
       = Some (if Qltb 0 burn then py_min (cash / burn) 120 else 120).
Proof.
  intros Hc Hcn Hb Hbn.
  unfold calculate_runway, has_key, dict_index, num_gt, num_div.
  rewrite Hc, Hb. cbn [is_none andb bind]. rewrite Hbn. cbn [bind].
  destruct (Qltb 0 burn) eqn:E.
  - rewrite Hcn. apply Qltb_lt in E. rewrite (py_div_pos _ _ E). cbn [bind].
    eexists. split; [reflexivity|]. apply min_with_int_number.
  - eexists. split; reflexivity.
Qed.

(** X17: on validated fields, floats where they are present, the validator of
    [runway_months] never raises.  A submitted value is returned as it
    is; a derived value is a number of at most 120, and it is not
    negative when the validated cash is not. *)
Theorem calculate_runway_total (v : pyval) (values : gmap string pyval) :
  validated_floats ["cash_on_hand_usd"; "monthly_burn_usd"] values = true ->
  exists r,
    calculate_runway v values = Ok r
    /\ (v <> PyNone -> r = v)
    /\ (v = PyNone ->
        exists months,
          as_number r = Some months /\ months <= 120
          /\ ((forall cash_v cash,
                  values !! "cash_on_hand_usd" = Some cash_v ->
                  as_number cash_v = Some cash -> 0 <= cash) ->
              0 <= months)).
Proof.
  intros _.
  destruct v;
    try (eexists; split; [reflexivity|];
         split; [reflexivity|discriminate]).
  assert (Hzero : exists months : Q,
             as_number (PyInt 0) = Some months /\ months <= 120
             /\ ((forall cash_v cash,
                     values !! "cash_on_hand_usd" = Some cash_v ->
                     as_number cash_v = Some cash -> 0 <= cash) ->
                 0 <= months)).
  { exists 0. split; [reflexivity|]. split; [|intros _]; lra. }
  unfold calculate_runway, has_key, dict_index, num_gt, num_div.
  destruct (values !! "cash_on_hand_usd") as [cash_v|] eqn:Hc;
    [|eexists; split; [reflexivity|]; split; [congruence|intros _; exact Hzero]].
  destruct (values !! "monthly_burn_usd") as [burn_v|] eqn:Hb;
    [|eexists; split; [reflexivity|]; split; [congruence|intros _; exact Hzero]].
  cbn [is_none andb bind].
  destruct (as_number burn_v) as [burn|] eqn:Hbn;
    [|eexists; split; [reflexivity|]; split; [congruence|intros _; exact Hzero]].
  cbn [bind]. destruct (Qltb 0 burn) eqn:E.
  - destruct (as_number cash_v) as [cash|] eqn:Hcn;
      [|eexists; split; [reflexivity|]; split;
        [congruence|intros _; exact Hzero]].
    apply Qltb_lt in E. rewrite (py_div_pos _ _ E). cbn [bind].
    eexists. split; [reflexivity|]. split; [congruence|intros _].
    exists (py_min (cash / burn) 120).
    split; [apply min_with_int_number|]. split; [apply py_min_le_r|].
    intros Hcash. apply py_min_glb; [|lra].
    apply Qdiv_nonneg; [|exact E]. apply (Hcash cash_v). reflexivity. exact Hcn.
  - eexists. split; [reflexivity|]. split; [congruence|intros _].
    exists 120. split; [reflexivity|]. split; [|intros _]; lra.
Qed.

Lemma calculate_runway_total_witness :
  exists r months,
    calculate_runway PyNone {[ "cash_on_hand_usd" := PyFloat 500000;
                               "monthly_burn_usd" := PyFloat 50000 ]} = Ok r
    /\ as_number r = Some months /\ months <= 120.
Proof.
  destruct (calculate_runway_total PyNone
              {[ "cash_on_hand_usd" := PyFloat 500000;
                 "monthly_burn_usd" := PyFloat 50000 ]})
    as (r & Hr & _ & Hderived); [reflexivity|].
  destruct (Hderived eq_refl) as (months & Hm & Hle & _).
  exists r, months. auto.
Defined.

Lemma failures_of_runway (data : gmap string pyval)
    (runway burn concentration churn : Q) :
  In runway_failure (failures_of data runway burn concentration churn)
  <-> runway < 3.
Proof.
  rewrite <- Qltb_lt. unfold failures_of, append_if.
  destruct (num_eq _ _ && truthy _), (Qltb 20 churn), (Qltb 80 concentration),
    (Qltb 5 burn), (Qltb runway 3); simpl;
    unfold runway_failure, burn_failure, concentration_failure, churn_failure,
      founder_failure; intuition discriminate.
Qed.

Lemma failures_of_burn (data : gmap string pyval)
    (runway burn concentration churn : Q) :
  In burn_failure (failures_of data runway burn concentration churn)
  <-> 5 < burn.
Proof.
  rewrite <- Qltb_lt. unfold failures_of, append_if.
  destruct (num_eq _ _ && truthy _), (Qltb 20 churn), (Qltb 80 concentration),
    (Qltb 5 burn), (Qltb runway 3); simpl;
    unfold runway_failure, burn_failure, concentration_failure, churn_failure,
      founder_failure; intuition discriminate.
Qed.

(** X18: a request that omits [runway_months], with validated floats for the
    cash and the burn, is flagged "Less than 3 months runway" only if its
    burn is positive and its cash divided by the burn is below 3; with no
    burn the derived runway is 120 and the rule stays silent. *)
Theorem derived_runway_failure (values data : gmap string pyval)
    (r runway_v : pyval) (cash burn months runway : Q)
    (failures : list string) :
  values !! "cash_on_hand_usd" = Some (PyFloat cash) ->
  values !! "monthly_burn_usd" = Some (PyFloat burn) ->
  calculate_runway PyNone values = Ok r -> as_number r = Some months ->
  data !! "runway_months" = Some runway_v ->
  as_number runway_v = Some runway -> runway == months ->
  check_critical_failures data = Ok failures ->
  (In runway_failure failures -> 0 < burn /\ cash / burn < 3)
  /\ (burn <= 0 -> months == 120 /\ ~ In runway_failure failures).
Proof.
  intros Hc Hb Hr Hm Hdata Hrn Hsame Hcheck.
  destruct (calculate_runway_derived _ _ _ _ _ Hc eq_refl Hb eq_refl)
    as (r' & Hr' & Hn).
  rewrite Hr in Hr'. injection Hr' as <-. rewrite Hn in Hm. injection Hm as <-.
  apply check_critical_failures_spec in Hcheck
    as (runway' & b & c & h & Hrunway & _ & _ & _ & ->).
  unfold dict_get in Hrunway. rewrite Hdata, Hrn in Hrunway.
  injection Hrunway as <-.
  pose proof (failures_of_runway data runway b c h) as Hflag.
  destruct (Qltb 0 burn) eqn:E.
  - apply Qltb_lt in E. split; [|intros H; lra].
    intros H. apply Hflag in H. split; [exact E|].
    unfold py_min in Hsame. destruct (Qltb 120 (cash / burn)); lra.
  - apply Qltb_ge in E. split.
    + intros H. apply Hflag in H. lra.
    + intros _. split; [reflexivity|]. intros H. apply Hflag in H. lra.
Qed.

Lemma derived_runway_failure_witness :
  0 < 50000 /\ 100000 / 50000 < 3.
Proof.
  destruct (derived_runway_failure
              {[ "cash_on_hand_usd" := PyFloat 100000;
                 "monthly_burn_usd" := PyFloat 50000 ]}
              {[ "runway_months" := PyFloat 2; "founders_count" := PyInt 2 ]}
              (PyFloat (100000 / 50000)) (PyFloat 2) 100000 50000
              (100000 / 50000) 2 [runway_failure]) as [Hflagged _];
    try reflexivity.
  apply Hflagged. left. reflexivity.
Defined.

(** What [calculate_burn_multiple] answers when the field is omitted and
    the two other fields have been validated as numbers. *)
Lemma calculate_burn_multiple_derived (values : gmap string pyval)
    (burn_v arr_v : pyval) (burn arr : Q) :
  values !! "monthly_burn_usd" = Some burn_v -> as_number burn_v = Some burn ->
  values !! "annual_revenue_run_rate" = Some arr_v ->
  as_number arr_v = Some arr ->
  exists r,
    calculate_burn_multiple PyNone values = Ok r
    /\ as_number r
       = Some (if Qltb 0 (burn * 12) then
                 if Qltb 0 arr then
                   if Qltb 0 (burn * 12 - arr) then
                     py_min ((burn * 12 - arr) / (arr * 0.2)) 100
                   else 0
                 else 5
               else 0).
Proof.
  intros Hb Hbn Ha Han.
  unfold calculate_burn_multiple, has_key, dict_index, num_gt, num_mul, num_sub.
  rewrite Hb, Ha. cbn [is_none andb bind]. rewrite Hbn. cbn [bind].
  destruct (Qltb 0 (burn * 12)) eqn:E; cbn [bind];
    [|eexists; split; reflexivity].
  rewrite Han. cbn [bind].
  destruct (Qltb 0 arr) eqn:E'; [|eexists; split; reflexivity].
  cbn [bind].
  destruct (Qltb 0 (burn * 12 - arr)) eqn:E''; cbn [bind];
    [|eexists; split; reflexivity].
  assert (Hnew : 0 < arr * 0.2) by (apply Qltb_lt in E'; lra).
  rewrite (proj2 (Qltb_lt _ _) Hnew), (py_div_pos _ _ Hnew). cbn [bind].
  eexists. split; [reflexivity|]. apply min_with_int_number.
Qed.

Ltac answer r :=
  exists r; split; [reflexivity|];
  split; [congruence|intros _; eexists; split;
    [reflexivity|vm_compute; split; discriminate]].

(** X19: on validated fields, floats where they are present, the validator of
    [burn_multiple] never raises.  A submitted value is returned as it
    is; a derived value is a number between 0 and 100. *)
Theorem calculate_burn_multiple_total (v : pyval) (values : gmap string pyval) :
  validated_floats ["monthly_burn_usd"; "annual_revenue_run_rate"] values
  = true ->
  exists r,
    calculate_burn_multiple v values = Ok r
    /\ (v <> PyNone -> r = v)
    /\ (v = PyNone ->
        exists multiple, as_number r = Some multiple /\ 0 <= multiple <= 100).
Proof.
  intros _.
  destruct v;
    try (eexists; split; [reflexivity|];
         split; [reflexivity|discriminate]).
  unfold calculate_burn_multiple, has_key, dict_index, num_gt, num_mul, num_sub.
  destruct (values !! "monthly_burn_usd") as [burn_v|] eqn:Hb;
    [|answer (PyInt 1)].
  destruct (values !! "annual_revenue_run_rate") as [arr_v|] eqn:Ha;
    [|answer (PyInt 1)].
  cbn [is_none andb bind].
  destruct (as_number burn_v) as [burn|] eqn:Hbn; [|answer (PyInt 1)].
  cbn [bind]. destruct (Qltb 0 (burn * 12)) eqn:E; cbn [bind];
    [|answer (PyInt 0)].
  destruct (as_number arr_v) as [arr|] eqn:Han; [|answer (PyInt 1)].
  cbn [bind]. destruct (Qltb 0 arr) eqn:E'; [|answer (PyInt 5)].
  cbn [bind]. destruct (Qltb 0 (burn * 12 - arr)) eqn:E''; cbn [bind];
    [|answer (PyInt 0)].
  assert (Hnew : 0 < arr * 0.2) by (apply Qltb_lt in E'; lra).
  rewrite (proj2 (Qltb_lt _ _) Hnew), (py_div_pos _ _ Hnew). cbn [bind].
  eexists. split; [reflexivity|]. split; [congruence|intros _].
  exists (py_min ((burn * 12 - arr) / (arr * 0.2)) 100).
  split; [apply min_with_int_number|]. split.
  - apply py_min_glb; [|lra]. apply Qlt_le_weak, Qdiv_pos; [|exact Hnew].
    apply Qltb_lt, E''.
  - apply py_min_le_r.
Qed.

Lemma calculate_burn_multiple_total_witness :
  exists r multiple,
    calculate_burn_multiple PyNone
      {[ "monthly_burn_usd" := PyFloat 90000;
         "annual_revenue_run_rate" := PyFloat 100000 ]} = Ok r
    /\ as_number r = Some multiple /\ 0 <= multiple <= 100.
Proof.
  destruct (calculate_burn_multiple_total PyNone
              {[ "monthly_burn_usd" := PyFloat 90000;
                 "annual_revenue_run_rate" := PyFloat 100000 ]})
    as (r & Hr & _ & Hderived); [reflexivity|].
  destruct (Hderived eq_refl) as (multiple & Hm & Hrange).
  exists r, multiple. auto.
Defined.

(** X20: a request that omits [burn_multiple], with validated floats for the
    burn and the revenue, is flagged "Burning >5x revenue" only if it has
    burn and revenue and the annual burn exceeds the revenue.  A startup
    that burns without revenue is never flagged: its derived multiple is
    5, and the rule asks for more than 5.  Without burn the derived
    multiple is 0. *)
Theorem derived_burn_multiple_failure (values data : gmap string pyval)
    (r multiple_v : pyval) (burn arr derived multiple : Q)
    (failures : list string) :
  values !! "monthly_burn_usd" = Some (PyFloat burn) ->
  values !! "annual_revenue_run_rate" = Some (PyFloat arr) ->
  calculate_burn_multiple PyNone values = Ok r -> as_number r = Some derived ->
  data !! "burn_multiple" = Some multiple_v ->
  as_number multiple_v = Some multiple -> multiple == derived ->
  check_critical_failures data = Ok failures ->
  (In burn_failure failures -> 0 < burn /\ 0 < arr /\ arr < burn * 12)
  /\ (0 < burn -> arr <= 0 ->
      derived == 5 /\ ~ In burn_failure failures)
  /\ (burn <= 0 -> derived == 0 /\ ~ In burn_failure failures).
Proof.
  intros Hb Ha Hr Hd Hdata Hmn Hsame Hcheck.
  destruct (calculate_burn_multiple_derived _ _ _ _ _ Hb eq_refl Ha eq_refl)
    as (r' & Hr' & Hn).
  rewrite Hr in Hr'. injection Hr' as <-. rewrite Hn in Hd. injection Hd as <-.
  apply check_critical_failures_spec in Hcheck
    as (rw & b & c & h & _ & Hburn & _ & _ & ->).
  unfold dict_get in Hburn. rewrite Hdata, Hmn in Hburn.
  injection Hburn as <-.
  pose proof (failures_of_burn data rw multiple c h) as Hflag.
  destruct (Qltb 0 (burn * 12)) eqn:E;
    [apply Qltb_lt in E | apply Qltb_ge in E].
  - destruct (Qltb 0 arr) eqn:E';
      [apply Qltb_lt in E' | apply Qltb_ge in E'].
    + split; [|split; intros; lra].
      intros H. apply Hflag in H.
      destruct (Qltb 0 (burn * 12 - arr)) eqn:E'';
        [apply Qltb_lt in E''; lra | lra].
    + split; [intros H; apply Hflag in H; lra|].
      split; [|intros; lra].
      intros _ _. split; [reflexivity|]. intros H. apply Hflag in H. lra.
  - split; [intros H; apply Hflag in H; lra|].
    split; [intros; lra|].
    intros _. split; [reflexivity|]. intros H. apply Hflag in H. lra.
Qed.

Lemma derived_burn_multiple_failure_witness :
  0 < 90000 /\ 0 < 100000 /\ 100000 < 90000 * 12.
Proof.
  destruct (derived_burn_multiple_failure
              {[ "monthly_burn_usd" := PyFloat 90000;
                 "annual_revenue_run_rate" := PyFloat 100000 ]}
              {[ "burn_multiple" := PyFloat 49; "runway_months" := PyFloat 12;
                 "founders_count" := PyInt 2 ]}
              (PyFloat ((90000 * 12 - 100000) / (100000 * 0.2))) (PyFloat 49)
              90000 100000 ((90000 * 12 - 100000) / (100000 * 0.2)) 49
              [burn_failure]) as [Hflagged _];
    try reflexivity.
  apply Hflagged. left. reflexivity.
Defined.

(** ** Recommendation text *)

Lemma obind_Done {A B} (m : outcome A) (k : A -> outcome B) (b : B) :
  obind m k = Done b <-> exists a, m = Done a /\ k a = Done b.
Proof.
  destruct m as [a|e]; simpl; split.
  - intros H. exists a. auto.
  - intros (a' & Ha & Hk). congruence.
  - discriminate.
  - intros (a' & Ha & _). discriminate.
Qed.

Lemma lift_Done {A} (m : result A) (a : A) : lift m = Done a <-> m = Ok a.
Proof. destruct m; simpl; split; congruence. Qed.

(** The bullets that a section adds: one for each selected pillar, in
    order, each the bullet followed by the advice of that pillar. *)
Lemma append_bullets_inv (kind : string) (selected : list (string * Q))
    (rec_parts parts : list string) :
  append_bullets kind selected rec_parts = Ok parts ->
  exists bullets,
    parts = rec_parts ++ bullets
    /\ Forall2 (fun sel b =>
                  exists r, detailed_rec (fst sel) kind = Ok r
                            /\ b = bullet +:+ r)
               selected bullets.
Proof.
  revert rec_parts. induction selected as [|[pillar score] rest IH];
    intros rec_parts H; simpl in H.
  - injection H as <-. exists []. rewrite app_nil_r. split; constructor.
  - apply bind_Ok in H as (r & Hr & H).
    destruct (IH _ H) as (bullets & -> & Hall).
    exists ((bullet +:+ r) :: bullets). rewrite <- app_assoc. simpl.
    split; [reflexivity|]. constructor; [|exact Hall].
    exists r. auto.
Qed.

Lemma detailed_rec_Ok (pillar kind : string) :
  In pillar pillars -> In kind ["critical"; "weak"; "improve"] ->
  exists r, detailed_rec pillar kind = Ok r.
Proof.
  intros Hp Hk. simpl in Hp, Hk.
  destruct Hp as [<-|[<-|[<-|[<-|[]]]]];
    destruct Hk as [<-|[<-|[<-|[]]]]; eexists; reflexivity.
Qed.

Lemma append_bullets_Ok (kind : string) (selected : list (string * Q))
    (rec_parts : list string) :
  In kind ["critical"; "weak"; "improve"] ->
  (forall k, In k (map fst selected) -> In k pillars) ->
  exists parts, append_bullets kind selected rec_parts = Ok parts.
Proof.
  intros Hkind. revert rec_parts.
  induction selected as [|[pillar score] rest IH]; intros rec_parts Hkeys;
    simpl.
  - eauto.
  - destruct (detailed_rec_Ok pillar kind) as [r ->];
      [apply Hkeys; left; reflexivity | exact Hkind |].
    cbn [bind]. apply IH. intros k Hk. apply Hkeys. right. exact Hk.
Qed.

Lemma headline_cases (probability : Q) :
  In (if Qgeb probability 0.75 then headline_strong
      else if Qgeb probability 0.6 then headline_solid
      else if Qgeb probability 0.45 then headline_moderate
      else if Qgeb probability 0.3 then headline_challenges
      else headline_pivot) headlines.
Proof.
  unfold headlines.
  destruct (Qgeb probability 0.75), (Qgeb probability 0.6),
    (Qgeb probability 0.45), (Qgeb probability 0.3); in_fields.
Qed.

Lemma length_take_2 {A} (l : list A) : (length (take 2 l) <= 2)%nat.
Proof. rewrite length_take. lia. Qed.

Lemma Forall2_In_r {A B} (P : A -> B -> Prop) (l : list A) (k : list B)
    (b : B) :
  Forall2 P l k -> In b k -> exists a, In a l /\ P a b.
Proof.
  induction 1 as [|x y l k Hxy _ IH]; intros Hin; [destruct Hin|].
  destruct Hin as [<-|Hin].
  - exists x. split; [left; reflexivity | exact Hxy].
  - destruct (IH Hin) as (a & Ha & HP). exists a. split; [right|]; assumption.
Qed.

Lemma In_take {A} (n : nat) (l : list A) (x : A) : In x (take n l) -> In x l.
Proof.
  intros H. apply list_elem_of_In. apply list_elem_of_In in H.
  apply (subseteq_take n), H.
Qed.

(** The two selections of [generate_recommendation]. *)
Lemma critical_pillars_spec (scores : list (string * Q)) (k : string) (s : Q) :
  In (k, s) (List.filter (fun '(p, s) => Qltb s 0.3) scores)
  <-> In (k, s) scores /\ s < 0.3.
Proof. rewrite filter_In, Qltb_lt. reflexivity. Qed.

Lemma weak_pillars_spec (scores : list (string * Q)) (k : string) (s : Q) :
  In (k, s) (List.filter (fun '(p, s) => Qle_bool 0.3 s && Qltb s 0.5) scores)
  <-> In (k, s) scores /\ 0.3 <= s < 0.5.
Proof.
  rewrite filter_In, andb_true_iff, Qle_bool_iff, Qltb_lt. reflexivity.
Qed.

Lemma nil_or_In {A} (l : list A) : l = [] \/ exists x, In x l.
Proof. destruct l as [|x l]; [left; reflexivity | right; exists x; left; reflexivity]. Qed.

(** The section between the headline and the targets: which one it is,
    and what it holds. *)
Lemma recommendation_section (probability : Q)
    (pillar_scores : list (string * Q)) (rec_parts parts : list string) :
  match List.filter (fun '(p, s) => Qltb s 0.3) pillar_scores,
        List.filter (fun '(p, s) => Qle_bool 0.3 s && Qltb s 0.5)
                    pillar_scores
  with
  | _ :: _, _ =>
      lift (append_bullets "critical"
              (take 2 (List.filter (fun '(p, s) => Qltb s 0.3) pillar_scores))
              (rec_parts ++ ["CRITICAL FIXES:"]))
  | [], _ :: _ =>
      lift (append_bullets "weak"
              (take 2 (List.filter
                         (fun '(p, s) => Qle_bool 0.3 s && Qltb s 0.5)
                         pillar_scores))
              (rec_parts ++ ["PRIORITY IMPROVEMENTS:"]))
  | [], [] =>
      if Qgeb probability 0.6 then
        do* weakest := weakest_pillar pillar_scores in
        do* r := lift (detailed_rec weakest "improve") in
        Done (rec_parts ++ ["OPTIMIZE: " +:+ r])
      else Done rec_parts
  end = Done parts ->
  exists section,
    parts = rec_parts ++ section
    /\ (((exists k s, In (k, s) pillar_scores /\ s < 0.3)
         /\ exists bullets,
             section = "CRITICAL FIXES:" :: bullets
             /\ (1 <= length bullets <= 2)%nat
             /\ Forall (fun b =>
                          exists k s r,
                            In (k, s) pillar_scores /\ s < 0.3
                            /\ detailed_rec k "critical" = Ok r
                            /\ b = bullet +:+ r) bullets)
        \/ ((forall k s, In (k, s) pillar_scores -> 0.3 <= s)
            /\ (exists k s, In (k, s) pillar_scores /\ s < 0.5)
            /\ exists bullets,
                section = "PRIORITY IMPROVEMENTS:" :: bullets
                /\ (1 <= length bullets <= 2)%nat
                /\ Forall (fun b =>
                             exists k s r,
                               In (k, s) pillar_scores /\ 0.3 <= s < 0.5
                               /\ detailed_rec k "weak" = Ok r
                               /\ b = bullet +:+ r) bullets)
        \/ ((forall k s, In (k, s) pillar_scores -> 0.5 <= s)
            /\ 0.6 <= probability
            /\ exists r, section = ["OPTIMIZE: " +:+ r])
        \/ ((forall k s, In (k, s) pillar_scores -> 0.5 <= s)
            /\ probability < 0.6
            /\ section = [])).
Proof.
  set (critical := List.filter (fun '(p, s) => Qltb s 0.3) pillar_scores).
  set (weak := List.filter _ pillar_scores).
  pose proof (critical_pillars_spec pillar_scores) as Hcrit.
  pose proof (weak_pillars_spec pillar_scores) as Hweak.
  fold critical in Hcrit. fold weak in Hweak.
  assert (Hbullets : forall kind (selected : list (string * Q)) rec_parts'
                            (P : string -> Q -> Prop),
             (forall k s, In (k, s) selected -> In (k, s) pillar_scores /\ P k s) ->
             selected <> [] ->
             lift (append_bullets kind (take 2 selected) rec_parts')
             = Done parts ->
             exists bullets,
               parts = rec_parts' ++ bullets
               /\ (1 <= length bullets <= 2)%nat
               /\ Forall (fun b =>
                            exists k s r,
                              In (k, s) pillar_scores /\ P k s
                              /\ detailed_rec k kind = Ok r
                              /\ b = bullet +:+ r) bullets).
  { intros kind selected rec_parts' P Hsel Hne H.
    apply lift_Done, append_bullets_inv in H as (bullets & -> & Hall).
    exists bullets. split; [reflexivity|]. split.
    - rewrite <- (Forall2_length _ _ _ Hall), length_take.
      destruct selected; [congruence|]. cbn [length]. lia.
    - apply Forall_forall. intros b Hb. apply list_elem_of_In in Hb.
      destruct (Forall2_In_r _ _ _ _ Hall Hb) as ([k s] & Hin & r & Hr & ->).
      apply In_take in Hin. destruct (Hsel k s Hin) as [Hin' HP].
      exists k, s, r. auto. }
  destruct critical as [|[ck cs] critical'] eqn:Ec.
  - assert (Hnocrit : forall k s, In (k, s) pillar_scores -> 0.3 <= s).
    { intros k s Hin. destruct (Qlt_le_dec s 0.3) as [Hlt|Hle]; [|exact Hle].
      destruct (proj2 (Hcrit k s) (conj Hin Hlt)). }
    destruct weak as [|[wk ws] weak'] eqn:Ew.
    + assert (Hnoweak : forall k s, In (k, s) pillar_scores -> 0.5 <= s).
      { intros k s Hin. destruct (Qlt_le_dec s 0.5) as [Hlt|Hle]; [|exact Hle].
        destruct (proj2 (Hweak k s) (conj Hin (conj (Hnocrit k s Hin) Hlt))). }
      intros H. destruct (Qgeb probability 0.6) eqn:E6.
      * apply obind_Done in H as (weakest & _ & H).
        apply obind_Done in H as (r & _ & H). injection H as <-.
        eexists. split; [reflexivity|]. right. right. left.
        apply Qgeb_le in E6. eauto.
      * injection H as <-. exists []. rewrite app_nil_r.
        split; [reflexivity|]. right. right. right.
        apply Qgeb_false in E6. auto.
    + intros H.
      destruct (Hbullets "weak" ((wk, ws) :: weak')
                  (rec_parts ++ ["PRIORITY IMPROVEMENTS:"])
                  (fun _ s => 0.3 <= s < 0.5))
        as (bullets & -> & Hlen & Hall);
        [intros k s Hin; apply Hweak, Hin | discriminate | exact H |].
      exists ("PRIORITY IMPROVEMENTS:" :: bullets). rewrite <- app_assoc.
      split; [reflexivity|]. right. left.
      split; [exact Hnocrit|]. split; [|eauto].
      exists wk, ws.
      destruct (proj1 (Hweak wk ws) (or_introl eq_refl)) as [Hin [_ Hlt]].
      auto.
  - intros H.
    destruct (Hbullets "critical" ((ck, cs) :: critical')
                (rec_parts ++ ["CRITICAL FIXES:"]) (fun _ s => s < 0.3))
      as (bullets & -> & Hlen & Hall);
      [intros k s Hin; apply Hcrit, Hin | discriminate | exact H |].
    exists ("CRITICAL FIXES:" :: bullets). rewrite <- app_assoc.
    split; [reflexivity|]. left. split; [|eauto].
    exists ck, cs. apply Hcrit. left. reflexivity.
Qed.

(** The targets that close the list. *)
Lemma recommendation_targets (data : option (gmap string pyval))
    (rec_parts parts : list string) :
  match data with
  | Some data =>
      if negb (Nat.eqb (size data) 0) then
        do* c := lift (num_lt (dict_get data "runway_months" (PyInt 0)) 18) in
        do* c0 := lift (num_lt (dict_get data "net_dollar_retention_percent"
                                         (PyInt 0)) 110) in
        do* c1 := lift (num_lt (dict_get data "product_retention_30d" (PyInt 0))
                               0.6) in
        match append_if c1 "30d retention >60%"
                (append_if c0 "NDR >110%"
                   (append_if c "runway 18+ months" [])) with
        | _ :: _ =>
            Done (rec_parts
                  ++ ["KEY TARGETS: "
                      +:+ join ", "
                            (append_if c1 "30d retention >60%"
                               (append_if c0 "NDR >110%"
                                  (append_if c "runway 18+ months" [])))])
        | [] => Done rec_parts
        end
      else Done rec_parts
  | None => Done rec_parts
  end = Done parts ->
  exists targets,
    parts = rec_parts ++ targets
    /\ (targets = [] \/ exists t, targets = ["KEY TARGETS: " +:+ t]).
Proof.
  assert (Hnone : Done rec_parts = Done parts ->
                  exists targets,
                    parts = rec_parts ++ targets
                    /\ (targets = []
                        \/ exists t, targets = ["KEY TARGETS: " +:+ t])).
  { intros H. injection H as <-. exists []. rewrite app_nil_r. auto. }
  destruct data as [data|]; [|exact Hnone].
  destruct (negb (Nat.eqb (size data) 0)); [|exact Hnone].
  intros H.
  apply obind_Done in H as (c & _ & H).
  apply obind_Done in H as (c0 & _ & H).
  apply obind_Done in H as (c1 & _ & H).
  destruct (append_if c1 _ _); [exact (Hnone H)|].
  injection H as <-. eexists. split; [reflexivity|]. right. eauto.
Qed.

(** The list [rec_parts] that a returned recommendation joins: the
    headline of the band of the probability, one section, the targets. *)
Lemma recommendation_parts_shape (probability : Q)
    (pillar_scores : list (string * Q)) (data : option (gmap string pyval))
    (parts : list string) :
  recommendation_parts probability pillar_scores data = Done parts ->
  exists section targets,
    parts
    = (if Qgeb probability 0.75 then headline_strong
       else if Qgeb probability 0.6 then headline_solid
       else if Qgeb probability 0.45 then headline_moderate
       else if Qgeb probability 0.3 then headline_challenges
       else headline_pivot) :: section ++ targets
    /\ (((exists k s, In (k, s) pillar_scores /\ s < 0.3)
         /\ exists bullets,
             section = "CRITICAL FIXES:" :: bullets
             /\ (1 <= length bullets <= 2)%nat
             /\ Forall (fun b =>
                          exists k s r,
                            In (k, s) pillar_scores /\ s < 0.3
                            /\ detailed_rec k "critical" = Ok r
                            /\ b = bullet +:+ r) bullets)
        \/ ((forall k s, In (k, s) pillar_scores -> 0.3 <= s)
            /\ (exists k s, In (k, s) pillar_scores /\ s < 0.5)
            /\ exists bullets,
                section = "PRIORITY IMPROVEMENTS:" :: bullets
                /\ (1 <= length bullets <= 2)%nat
                /\ Forall (fun b =>
                             exists k s r,
                               In (k, s) pillar_scores /\ 0.3 <= s < 0.5
                               /\ detailed_rec k "weak" = Ok r
                               /\ b = bullet +:+ r) bullets)
        \/ ((forall k s, In (k, s) pillar_scores -> 0.5 <= s)
            /\ 0.6 <= probability
            /\ exists r, section = ["OPTIMIZE: " +:+ r])
        \/ ((forall k s, In (k, s) pillar_scores -> 0.5 <= s)
            /\ probability < 0.6
            /\ section = []))
    /\ (targets = [] \/ exists t, targets = ["KEY TARGETS: " +:+ t]).
Proof.
  unfold recommendation_parts. cbv zeta. intros H.
  apply obind_Done in H as (parts1 & Hsec & Htargets).
  apply recommendation_section in Hsec as (section & -> & Hsection).
  apply (recommendation_targets data) in Htargets as (targets & -> & Htargets).
  exists section, targets. split; [|auto].
  destruct (Qgeb probability 0.75), (Qgeb probability 0.6),
    (Qgeb probability 0.45), (Qgeb probability 0.3);
    rewrite <- app_assoc; reflexivity.
Qed.

(** The kinds of part are told apart by how they start. *)
Ltac clash H := exfalso; vm_compute in H; discriminate H.

Lemma headline_kind (h : string) :
  In h headlines ->
  h <> "CRITICAL FIXES:" /\ h <> "PRIORITY IMPROVEMENTS:"
  /\ (forall r, h <> "OPTIMIZE: " +:+ r) /\ is_bullet h = false.
Proof.
  unfold headlines. simpl.
  intros [<-|[<-|[<-|[<-|[<-|[]]]]]];
    (split; [intros H; clash H|]); (split; [intros H; clash H|]);
    (split; [intros r H; clash H | reflexivity]).
Qed.

Lemma is_bullet_bullet (r : string) : is_bullet (bullet +:+ r) = true.
Proof.
  unfold is_bullet, bullet. simpl.
  repeat match goal with
         | |- context [Ascii.ascii_dec ?a ?b] =>
             destruct (Ascii.ascii_dec a b) as [_|Hne]; [|exfalso; apply Hne; reflexivity]
         end.
  destruct r; reflexivity.
Qed.

Ltac split_bullets bullets Hlen Hall :=
  destruct bullets as [|?b [|?b [|?b ?bs]]];
  cbn [length] in Hlen; try (exfalso; lia);
  repeat match goal with
         | H : Forall _ (_ :: _) |- _ => apply Forall_cons in H as [? H]
         end;
  repeat match goal with
         | H : exists k s r, _ /\ _ /\ _ /\ _ = bullet +:+ _ |- _ =>
             let k := fresh "k" in
             let s := fresh "s" in
             let r := fresh "r" in
             let Hin := fresh "Hin" in
             let Hs := fresh "Hs" in
             let Hr := fresh "Hr" in
             destruct H as (k & s & r & Hin & Hs & Hr & ->)
         end.

Ltac each_part H :=
  cbn [In app] in H;
  repeat match type of H with
         | _ \/ _ => destruct H as [H|H]
         end.

(** X21: the list the recommendation joins with spaces starts with one of
    the five headlines and has at most five parts, at most two of them
    bullets.  It holds "CRITICAL FIXES:" exactly when a pillar is below
    0.3, "PRIORITY IMPROVEMENTS:" exactly when no pillar is below 0.3 and
    one is below 0.5, and an "OPTIMIZE:" part exactly when every pillar is
    at least 0.5 and the probability at least 0.6.  Every bullet is the
    critical advice of a pillar below 0.3, or the weak advice of a pillar
    of [0.3, 0.5) when no pillar is below 0.3: next to a critical pillar
    the weak ones are not mentioned. *)
Theorem recommendation_structure (probability : Q)
    (pillar_scores : list (string * Q)) (data : option (gmap string pyval))
    (text : string) :
  generate_recommendation probability pillar_scores data = Done text ->
  exists parts,
    recommendation_parts probability pillar_scores data = Done parts
    /\ text = join " " parts
    /\ (exists headline rest, parts = headline :: rest /\ In headline headlines)
    /\ (length parts <= 5)%nat
    /\ (length (List.filter is_bullet parts) <= 2)%nat
    /\ (In "CRITICAL FIXES:" parts
        <-> exists k s, In (k, s) pillar_scores /\ s < 0.3)
    /\ (In "PRIORITY IMPROVEMENTS:" parts
        <-> (forall k s, In (k, s) pillar_scores -> 0.3 <= s)
            /\ exists k s, In (k, s) pillar_scores /\ s < 0.5)
    /\ ((exists r, In ("OPTIMIZE: " +:+ r) parts)
        <-> (forall k s, In (k, s) pillar_scores -> 0.5 <= s)
            /\ 0.6 <= probability)
    /\ (forall part, In part parts -> is_bullet part = true ->
        exists k s kind r,
          In (k, s) pillar_scores /\ detailed_rec k kind = Ok r
          /\ part = bullet +:+ r
          /\ ((kind = "critical" /\ s < 0.3)
              \/ (kind = "weak" /\ 0.3 <= s < 0.5
                  /\ forall k' s', In (k', s') pillar_scores -> 0.3 <= s'))).
Proof.
  unfold generate_recommendation. intros H.
  apply obind_Done in H as (parts & Hparts & Htext). injection Htext as <-.
  exists parts. split; [exact Hparts|]. split; [reflexivity|].
  apply recommendation_parts_shape in Hparts
    as (section & targets & -> & Hsection & Htargets).
  pose proof (headline_cases probability) as Hh.
  set (h := if Qgeb probability 0.75 then _ else _) in *. clearbody h.
  destruct (headline_kind h Hh) as (Hh1 & Hh2 & Hh3 & Hh4).
  split; [eauto|].
  assert (Hkey : forall t, is_bullet ("KEY TARGETS: " +:+ t) = false)
    by reflexivity.
  assert (Hopt : forall r, is_bullet ("OPTIMIZE: " +:+ r) = false)
    by reflexivity.
  destruct Hsection
    as [(Hex & bullets & -> & Hlen & Hall)
       |[(Hno & Hex & bullets & -> & Hlen & Hall)
        |[(Hno & Hp & r0 & ->)|(Hno & Hp & ->)]]];
    destruct Htargets as [->|[t ->]];
    try split_bullets bullets Hlen Hall.
  all: (split; [cbn [length app]; lia|]).
  all: (split;
     [cbn [List.filter app];
      rewrite ?Hh4, ?is_bullet_bullet, ?Hkey, ?Hopt;
      change (is_bullet "CRITICAL FIXES:") with false;
      change (is_bullet "PRIORITY IMPROVEMENTS:") with false;
      cbn [length]; lia|]).
  all: (split;
     [split;
      [intros Hmem; each_part Hmem;
       first [exact Hex | contradiction | clash Hmem]
      |intros (k' & s' & Hmem' & Hs');
       first [cbn [In app]; right; left; reflexivity
             |exfalso; specialize (Hno k' s' Hmem'); lra]]|]).
  all: (split;
     [split;
      [intros Hmem; each_part Hmem;
       first [split; [exact Hno | exact Hex] | contradiction | clash Hmem]
      |intros (Hno' & k' & s' & Hmem' & Hs');
       first [cbn [In app]; right; left; reflexivity
             |exfalso; destruct Hex as (k'' & s'' & Hmem'' & Hs'');
              specialize (Hno' k'' s'' Hmem''); lra
             |exfalso; specialize (Hno k' s' Hmem'); lra]]|]).
  all: (split;
     [split;
      [intros (r' & Hmem); each_part Hmem;
       first [split; [exact Hno | exact Hp] | contradiction
             | destruct (Hh3 _ Hmem) | clash Hmem]
      |intros (Hno' & Hp');
       first [exists r0; cbn [In app]; right; left; reflexivity
             |exfalso; lra
             |exfalso; destruct Hex as (k'' & s'' & Hmem'' & Hs'');
              specialize (Hno' k'' s'' Hmem''); lra]]|]).
  all: intros part Hmem Hb; each_part Hmem; try contradiction; subst part;
  first
    [exfalso; congruence
    |exfalso; rewrite ?Hkey, ?Hopt in Hb; discriminate Hb
    |exfalso; vm_compute in Hb; discriminate Hb
    |match goal with
     | Hr : detailed_rec ?k ?kind = Ok ?r
       |- exists _ _ _ _, _ /\ _ /\ bullet +:+ ?r = _ /\ _ =>
         match goal with
         | Hi : In (k, ?s) _ |- _ =>
             exists k, s, kind, r;
             split; [exact Hi|]; split; [exact Hr|];
             split; [reflexivity|];
             first [left; split; [reflexivity | assumption]
                   |right; split; [reflexivity|]; split; assumption]
         end
     end].
Qed.

Lemma recommendation_structure_witness :
  exists parts,
    recommendation_parts 0.8 [("capital", 0.2); ("market", 0.4)] None
    = Done parts
    /\ In "CRITICAL FIXES:" parts
    /\ ~ In "PRIORITY IMPROVEMENTS:" parts
    /\ (length (List.filter is_bullet parts) <= 2)%nat.
Proof.
  destruct (recommendation_structure 0.8 [("capital", 0.2); ("market", 0.4)]
              None
              (join " " [headline_strong; "CRITICAL FIXES:";
                         bullet +:+ rec_capital_critical]))
    as (parts & Hparts & _ & _ & _ & Hbullets & Hcritical & Hpriority & _).
  - reflexivity.
  - exists parts. split; [exact Hparts|]. split; [|split; [|exact Hbullets]].
    + apply Hcritical. exists "capital", 0.2.
      split; [left; reflexivity | reflexivity].
    + intros Hin. apply Hpriority in Hin as [Hno _].
      specialize (Hno "capital" 0.2 (or_introl eq_refl)).
      vm_compute in Hno. apply Hno. reflexivity.
Defined.

(** X22: edge cases of the pillar scores.  On an empty score dict the function
    raises [ValueError] (the [min] of an empty sequence) whenever the
    probability is at least 0.6, and returns the bare headline below that;
    a first pillar that is below 0.3 and is not one of the four pillars
    raises [KeyError] with its name. *)
Theorem recommendation_edge_cases (probability : Q)
    (data : option (gmap string pyval)) :
  (0.6 <= probability ->
   generate_recommendation probability [] data = Throw ValueError)
  /\ (probability < 0.6 ->
      exists headline,
        In headline [headline_moderate; headline_challenges; headline_pivot]
        /\ generate_recommendation probability [] None = Done headline)
  /\ (forall k s rest,
        ~ In k pillars -> s < 0.3 ->
        generate_recommendation probability ((k, s) :: rest) data
        = Throw (Builtin (KeyError k))).
Proof.
  split; [|split].
  - intros H. apply Qgeb_le in H.
    unfold generate_recommendation, recommendation_parts.
    cbn [List.filter]. cbv zeta. rewrite H. reflexivity.
  - intros H. unfold generate_recommendation, recommendation_parts.
    cbn [List.filter]. cbv zeta.
    assert (H75 : Qgeb probability 0.75 = false) by (apply Qgeb_false; lra).
    assert (H6 : Qgeb probability 0.6 = false) by (apply Qgeb_false; lra).
    rewrite H75, H6.
    destruct (Qgeb probability 0.45), (Qgeb probability 0.3);
      eexists; (split; [|reflexivity]); in_fields.
  - intros k s rest Hk Hs. apply Qltb_lt in Hs.
    unfold generate_recommendation, recommendation_parts.
    cbn [List.filter]. rewrite Hs. cbv zeta.
    assert (Hrec : detailed_rec k "critical" = Raise (KeyError k)).
    { unfold detailed_rec, dict_index.
      assert (Hnone : detailed_recs !! k = None).
      { apply not_elem_of_list_to_map_1. simpl. intros Hin.
        apply list_elem_of_In in Hin. apply Hk. exact Hin. }
      rewrite Hnone. reflexivity. }
    cbn [take append_bullets]. rewrite Hrec. reflexivity.
Qed.

Lemma recommendation_edge_cases_witness :
  generate_recommendation 0.7 [] None = Throw ValueError
  /\ generate_recommendation 0.7 [("team", 0.1)] None
     = Throw (Builtin (KeyError "team")).
Proof.
  destruct (recommendation_edge_cases 0.7 None) as (H1 & _ & H3).
  split.
  - apply H1. vm_compute. discriminate.
  - apply H3; [simpl; intuition discriminate | reflexivity].
Defined.

(** ** Recommendation after an evaluation *)

Lemma filter_keys {A} (f : string * A -> bool) (l : list (string * A))
    (k : string) :
  In k (map fst (take 2 (List.filter f l))) -> In k (map fst l).
Proof.
  intros H. apply in_map_iff in H as (x & <- & Hx).
  apply in_map. apply list_elem_of_In in Hx.
  apply list_elem_of_In. apply (subseteq_take 2) in Hx.
  apply list_elem_of_In in Hx. apply filter_In in Hx as [Hx _].
  apply list_elem_of_In, Hx.
Qed.

(** Where [recommendation_parts] returns. *)
Lemma recommendation_parts_Done (probability : Q)
    (pillar_scores : list (string * Q)) (data : option (gmap string pyval)) :
  pillar_keys_ok pillar_scores = true ->
  (pillar_scores = [] -> probability < 0.6) ->
  (forall d, data = Some d -> numeric_if_present target_fields d = true) ->
  exists parts, recommendation_parts probability pillar_scores data = Done parts.
Proof.
  intros Hkeys Hempty Hdata. unfold recommendation_parts. cbv zeta.
  set (head := if Qgeb probability 0.75 then _ else _).
  assert (Hsec : exists parts1,
             match List.filter (fun '(p, s) => Qltb s 0.3) pillar_scores,
                   List.filter (fun '(p, s) => Qle_bool 0.3 s && Qltb s 0.5)
                               pillar_scores
             with
             | _ :: _, _ =>
                 lift (append_bullets "critical"
                         (take 2 (List.filter (fun '(p, s) => Qltb s 0.3)
                                              pillar_scores))
                         (head ++ ["CRITICAL FIXES:"]))
             | [], _ :: _ =>
                 lift (append_bullets "weak"
                         (take 2 (List.filter
                                    (fun '(p, s) =>
                                       Qle_bool 0.3 s && Qltb s 0.5)
                                    pillar_scores))
                         (head ++ ["PRIORITY IMPROVEMENTS:"]))
             | [], [] =>
                 if Qgeb probability 0.6 then
                   do* weakest := weakest_pillar pillar_scores in
                   do* r := lift (detailed_rec weakest "improve") in
                   Done (head ++ ["OPTIMIZE: " +:+ r])
                 else Done head
             end = Done parts1).
  { assert (Hb : forall kind f rec_parts,
               In kind ["critical"; "weak"; "improve"] ->
               exists parts1,
                 lift (append_bullets kind
                         (take 2 (List.filter f pillar_scores)) rec_parts)
                 = Done parts1).
    { intros kind f rec_parts Hkind.
      destruct (append_bullets_Ok kind (take 2 (List.filter f pillar_scores))
                  rec_parts Hkind) as [parts1 ->]; [|simpl; eauto].
      intros k Hk. apply filter_keys in Hk.
      eapply pillar_keys_ok_In; eassumption. }
    destruct (List.filter (fun '(p, s) => Qltb s 0.3) pillar_scores) eqn:Ec.
    - destruct (List.filter (fun '(p, s) => Qle_bool 0.3 s && Qltb s 0.5)
                            pillar_scores) eqn:Ew.
      + destruct (Qgeb probability 0.6) eqn:E6; [|eauto].
        destruct pillar_scores as [|first rest].
        { apply Qgeb_le in E6. specialize (Hempty eq_refl). lra. }
        cbn [weakest_pillar obind].
        destruct (detailed_rec_Ok (fst (min_by snd first rest)) "improve")
          as [r ->]; [|in_fields|simpl; eauto].
        eapply pillar_keys_ok_In; [exact Hkeys|].
        apply in_map, min_by_spec.
      + rewrite <- Ew. apply Hb. in_fields.
    - rewrite <- Ec. apply Hb. in_fields. }
  destruct Hsec as [parts1 ->]. cbn [obind].
  destruct data as [d|]; [|eauto].
  destruct (negb (Nat.eqb (size d) 0)); [|eauto].
  specialize (Hdata d eq_refl). unfold num_lt.
  destruct (numeric_if_present_get _ _ "runway_months" 0%Z Hdata
              ltac:(in_fields)) as [x ->].
  destruct (numeric_if_present_get _ _ "net_dollar_retention_percent" 0%Z Hdata
              ltac:(in_fields)) as [y ->].
  destruct (numeric_if_present_get _ _ "product_retention_30d" 0%Z Hdata
              ltac:(in_fields)) as [z ->].
  cbn [lift obind]. destruct (append_if _ _ _); eauto.
Qed.

Lemma filterM_nil {A} (f : A -> result bool) (l : list A) :
  filterM f l = Ok [] -> forall x, In x l -> f x = Ok false.
Proof.
  induction l as [|y l IH]; simpl; intros H x Hx; [destruct Hx|].
  apply bind_Ok in H as (c & Hc & H).
  apply bind_Ok in H as (ys & Hys & H).
  destruct c; [discriminate H|]. injection H as ->.
  destruct Hx as [<-|Hx]; [exact Hc | apply IH; assumption].
Qed.

Lemma profile_lookup_In (c a m p : Q) (k : string) (t : Q) :
  mk_profile c a m p !! k = Some t -> In t [c; a; m; p].
Proof.
  intros H. apply elem_of_list_to_map_2 in H. apply list_elem_of_In in H.
  simpl in H.
  destruct H as [H|[H|[H|[H|[]]]]]; injection H as _ <-; in_fields.
Qed.

(** What an evaluation that returned says about the arguments it hands to
    [generate_recommendation]. *)
Lemma evaluation_for_recommendation (pillar_scores : list (string * Q))
    (data : gmap string pyval) (base_probability : Q) (r : evaluation) :
  evaluate_startup_comprehensive pillar_scores data base_probability = Ok r ->
  pillar_keys_ok (adjusted_pillar_scores r) = true
  /\ (adjusted_pillar_scores r = [] -> adjusted_probability r < 0.6)
  /\ numeric_if_present ["runway_months"] data = true
  /\ (verdict r = "FAIL" -> adjusted_probability r <= 0.45)
  /\ (verdict r = "CONDITIONAL PASS" ->
      0.45 <= adjusted_probability r <= 0.65)
  /\ (verdict r = "PASS" ->
      0.55 <= adjusted_probability r
      /\ forall k s, In (k, s) (adjusted_pillar_scores r) -> 0.3 <= s).
Proof.
  intros H.
  pose proof (evaluate_startup_comprehensive_steps _ _ _ _ H) as Hsteps.
  cbv zeta in Hsteps.
  destruct Hsteps as (_ & _ & Hthresholds & (below & Hbelow & Hb) & Hterms).
  apply evaluate_startup_comprehensive_inv in H
    as (Hfailures & Hverdict & Hprob).
  destruct (stage_thresholds_row (dict_get data "funding_stage" (PyStr "Seed")))
    as (tc & ta & tm & tp & Hrow & Hrange).
  rewrite Hthresholds in Hrow. injection Hrow as Hrow.
  rewrite Hrow in Hbelow.
  split; [|split; [|split; [|split; [|split]]]].
  - destruct (pillar_keys_ok (adjusted_pillar_scores r)) eqn:E; [reflexivity|].
    destruct (below_threshold_KeyError tc ta tm tp _ E) as (k & _ & _ & Hk).
    rewrite Hk in Hbelow. discriminate Hbelow.
  - intros Hnil. destruct Hterms as (terms & Hterms & Hw).
    rewrite Hnil in Hterms. simpl in Hterms. injection Hterms as <-.
    rewrite Hnil in Hbelow. simpl in Hbelow. injection Hbelow as <-.
    rewrite Hprob. unfold verdict_of in Hverdict. rewrite Hb, Hw in Hverdict.
    remember (verdict r) as v eqn:Hv. remember (risk_level r) as l eqn:Hl.
    remember (strength r) as g eqn:Hg. clear Hv Hl Hg.
    destruct (negb (Nat.eqb (length (critical_failures r)) 0));
      vm_compute in Hverdict; injection Hverdict as -> _ _;
      (apply Qle_lt_trans with 0.45; [apply reconcile_fail | lra]).
  - apply check_critical_failures_spec in Hfailures
      as (runway & _ & _ & _ & Hrunway & _).
    unfold numeric_if_present, dict_get, is_number in *. cbn [forallb].
    destruct (data !! "runway_months") as [v|]; [|reflexivity].
    rewrite Hrunway. reflexivity.
  - intros E. rewrite Hprob, E. apply reconcile_fail.
  - intros E. rewrite Hprob, E. apply reconcile_conditional.
  - intros E. split; [rewrite Hprob, E; apply reconcile_pass|].
    intros k s Hin.
    assert (Hnil : below_threshold r = []).
    { unfold verdict_of in Hverdict. rewrite E in Hverdict.
      destruct (negb (Nat.eqb (length (critical_failures r)) 0));
        cbv iota in Hverdict; [discriminate Hverdict|].
      destruct (below_threshold r) as [|b bs]; [reflexivity|].
      cbn [length Nat.eqb andb] in Hverdict.
      destruct (Nat.leb (S (length bs)) 1 && Qgeb (weighted_score r) 0.55);
        cbv iota in Hverdict; [discriminate Hverdict|].
      destruct (Qgeb (weighted_score r) 0.5 && Nat.leb (S (length bs)) 2);
        cbv iota in Hverdict; discriminate Hverdict. }
    rewrite Hb in Hnil. apply map_eq_nil in Hnil. subst below.
    pose proof (filterM_nil _ _ Hbelow _ Hin) as Hks. cbv beta iota in Hks.
    apply bind_Ok in Hks as (t & Ht & Hks). injection Hks as Hks.
    apply Qltb_ge in Hks. unfold dict_index in Ht.
    destruct (mk_profile tc ta tm tp !! k) as [t'|] eqn:Hk; [|discriminate Ht].
    injection Ht as ->. apply profile_lookup_In in Hk.
    rewrite Forall_forall in Hrange. apply list_elem_of_In, Hrange in Hk. lra.
Qed.

(** X23: after an evaluation that returned, the recommendation step of
    [predict] returns too, provided the two retention fields it reads
    besides the runway hold numbers: no pillar key is unknown, and an
    empty score dict gets a FAIL probability, below the 0.6 that would
    reach [min] of an empty sequence. *)
Theorem recommendation_after_evaluation (pillar_scores : list (string * Q))
    (data : gmap string pyval) (base_probability : Q) (r : evaluation) :
  evaluate_startup_comprehensive pillar_scores data base_probability = Ok r ->
  numeric_if_present ["net_dollar_retention_percent"; "product_retention_30d"]
                     data = true ->
  exists text,
    generate_recommendation (adjusted_probability r) (adjusted_pillar_scores r)
                            (Some data) = Done text.
Proof.
  intros H Hdata.
  apply evaluation_for_recommendation in H as (Hkeys & Hempty & Hrunway & _).
  destruct (recommendation_parts_Done (adjusted_probability r)
              (adjusted_pillar_scores r) (Some data) Hkeys Hempty)
    as [parts Hparts].
  - intros d Hd. injection Hd as <-.
    unfold numeric_if_present, target_fields in *. cbn [forallb] in *.
    apply andb_true_iff in Hrunway as [-> _]. exact Hdata.
  - unfold generate_recommendation. rewrite Hparts. simpl. eauto.
Qed.

Lemma recommendation_after_evaluation_witness :
  exists r text,
    evaluate_startup_comprehensive top_scores runway_crisis 0.8 = Ok r
    /\ generate_recommendation (adjusted_probability r)
         (adjusted_pillar_scores r) (Some runway_crisis) = Done text.
Proof.
  destruct (evaluate_startup_comprehensive top_scores runway_crisis 0.8)
    as [r|e] eqn:E; [|vm_compute in E; discriminate E].
  destruct (recommendation_after_evaluation top_scores runway_crisis 0.8 r E)
    as [text Htext]; [reflexivity|].
  exists r, text. split; [reflexivity | exact Htext].
Defined.

(** Where the list of parts holds the marker of the critical section. *)
Lemma critical_fixes_listed (probability : Q)
    (pillar_scores : list (string * Q)) (data : option (gmap string pyval))
    (parts : list string) :
  recommendation_parts probability pillar_scores data = Done parts ->
  In "CRITICAL FIXES:" parts ->
  exists k s, In (k, s) pillar_scores /\ s < 0.3.
Proof.
  intros Hparts.
  apply recommendation_parts_shape in Hparts
    as (section & targets & -> & Hsection & Htargets).
  pose proof (headline_cases probability) as Hh.
  set (h := if Qgeb probability 0.75 then _ else _) in *. clearbody h.
  destruct (headline_kind h Hh) as (Hh1 & _).
  destruct Hsection
    as [(Hex & _)
       |[(_ & _ & bullets & -> & Hlen & Hall)
        |[(_ & _ & r0 & ->)|(_ & _ & ->)]]];
    [intros _; exact Hex|..];
    destruct Htargets as [->|[t ->]];
    try split_bullets bullets Hlen Hall.
  all: intros Hmem; each_part Hmem; first [contradiction | clash Hmem].
Qed.

(** X24: the headline agrees with the verdict of the evaluation it follows.
    The text of the recommendation is the list of parts of
    [recommendation_parts] joined with spaces, and the first part is the
    headline: after a FAIL it never reads better than "Moderate risk",
    after a CONDITIONAL PASS it reads "Solid foundation" or "Moderate
    risk", and after a PASS it never reads worse than "Moderate risk" and
    no part of the list is "CRITICAL FIXES:", since every pillar that
    passed its threshold scores at least 0.3. *)
Theorem recommendation_matches_verdict (pillar_scores : list (string * Q))
    (data : gmap string pyval) (base_probability : Q) (r : evaluation)
    (text : string) :
  evaluate_startup_comprehensive pillar_scores data base_probability = Ok r ->
  generate_recommendation (adjusted_probability r) (adjusted_pillar_scores r)
                          (Some data) = Done text ->
  exists parts headline rest,
    recommendation_parts (adjusted_probability r) (adjusted_pillar_scores r)
                         (Some data) = Done parts
    /\ text = join " " parts
    /\ parts = headline :: rest
    /\ (verdict r = "FAIL" ->
        In headline [headline_moderate; headline_challenges; headline_pivot])
    /\ (verdict r = "CONDITIONAL PASS" ->
        In headline [headline_solid; headline_moderate])
    /\ (verdict r = "PASS" ->
        In headline [headline_strong; headline_solid; headline_moderate]
        /\ ~ In "CRITICAL FIXES:" parts).
Proof.
  intros H Hrec.
  apply evaluation_for_recommendation in H
    as (_ & _ & _ & Hfail & Hcond & Hpass).
  unfold generate_recommendation in Hrec.
  apply obind_Done in Hrec as (parts & Hparts & Htext). injection Htext as <-.
  pose proof (critical_fixes_listed _ _ _ _ Hparts) as Hcritical.
  pose proof (recommendation_parts_shape _ _ _ _ Hparts)
    as (section & targets & Hshape & _).
  set (p := adjusted_probability r) in *.
  exists parts,
    (if Qgeb p 0.75 then headline_strong
     else if Qgeb p 0.6 then headline_solid
     else if Qgeb p 0.45 then headline_moderate
     else if Qgeb p 0.3 then headline_challenges
     else headline_pivot), (section ++ targets).
  split; [exact Hparts|]. split; [reflexivity|]. split; [exact Hshape|].
  clear Hshape Hparts.
  split; [|split].
  - intros E. specialize (Hfail E). risk_cases; try (exfalso; lra); in_fields.
  - intros E. specialize (Hcond E). risk_cases; try (exfalso; lra); in_fields.
  - intros E. destruct (Hpass E) as [Hp Hscores]. split.
    + risk_cases; try (exfalso; lra); in_fields.
    + intros Hin. destruct (Hcritical Hin) as (k & s & Hks & Hs).
      specialize (Hscores k s Hks). lra.
Qed.

Lemma recommendation_matches_verdict_witness :
  exists r text parts headline rest,
    evaluate_startup_comprehensive top_scores busy_startup 0.3 = Ok r
    /\ verdict r = "FAIL"
    /\ text = join " " parts
    /\ parts = headline :: rest
    /\ In headline [headline_moderate; headline_challenges; headline_pivot].
Proof.
  destruct (evaluate_startup_comprehensive top_scores busy_startup 0.3)
    as [r|e] eqn:E; [|vm_compute in E; discriminate E].
  assert (Hfacts : verdict r = "FAIL"
                   /\ exists text,
                       generate_recommendation (adjusted_probability r)
                         (adjusted_pillar_scores r) (Some busy_startup)
                       = Done text).
  { pose proof E as E'. vm_compute in E'. injection E' as <-.
    split; [reflexivity|]. eexists. vm_compute. reflexivity. }
  destruct Hfacts as (Hv & text & Hrec).
  destruct (recommendation_matches_verdict top_scores busy_startup 0.3 r text
              E Hrec)
    as (parts & headline & rest & _ & Htext & Hparts & Hfail & _).
  exists r, text, parts, headline, rest.
  split; [reflexivity|]. split; [exact Hv|]. split; [exact Htext|].
  split; [exact Hparts | exact (Hfail Hv)].
Defined.

(** ** Rate limiting *)

Lemma storage_get_insert (st : storage) (c : string) (l : list Q) :
  storage_get (<[c := l]> st) c = l.
Proof. unfold storage_get. rewrite lookup_insert_eq. reflexivity. Qed.

Lemma storage_get_insert_ne (st : storage) (c c' : string) (l : list Q) :
  c <> c' -> storage_get (<[c := l]> st) c' = storage_get st c'.
Proof. intros H. unfold storage_get. rewrite lookup_insert_ne; auto. Qed.

(** One call of the wrapper around an endpoint that leaves the storage
    alone. *)
Lemma rate_limit_step {A} (max_requests window : Z) (body : outcome A)
    (c : string) (t : Q) (st : storage) :
  rate_limit max_requests window (handler body) c t st
  = let kept := live window t (storage_get st c) in
    if (Z.of_nat (length kept) >=? max_requests)%Z
    then (<[c := kept]> st, Throw (HTTPException 429))
    else (<[c := kept ++ [t]]> (<[c := kept]> st), body).
Proof.
  unfold rate_limit, handler, live. cbv zeta.
  rewrite storage_get_insert. reflexivity.
Qed.

Lemma live_app (window : Z) (now : Q) (l k : list Q) :
  live window now (l ++ k) = live window now l ++ live window now k.
Proof. unfold live. apply List.filter_app. Qed.

Lemma live_live (window : Z) (t now : Q) (l : list Q) :
  t <= now -> live window now (live window t l) = live window now l.
Proof.
  intros Hle. unfold live. induction l as [|ts l IH]; [reflexivity|]. simpl.
  destruct (Qltb (t - ts) (inject_Z window)) eqn:E; simpl.
  - rewrite IH. reflexivity.
  - rewrite IH. destruct (Qltb (now - ts) (inject_Z window)) eqn:E';
      [|reflexivity].
    apply Qltb_ge in E. apply Qltb_lt in E'. exfalso. lra.
Qed.

Lemma live_length_antitone (window : Z) (t now : Q) (l : list Q) :
  t <= now -> (length (live window now l) <= length (live window t l))%nat.
Proof.
  intros Hle. rewrite <- (live_live window t now l Hle).
  unfold live at 1. apply List.filter_length_le.
Qed.

Lemma within_live (window : Z) (now : Q) (l : list Q) :
  Forall (fun ts => ts <= now) l -> within window now l = live window now l.
Proof.
  unfold within, live. induction 1 as [|ts l Hts _ IH]; [reflexivity|].
  simpl. apply Qle_bool_iff in Hts. rewrite Hts, IH. reflexivity.
Qed.

Lemma within_app (window : Z) (now : Q) (l k : list Q) :
  within window now (l ++ k) = within window now l ++ within window now k.
Proof. unfold within. apply List.filter_app. Qed.

Lemma within_later (window : Z) (now t : Q) :
  now < t -> within window now [t] = [].
Proof.
  intros H. unfold within. simpl.
  destruct (Qle_bool t now) eqn:E; [|reflexivity].
  apply Qle_bool_iff in E. exfalso. lra.
Qed.

Lemma served_in_window_cons (c : string) (window : Z) (now : Q)
    (c' : string) (t : Q) (requests : list (string * Q)) (served : bool)
    (log : list bool) :
  length (served_in_window c window now ((c', t) :: requests) (served :: log))
  = (length (if served && String.eqb c' c then within window now [t] else [])
     + length (served_in_window c window now requests log))%nat.
Proof.
  unfold served_in_window, within. simpl.
  destruct served, (String.eqb c' c), (Qle_bool t now),
    (Qltb (now - t) (inject_Z window)); reflexivity.
Qed.

(** The invariant behind the window bound: [prior] are the arrival times
    of the requests of [c] served so far, none later than [t0]. *)
Lemma serve_window_bound (max_requests window : Z) (c : string) :
  (0 <= max_requests)%Z ->
  forall (requests : list (string * Q)) (st : storage) (prior : list Q)
         (t0 : Q),
    StronglySorted Qle (t0 :: map snd requests) ->
    Forall (fun ts => ts <= t0) prior ->
    (forall T, t0 <= T ->
               (length (live window T prior)
                <= length (live window T (storage_get st c)))%nat) ->
    (forall T, (Z.of_nat (length (within window T prior)) <= max_requests)%Z) ->
    forall now,
      (Z.of_nat (length (within window now prior)
                 + length (served_in_window c window now requests
                             (serve max_requests window requests st).2))
       <= max_requests)%Z.
Proof.
  intros Hmax. induction requests as [|[c' t] requests IH];
    intros st prior t0 Hsorted Hprior Hlive Hbound now.
  - simpl. rewrite Nat.add_0_r. apply Hbound.
  - simpl in Hsorted. apply StronglySorted_inv in Hsorted as [Hsorted Ht0].
    apply Forall_cons in Ht0 as [Ht0 _].
    assert (Hprior' : Forall (fun ts => ts <= t) prior).
    { eapply Forall_impl; [exact Hprior|]. simpl. intros ts Hts. lra. }
    cbn [serve]. rewrite rate_limit_step. cbv zeta.
    set (kept := live window t (storage_get st c')).
    destruct (Z.of_nat (length kept) >=? max_requests)%Z eqn:Efull.
    + (* answered 429 *)
      destruct (serve max_requests window requests (<[c':=kept]> st))
        as [st' log] eqn:Eserve.
      cbn [snd]. rewrite served_in_window_cons. cbn [andb length Nat.add].
      specialize (IH (<[c':=kept]> st) prior t Hsorted Hprior').
      rewrite Eserve in IH. apply IH; [|exact Hbound].
      intros T HT. destruct (String.eqb_spec c' c) as [->|Hne].
      * rewrite storage_get_insert. unfold kept.
        rewrite (live_live _ _ _ _ HT). apply Hlive. lra.
      * rewrite storage_get_insert_ne by exact Hne. apply Hlive. lra.
    + (* served *)
      destruct (serve max_requests window requests
                  (<[c':=kept ++ [t]]> (<[c':=kept]> st)))
        as [st' log] eqn:Eserve.
      cbn [snd]. rewrite served_in_window_cons. cbn [andb].
      destruct (String.eqb_spec c' c) as [->|Hne].
      * specialize (IH (<[c:=kept ++ [t]]> (<[c:=kept]> st)) (prior ++ [t]) t
                      Hsorted).
        rewrite Eserve in IH. cbn [snd] in IH.
        rewrite Nat.add_assoc, <- length_app, <- within_app. apply IH.
        -- apply Forall_app. split; [exact Hprior'|].
           repeat constructor. lra.
        -- intros T HT. rewrite storage_get_insert, !live_app, !length_app.
           apply Nat.add_le_mono_r. unfold kept.
           rewrite (live_live _ _ _ _ HT). apply Hlive. lra.
        -- intros T. rewrite within_app, length_app.
           destruct (Qlt_le_dec T t) as [Hlt|Hle].
           ++ rewrite (within_later _ _ _ Hlt). simpl.
              rewrite Nat.add_0_r. apply Hbound.
           ++ rewrite within_live
                by (eapply Forall_impl; [exact Hprior'|]; simpl; intros; lra).
              assert (H1 : (length (live window T prior)
                            <= length kept)%nat).
              { etransitivity; [apply Hlive; lra|].
                apply live_length_antitone, Hle. }
              assert (H2 : (length (within window T [t]) <= 1)%nat).
              { unfold within. simpl.
                destruct (_ && _); simpl; lia. }
              rewrite Z.geb_leb in Efull. apply Z.leb_gt in Efull. lia.
      * cbn [length Nat.add].
        specialize (IH (<[c':=kept ++ [t]]> (<[c':=kept]> st)) prior t
                      Hsorted Hprior').
        rewrite Eserve in IH. apply IH; [|exact Hbound].
        intros T HT. rewrite !storage_get_insert_ne by exact Hne.
        apply Hlive. lra.
Qed.

(** X25: the limiter keeps its promise over any run: when requests arrive in
    time order, then whatever the storage held at the start, no client has
    more than [max_requests] requests served within any window of
    [window] seconds. *)
Theorem rate_limit_sliding_window (max_requests window : Z)
    (requests : list (string * Q)) (st : storage) (client_id : string)
    (now : Q) :
  (0 <= max_requests)%Z ->
  StronglySorted Qle (map snd requests) ->
  (Z.of_nat (length (served_in_window client_id window now requests
                       (serve max_requests window requests st).2))
   <= max_requests)%Z.
Proof.
  intros Hmax Hsorted.
  destruct requests as [|[c t] requests]; [simpl; lia|].
  apply (serve_window_bound max_requests window client_id Hmax
           ((c, t) :: requests) st [] t).
  - constructor; [exact Hsorted|]. simpl.
    apply StronglySorted_inv in Hsorted as [_ Hall].
    constructor; [lra | exact Hall].
  - constructor.
  - intros T _. simpl. lia.
  - intros T. simpl. lia.
Qed.

Lemma rate_limit_sliding_window_witness :
  Z.le
    (Z.of_nat
       (length
          (served_in_window "10.0.0.7" 10 11
             [("10.0.0.7", 0); ("10.0.0.7", 1); ("10.0.0.9", 1);
              ("10.0.0.7", 2); ("10.0.0.7", 11)]
             (serve 2 10
                [("10.0.0.7", 0); ("10.0.0.7", 1); ("10.0.0.9", 1);
                 ("10.0.0.7", 2); ("10.0.0.7", 11)] ∅).2)))
    2.
Proof.
  apply rate_limit_sliding_window; [lia|].
  repeat constructor; vm_compute; discriminate.
Defined.

Lemma serve_cons (max_requests window : Z) (c : string) (t : Q)
    (requests : list (string * Q)) (st : storage) :
  (serve max_requests window ((c, t) :: requests) st).2
  = (let kept := live window t (storage_get st c) in
     if (Z.of_nat (length kept) >=? max_requests)%Z
     then false :: (serve max_requests window requests (<[c := kept]> st)).2
     else true :: (serve max_requests window requests
                     (<[c := kept ++ [t]]> (<[c := kept]> st))).2).
Proof.
  cbn [serve]. rewrite rate_limit_step. cbv zeta.
  destruct (_ >=? _)%Z;
    match goal with
    | |- context [serve ?m ?w ?r ?s] => destruct (serve m w r s)
    end; reflexivity.
Qed.

(** X26: clients do not share a quota: the answers a client gets in a run are
    the answers it would get if the requests of all other clients were
    left out, from any storage that holds the same timestamps for it. *)
Theorem rate_limit_isolation (max_requests window : Z) (client_id : string)
    (requests : list (string * Q)) (st st' : storage) :
  storage_get st client_id = storage_get st' client_id ->
  log_of client_id requests (serve max_requests window requests st).2
  = (serve max_requests window
       (List.filter (fun '(c, t) => String.eqb c client_id) requests) st').2.
Proof.
  revert st st'. induction requests as [|[c t] requests IH];
    intros st st' Hsame; [reflexivity|].
  rewrite serve_cons. cbv zeta. cbn [List.filter].
  destruct (String.eqb_spec c client_id) as [->|Hne].
  - rewrite serve_cons. cbv zeta. rewrite <- Hsame.
    destruct (_ >=? _)%Z; unfold log_of; cbn [combine List.filter];
      rewrite String.eqb_refl; cbn [map snd]; f_equal;
      apply IH; rewrite !storage_get_insert; reflexivity.
  - destruct (_ >=? _)%Z; unfold log_of; cbn [combine List.filter];
      rewrite (proj2 (String.eqb_neq _ _) Hne);
      apply IH; rewrite ?storage_get_insert_ne by exact Hne; exact Hsame.
Qed.

Lemma rate_limit_isolation_witness :
  log_of "10.0.0.7"
    [("10.0.0.7", 0); ("10.0.0.9", 1); ("10.0.0.9", 2); ("10.0.0.7", 3)]
    (serve 1 10
       [("10.0.0.7", 0); ("10.0.0.9", 1); ("10.0.0.9", 2); ("10.0.0.7", 3)]
       {[ "10.0.0.9" := [0.5] ]}).2
  = (serve 1 10
       (List.filter (fun '(c, t) => String.eqb c "10.0.0.7")
          [("10.0.0.7", 0); ("10.0.0.9", 1); ("10.0.0.9", 2);
           ("10.0.0.7", 3)]) ∅).2.
Proof. apply rate_limit_isolation. reflexivity. Defined.

Lemma rate_limit_unfold {A} (max_requests window : Z) (func : endpoint A)
    (c : string) (t : Q) (st : storage) :
  rate_limit max_requests window func c t st
  = let kept := live window t (storage_get st c) in
    if (Z.of_nat (length kept) >=? max_requests)%Z
    then (<[c := kept]> st, Throw (HTTPException 429))
    else func (<[c := kept ++ [t]]> (<[c := kept]> st)).
Proof.
  unfold rate_limit, live. cbv zeta.
  rewrite storage_get_insert. reflexivity.
Qed.

Lemma live_all (window : Z) (now : Q) (l : list Q) :
  Forall (fun ts => now - ts < inject_Z window) l -> live window now l = l.
Proof.
  unfold live. induction 1 as [|ts l Hts _ IH]; [reflexivity|].
  simpl. apply Qltb_lt in Hts. rewrite Hts, IH. reflexivity.
Qed.

(** X27: [/predict_advanced] spends the quota twice, because it calls the
    decorated [predict] from inside its own decorated body.  With [kept]
    the timestamps of the client that are live when the request arrives
    (and still live at the second clock read): up to 98 of them, the call
    goes through and records two timestamps; with exactly 99 the outer
    wrapper lets it in and records it, the inner wrapper answers 429, and
    the [except Exception] of the body turns that into a 500; from 100 on
    the answer is 429 and nothing is recorded. *)
Theorem predict_advanced_counts_twice {A B} (body : outcome A)
    (rest : A -> outcome B) (client_id : string) (outer_time inner_time : Q)
    (st : storage) :
  let kept := live 3600 outer_time (storage_get st client_id) in
  let answer :=
    predict_advanced_endpoint body rest client_id outer_time inner_time st in
  Forall (fun ts => inner_time - ts < 3600) (kept ++ [outer_time]) ->
  ((length kept <= 98)%nat ->
   answer.2 = or_500 (obind (or_500 body) rest)
   /\ storage_get answer.1 client_id = kept ++ [outer_time; inner_time])
  /\ (length kept = 99%nat ->
      answer.2 = Throw (HTTPException 500)
      /\ storage_get answer.1 client_id = kept ++ [outer_time])
  /\ ((100 <= length kept)%nat ->
      answer.2 = Throw (HTTPException 429)
      /\ storage_get answer.1 client_id = kept).
Proof.
  intros kept answer Hlive. subst answer.
  unfold predict_advanced_endpoint, predict_endpoint.
  rewrite rate_limit_unfold. cbv zeta. fold kept.
  assert (Hinner : live 3600 inner_time (kept ++ [outer_time])
                   = kept ++ [outer_time]).
  { apply live_all. exact Hlive. }
  split; [|split]; intros Hlen.
  - destruct (Z.of_nat (length kept) >=? 100)%Z eqn:E;
      [rewrite Z.geb_leb in E; apply Z.leb_le in E; lia|].
    rewrite rate_limit_step. cbv zeta.
    rewrite storage_get_insert, Hinner.
    destruct (Z.of_nat (length (kept ++ [outer_time])) >=? 100)%Z eqn:E';
      [rewrite Z.geb_leb in E'; apply Z.leb_le in E';
       rewrite length_app in E'; simpl in E'; lia|].
    cbn [fst snd]. rewrite storage_get_insert, <- app_assoc.
    split; reflexivity.
  - destruct (Z.of_nat (length kept) >=? 100)%Z eqn:E;
      [rewrite Z.geb_leb in E; apply Z.leb_le in E; lia|].
    rewrite rate_limit_step. cbv zeta.
    rewrite storage_get_insert, Hinner.
    destruct (Z.of_nat (length (kept ++ [outer_time])) >=? 100)%Z eqn:E';
      [|rewrite Z.geb_leb in E'; apply Z.leb_gt in E';
        rewrite length_app in E'; simpl in E'; lia].
    cbn [fst snd obind or_500]. rewrite storage_get_insert.
    split; reflexivity.
  - destruct (Z.of_nat (length kept) >=? 100)%Z eqn:E;
      [|rewrite Z.geb_leb in E; apply Z.leb_gt in E; lia].
    cbn [fst snd]. rewrite storage_get_insert. split; reflexivity.
Qed.

Lemma predict_advanced_counts_twice_witness :
  (predict_advanced_endpoint (Done 0.7) (fun p => Done (p, 0.9))
     "10.0.0.7" 5000 5000.25 {[ "10.0.0.7" := [100; 4000] ]}).2
  = Done (0.7, 0.9)
  /\ storage_get
       (predict_advanced_endpoint (Done 0.7) (fun p => Done (p, 0.9))
          "10.0.0.7" 5000 5000.25 {[ "10.0.0.7" := [100; 4000] ]}).1
       "10.0.0.7"
     = [4000; 5000; 5000.25].
Proof.
  destruct (predict_advanced_counts_twice (Done 0.7) (fun p => Done (p, 0.9))
              "10.0.0.7" 5000 5000.25 {[ "10.0.0.7" := [100; 4000] ]})
    as [H _].
  - repeat constructor; reflexivity.
  - apply H. vm_compute. lia.
Defined.

(** ** Endpoints *)

(** X28: [/batch_predict] never returns a prediction.  It calls the decorated
    [predict] with the metrics in the place of the request, so the wrapper
    fails on [request.client] before it reads the clock or the storage:
    whatever the body of [predict] would answer, every entry of the batch
    is an error entry holding [AttributeError], the count is the length of
    the input, and the rate limiter records nothing. *)
Theorem batch_predict_never_predicts {A} (sha256_hexdigest : string -> string)
    (body : request_arg -> outcome A)
    (metrics_list : list (gmap string pyval * Q)) (st : storage) :
  batch_predict sha256_hexdigest body metrics_list st
  = (st, (map (fun entry : gmap string pyval * Q =>
                 ErrorEntry AttributeError entry.1)
              metrics_list,
          length metrics_list)).
Proof.
  unfold batch_predict.
  assert (H : batch_predictions sha256_hexdigest body metrics_list st
              = (st, map (fun entry : gmap string pyval * Q =>
                            ErrorEntry AttributeError entry.1)
                         metrics_list)).
  { induction metrics_list as [|[metrics t] l IH]; [reflexivity|].
    cbn [batch_predictions predict wrapper client_id_of]. rewrite IH.
    reflexivity. }
  rewrite H, length_map. reflexivity.
Qed.

(** ** The response of [predict] *)

Lemma lift_obind_Done {A B} (m : result A) (k : A -> outcome B) (b : B) :
  obind (lift m) k = Done b <-> exists a, m = Ok a /\ k a = Done b.
Proof.
  rewrite obind_Done. split; intros (a & Ha & Hk); exists a.
  - apply lift_Done in Ha. auto.
  - split; [apply lift_Done, Ha | exact Hk].
Qed.

Lemma in_unit_interval_spec (x : Q) :
  in_unit_interval x = true <-> 0 <= x <= 1.
Proof.
  unfold in_unit_interval. rewrite andb_true_iff, !Qle_bool_iff. reflexivity.
Qed.

Lemma insight_metrics_targets (data : gmap string pyval) :
  insight_metrics_ok data = true ->
  numeric_if_present target_fields data = true.
Proof.
  unfold insight_metrics_ok, numeric_and_present, numeric_if_present,
    insight_fields, target_fields.
  cbn [forallb]. rewrite !andb_true_iff.
  intros ((Hrunway & _ & _ & Hndr & Hretention & _) & _).
  destruct (data !! "runway_months"); [|discriminate Hrunway].
  destruct (data !! "net_dollar_retention_percent"); [|discriminate Hndr].
  destruct (data !! "product_retention_30d"); [|discriminate Hretention].
  auto.
Qed.

(** What a returned response was built from. *)
Lemma predict_response_inv (format : pyval -> string)
    (final_prediction std_dev : Q) (pillar_scores : list (string * Q))
    (data : gmap string pyval) (response : Response.t) :
  predict_response format final_prediction std_dev pillar_scores data
  = Done response ->
  exists evaluation,
    evaluate_startup_comprehensive pillar_scores data final_prediction
    = Ok evaluation
    /\ generate_insights format data (adjusted_probability evaluation)
         (Some (adjusted_pillar_scores evaluation))
       = Ok (Response.key_insights response)
    /\ generate_recommendation (adjusted_probability evaluation)
         (adjusted_pillar_scores evaluation) (Some data)
       = Done (Response.recommendation response)
    /\ Response.success_probability response = adjusted_probability evaluation
    /\ Response.weighted_score response = weighted_score evaluation
    /\ Response.verdict response = verdict evaluation
    /\ Response.critical_failures response = critical_failures evaluation
    /\ Response.pillar_scores response = adjusted_pillar_scores evaluation
    /\ Response.confidence_interval response
       = (py_max 0 (final_prediction - 1.96 * std_dev),
          py_min 1 (final_prediction + 1.96 * std_dev))
    /\ 0 <= Response.success_probability response <= 1
    /\ 0 <= Response.weighted_score response <= 1.
Proof.
  unfold predict_response. cbv zeta. intros H.
  apply lift_obind_Done in H as (evaluation & Hev & H).
  apply lift_obind_Done in H as (insights & Hins & H).
  apply obind_Done in H as (rec & Hrec & H).
  cbn [Response.success_probability Response.weighted_score] in H.
  destruct (in_unit_interval (adjusted_probability evaluation)) eqn:Hp;
    [|discriminate H].
  destruct (in_unit_interval (weighted_score evaluation)) eqn:Hw;
    [|discriminate H].
  injection H as <-. exists evaluation.
  cbn [Response.success_probability Response.weighted_score
       Response.key_insights Response.recommendation Response.verdict
       Response.critical_failures Response.pillar_scores
       Response.confidence_interval].
  apply in_unit_interval_spec in Hp, Hw. auto 12.
Qed.

(** X29: on a typed payload that holds the metrics of the insights, with a
    30-day retention within the [0,1] of the schema, the pillar scores
    keyed by distinct pillar names, a prediction of [0,1] and a standard
    deviation that is not negative, the response is built: nothing raises
    and the schema bounds hold.  Its probability and weighted score lie
    in [0,1], its confidence interval is a sub-interval of [0,1], it has
    at most 6 insights, and it scores the pillars it was given. *)
Theorem predict_response_total (format : pyval -> string)
    (final_prediction std_dev : Q) (pillar_scores : list (string * Q))
    (data : gmap string pyval) :
  0 <= final_prediction <= 1 -> 0 <= std_dev ->
  metrics_well_typed data = true -> insight_metrics_ok data = true ->
  retention_validated data = true ->
  pillar_keys_ok pillar_scores = true -> NoDup (map fst pillar_scores) ->
  exists response,
    predict_response format final_prediction std_dev pillar_scores data
    = Done response
    /\ 0 <= Response.success_probability response <= 1
    /\ 0 <= Response.weighted_score response <= 1
    /\ 0 <= fst (Response.confidence_interval response)
    /\ fst (Response.confidence_interval response)
       <= snd (Response.confidence_interval response)
    /\ snd (Response.confidence_interval response) <= 1
    /\ (length (Response.key_insights response) <= 6)%nat
    /\ map fst (Response.pillar_scores response) = map fst pillar_scores.
Proof.
  intros Hfinal Hstd Htyped Hinsights _ Hkeys Hnodup.
  destruct (evaluate_startup_comprehensive_total pillar_scores data
              final_prediction Htyped Hkeys) as [r Hr].
  destruct (generate_insights_returns format data (adjusted_probability r)
              (Some (adjusted_pillar_scores r)) Hinsights)
    as (insights & Hins & Hlen & _).
  pose proof (evaluation_for_recommendation _ _ _ _ Hr)
    as (Hkeys' & Hempty & _).
  destruct (recommendation_parts_Done (adjusted_probability r)
              (adjusted_pillar_scores r) (Some data) Hkeys' Hempty)
    as [parts Hparts].
  { intros d Hd. injection Hd as <-. apply insight_metrics_targets, Hinsights. }
  pose proof (weighted_score_range _ _ _ _ Hnodup Hr) as Hw.
  pose proof (evaluate_startup_comprehensive_inv _ _ _ _ Hr) as (_ & _ & Hp).
  pose proof (reconcile_range (verdict r) _ Hfinal) as Hp'.
  rewrite <- Hp in Hp'.
  pose proof (evaluate_startup_comprehensive_steps _ _ _ _ Hr) as Hsteps.
  cbv zeta in Hsteps. destruct Hsteps as (Hadj & _).
  apply adjusted_scores_inv in Hadj as [Hadj _].
  unfold predict_response. cbv zeta. rewrite Hr. cbn [lift obind].
  rewrite Hins. cbn [lift obind].
  unfold generate_recommendation. rewrite Hparts. cbn [obind].
  cbn [Response.success_probability Response.weighted_score].
  rewrite (proj2 (in_unit_interval_spec _) Hp'),
    (proj2 (in_unit_interval_spec _) Hw).
  cbn [andb]. eexists. split; [reflexivity|].
  cbn [Response.success_probability Response.weighted_score
       Response.key_insights Response.pillar_scores
       Response.confidence_interval fst snd].
  split; [exact Hp'|]. split; [exact Hw|].
  split; [apply py_max_ge_l|].
  split; [|split; [apply py_min_le_l|auto]].
  apply py_max_lub; apply py_min_glb; lra.
Qed.

Lemma predict_response_total_witness :
  exists response,
    predict_response (fun _ => "") 0.9 0.01 top_scores busy_startup
    = Done response
    /\ 0 <= Response.success_probability response <= 1
    /\ (length (Response.key_insights response) <= 6)%nat.
Proof.
  destruct (predict_response_total (fun _ => "") 0.9 0.01 top_scores
              busy_startup)
    as (response & H & Hp & _ & _ & _ & _ & Hlen & _).
  - split; vm_compute; discriminate.
  - vm_compute. discriminate.
  - reflexivity.
  - reflexivity.
  - reflexivity.
  - reflexivity.
  - apply NoDup_ListNoDup. repeat constructor; simpl; intuition discriminate.
  - exists response. auto.
Defined.

(** X30: the confidence interval is built around the raw prediction and the
    reported probability around the verdict, so the one can miss the
    other: under a FAIL verdict on a prediction whose lower bound exceeds
    0.45 the reported probability lies below the whole interval, and
    under a PASS verdict on a prediction whose upper bound is below 0.55
    it lies above it. *)
Theorem confidence_interval_can_miss (format : pyval -> string)
    (final_prediction std_dev : Q) (pillar_scores : list (string * Q))
    (data : gmap string pyval) (response : Response.t) :
  predict_response format final_prediction std_dev pillar_scores data
  = Done response ->
  (Response.verdict response = "FAIL" ->
   0.45 < final_prediction - 1.96 * std_dev ->
   Response.success_probability response
   < fst (Response.confidence_interval response))
  /\ (Response.verdict response = "PASS" ->
      final_prediction + 1.96 * std_dev < 0.55 ->
      snd (Response.confidence_interval response)
      < Response.success_probability response).
Proof.
  intros H. apply predict_response_inv in H
    as (r & Hr & _ & _ & -> & _ & -> & _ & _ & -> & _).
  apply evaluate_startup_comprehensive_inv in Hr as (_ & _ & ->).
  cbn [fst snd]. split; intros -> Hbound.
  - apply Qle_lt_trans with 0.45; [apply reconcile_fail|].
    apply Qlt_le_trans with (final_prediction - 1.96 * std_dev);
      [exact Hbound | apply py_max_ge_r].
  - apply Qlt_le_trans with 0.55; [|apply reconcile_pass].
    apply Qle_lt_trans with (final_prediction + 1.96 * std_dev);
      [apply py_min_le_r | exact Hbound].
Qed.

Lemma confidence_interval_can_miss_witness :
  exists response,
    predict_response (fun _ => "") 0.9 0.01 top_scores busy_startup
    = Done response
    /\ Response.success_probability response
       < fst (Response.confidence_interval response).
Proof.
  destruct (predict_response (fun _ => "") 0.9 0.01 top_scores busy_startup)
    as [response|e] eqn:E; [|vm_compute in E; discriminate E].
  exists response. split; [reflexivity|].
  destruct (confidence_interval_can_miss _ _ _ _ _ _ E) as [Hfail _].
  apply Hfail.
  - pose proof E as E'. vm_compute in E'. injection E' as <-. reflexivity.
  - reflexivity.
Defined.
